(** * Context Rule Store of the MCP Context Provider (context_provider_server.py)

    Shallow embedding of the [ContextProvider] class.  Python objects that
    the code mutates in place (dicts and lists) live in a heap, so that the
    aliasing created by the shallow [dict.copy()] calls is visible.  Scalars
    are immediate values.  The configuration directory is a finite map from
    file names (relative to [config_dir]) to file contents.  Every method is
    a computation in a state-and-exception monad: as in Python, effects
    performed before an exception survive it. *)

From Stdlib Require Import ZArith Ascii String List Floats.
From stdpp Require Import base gmap strings list.

Local Open Scope Z_scope.
Set Warnings "-register-all".
Set Warnings "-inexact-float".

(** ** Python values *)

Definition loc := positive.

(** Numbers are Python [int]s; JSON floats are not modelled. *)
Inductive value : Type :=
  | VNone
  | VBool (b : bool)
  | VInt (z : Z)
  | VStr (s : string)
  | VRef (l : loc).

Global Instance value_eq_dec : EqDecision value.
Proof. solve_decision. Defined.

(** Heap objects: a [dict] (insertion-ordered, string keys, as produced
    by [json.load]) or a [list]. *)
Inductive obj : Type :=
  | ODict (kvs : list (string * value))
  | OList (xs : list value).

(** JSON documents as written by [json.dump] / read by [json.load]. *)
Inductive json : Type :=
  | JNull
  | JBool (b : bool)
  | JInt (z : Z)
  | JStr (s : string)
  | JArr (xs : list json)
  | JObj (kvs : list (string * json)).

(** A file of the configuration directory: a JSON document, or bytes
    that [json.load] rejects. *)
Inductive file : Type :=
  | FJson (j : json)
  | FRaw (s : string).

Inductive exc_kind : Type :=
  | TypeError | KeyError | AttributeError | ValueError | OSError
  | FileExistsError | UnboundLocalError.

Record exc : Type := Exc { exc_type : exc_kind; exc_msg : string }.

Record datetime : Type := {
  dt_year : Z; dt_month : Z; dt_day : Z;
  dt_hour : Z; dt_minute : Z; dt_second : Z; dt_microsecond : Z }.

(** The environment of one call: the clock reading [datetime.now()], the
    paths on which [open(..., 'w')] / [shutil.copy2] fail, the value of
    [AUTO_LOAD_CONTEXTS], whether the configuration directory exists, and
    the wall-clock duration of a session initialisation (microseconds). *)
Record env : Type := {
  now : datetime;
  write_fails : string -> bool;
  auto_load : bool;
  dir_exists : bool;
  elapsed_us : Z }.

(** [self.session_status]; the keys added after the initial assignment
    are optional fields. *)
Record session_status : Type := {
  ss_initialized : bool;
  ss_initialization_time : option string;
  ss_executed_actions : list (list (string * value));
  ss_errors : list string;
  ss_memory_retrieval_results : list (string * json);
  ss_execution_time_seconds : option Z;
  ss_initialized_contexts : option (list string);
  ss_learning_insights : option json }.

Definition initial_session_status : session_status := {|
  ss_initialized := false; ss_initialization_time := None;
  ss_executed_actions := []; ss_errors := [];
  ss_memory_retrieval_results := []; ss_execution_time_seconds := None;
  ss_initialized_contexts := None; ss_learning_insights := None |}.

(** The provider: heap, [self.contexts] (insertion-ordered), the files of
    [config_dir] and [self.session_status]. *)
Record state : Type := {
  objs : gmap loc obj;
  next_loc : loc;
  contexts : list (string * value);
  disk : gmap string file;
  status : session_status }.

Definition set_objs (h : gmap loc obj) (st : state) : state :=
  {| objs := h; next_loc := next_loc st; contexts := contexts st;
     disk := disk st; status := status st |}.
Definition set_next (n : loc) (st : state) : state :=
  {| objs := objs st; next_loc := n; contexts := contexts st;
     disk := disk st; status := status st |}.
Definition set_contexts (c : list (string * value)) (st : state) : state :=
  {| objs := objs st; next_loc := next_loc st; contexts := c;
     disk := disk st; status := status st |}.
Definition set_disk (d : gmap string file) (st : state) : state :=
  {| objs := objs st; next_loc := next_loc st; contexts := contexts st;
     disk := d; status := status st |}.
Definition set_status (s : session_status) (st : state) : state :=
  {| objs := objs st; next_loc := next_loc st; contexts := contexts st;
     disk := disk st; status := s |}.

(** ** The state-and-exception monad *)

Definition M (A : Type) : Type := state -> state * (exc + A).

Global Instance M_ret : MRet M := fun A a st => (st, inr a).
Global Instance M_bind : MBind M := fun A B k m st =>
  match m st with
  | (st', inl e) => (st', inl e)
  | (st', inr a) => k a st'
  end.

Definition raise {A} (k : exc_kind) (msg : string) : M A :=
  fun st => (st, inl (Exc k msg)).

(** [try: m except Exception as e: h e] *)
Definition try_except {A} (m : M A) (h : exc -> M A) : M A := fun st =>
  match m st with
  | (st', inl e) => h e st'
  | r => r
  end.

Definition get_state : M state := fun st => (st, inr st).
Definition modify (f : state -> state) : M unit := fun st => (f st, inr tt).

(** ** Dicts, lists and the Python operations the code uses *)

Fixpoint assoc_lookup {A} (k : string) (kvs : list (string * A)) : option A :=
  match kvs with
  | [] => None
  | (k', v) :: r => if String.eqb k k' then Some v else assoc_lookup k r
  end.

(** [d[k] = v]: overwrite in place, or append a new key. *)
Fixpoint assoc_set {A} (k : string) (v : A) (kvs : list (string * A))
    : list (string * A) :=
  match kvs with
  | [] => [(k, v)]
  | (k', v') :: r =>
      if String.eqb k k' then (k', v) :: r else (k', v') :: assoc_set k v r
  end.

Definition deref (st : state) (v : value) : option obj :=
  match v with VRef l => objs st !! l | _ => None end.

Definition is_dict (st : state) (v : value) : bool :=
  match deref st v with Some (ODict _) => true | _ => false end.

Definition is_str (v : value) : bool :=
  match v with VStr _ => true | _ => false end.

Definition type_name (st : state) (v : value) : string :=
  match v with
  | VNone => "NoneType" | VBool _ => "bool" | VInt _ => "int"
  | VStr _ => "str"
  | VRef _ =>
      match deref st v with Some (OList _) => "list" | _ => "dict" end
  end.

Definition alloc (o : obj) : M value := fun st =>
  (set_next (Pos.succ (next_loc st))
     (set_objs (<[next_loc st := o]> (objs st)) st), inr (VRef (next_loc st))).

Definition write_obj (l : loc) (o : obj) : M unit :=
  modify (fun st => set_objs (<[l := o]> (objs st)) st).

Definition new_dict (kvs : list (string * value)) : M value := alloc (ODict kvs).
Definition new_list (xs : list value) : M value := alloc (OList xs).

Fixpoint is_prefix (p s : list ascii) : bool :=
  match p, s with
  | [], _ => true
  | a :: p', b :: s' => Ascii.eqb a b && is_prefix p' s'
  | _ :: _, [] => false
  end.

Fixpoint is_infix (p s : list ascii) : bool :=
  is_prefix p s || match s with [] => false | _ :: s' => is_infix p s' end.

Definition str_in (p s : string) : bool :=
  is_infix (list_ascii_of_string p) (list_ascii_of_string s).

(** [k in container] for a string [k]. *)
Definition py_contains (c : value) (k : string) : M bool := fun st =>
  match c with
  | VStr s => (st, inr (str_in k s))
  | VRef _ =>
      match deref st c with
      | Some (ODict kvs) => (st, inr (bool_decide (is_Some (assoc_lookup k kvs))))
      | Some (OList xs) => (st, inr (bool_decide (VStr k ∈ xs)))
      | None => (st, inl (Exc TypeError "dangling reference"))
      end
  | _ => (st, inl (Exc TypeError
            ("argument of type '" +:+ type_name st c +:+ "' is not iterable")))
  end.

(** [c[k]] for a string [k]. *)
Definition py_getitem (c : value) (k : string) : M value := fun st =>
  match deref st c with
  | Some (ODict kvs) =>
      match assoc_lookup k kvs with
      | Some v => (st, inr v)
      | None => (st, inl (Exc KeyError k))
      end
  | Some (OList _) =>
      (st, inl (Exc TypeError "list indices must be integers or slices, not str"))
  | None =>
      match c with
      | VStr _ => (st, inl (Exc TypeError "string indices must be integers"))
      | _ => (st, inl (Exc TypeError
                ("'" +:+ type_name st c +:+ "' object is not subscriptable")))
      end
  end.

(** [c[k] = v] for a string [k]. *)
Definition py_setitem (c : value) (k : string) (v : value) : M unit := fun st =>
  match c, deref st c with
  | VRef l, Some (ODict kvs) =>
      (set_objs (<[l := ODict (assoc_set k v kvs)]> (objs st)) st, inr tt)
  | _, Some (OList _) =>
      (st, inl (Exc TypeError "list indices must be integers or slices, not str"))
  | _, _ => (st, inl (Exc TypeError
              ("'" +:+ type_name st c +:+ "' object does not support item assignment")))
  end.

(** [c.get(k, default)] *)
Definition py_get (c : value) (k : string) (dflt : value) : M value := fun st =>
  match deref st c with
  | Some (ODict kvs) =>
      (st, inr (match assoc_lookup k kvs with Some v => v | None => dflt end))
  | _ => (st, inl (Exc AttributeError
            ("'" +:+ type_name st c +:+ "' object has no attribute 'get'")))
  end.

(** [c.items()] *)
Definition py_items (c : value) : M (list (string * value)) := fun st =>
  match deref st c with
  | Some (ODict kvs) => (st, inr kvs)
  | _ => (st, inl (Exc AttributeError
            ("'" +:+ type_name st c +:+ "' object has no attribute 'items'")))
  end.

(** [c.copy()]: a shallow copy; [dict] and [list] have one. *)
Definition py_copy (c : value) : M value := fun st =>
  match deref st c with
  | Some o => alloc o st
  | None => (st, inl (Exc AttributeError
               ("'" +:+ type_name st c +:+ "' object has no attribute 'copy'")))
  end.

(** ** Numbers and text *)

Definition digit (z : Z) : ascii := ascii_of_nat (48 + Z.to_nat z).

(** Decimal notation of a non-negative integer ([str(z)]). *)
Fixpoint dec_aux (fuel : nat) (z : Z) : list ascii :=
  match fuel with
  | O => [digit (z mod 10)]
  | S f => if z <? 10 then [digit z] else dec_aux f (z / 10) ++ [digit (z mod 10)]
  end.

Definition dec (z : Z) : list ascii := dec_aux (S (Z.to_nat (Z.log2 z))) z.

(** The [w] low decimal digits of [z], zero padded ([%02d] and the like). *)
Fixpoint fixed_digits (w : nat) (z : Z) : list ascii :=
  match w with
  | O => []
  | S w' => fixed_digits w' (z / 10) ++ [digit (z mod 10)]
  end.

Definition str_of_Z (z : Z) : string :=
  if z <? 0 then String "-" (string_of_list_ascii (dec (- z)))
  else string_of_list_ascii (dec z).

Definition str_of_nat (n : nat) : string := str_of_Z (Z.of_nat n).

Definition ends_with (suffix s : string) : bool :=
  let ls := list_ascii_of_string s in
  let lx := list_ascii_of_string suffix in
  is_prefix (rev lx) (rev ls).

(** [s.replace(old, new)] for a non-empty [old]: every non-overlapping
    occurrence, scanning from the left. *)
Fixpoint replace_aux (fuel : nat) (old new s : list ascii) : list ascii :=
  match fuel with
  | O => s
  | S f =>
      match s with
      | [] => []
      | c :: s' =>
          if is_prefix old s then new ++ replace_aux f old new (drop (length old) s)
          else c :: replace_aux f old new s'
      end
  end.

Definition str_replace (s old new : string) : string :=
  let ls := list_ascii_of_string s in
  string_of_list_ascii
    (replace_aux (S (length ls)) (list_ascii_of_string old)
       (list_ascii_of_string new) ls).

(** ** [dict.update(src)] *)

(** One element of an iterable passed to [dict.update]: it must itself
    be an iterable of length two.  Dict keys are strings in this model; an
    element whose first item is not a string is reported as a [TypeError]
    (Python would insert a non-string key). *)
Definition update_pair (st : state) (i : nat) (e : value)
    : exc + (string * value) :=
  let bad_len n := inl (Exc ValueError ("dictionary update sequence element #"
        +:+ str_of_nat i +:+ " has length " +:+ str_of_nat n
        +:+ "; 2 is required")) in
  match e with
  | VStr s =>
      match list_ascii_of_string s with
      | [a; b] => inr (String a EmptyString, VStr (String b EmptyString))
      | l => bad_len (length l)
      end
  | VRef _ =>
      match deref st e with
      | Some (OList [VStr k; v]) => inr (k, v)
      | Some (OList [_; _]) => inl (Exc TypeError "non-string dict key")
      | Some (OList xs) => bad_len (length xs)
      | Some (ODict [(k1, _); (k2, _)]) => inr (k1, VStr k2)
      | Some (ODict kvs) => bad_len (length kvs)
      | None => inl (Exc TypeError "dangling reference")
      end
  | _ => inl (Exc TypeError ("cannot convert dictionary update sequence element #"
             +:+ str_of_nat i +:+ " to a sequence"))
  end.

(** Insert the pairs of [xs] one by one; a bad element stops the update,
    the pairs inserted before it stay. *)
Fixpoint update_from_seq (st : state) (i : nat) (xs : list value)
    (kvs : list (string * value)) : list (string * value) * option exc :=
  match xs with
  | [] => (kvs, None)
  | x :: r =>
      match update_pair st i x with
      | inr (k, v) => update_from_seq st (S i) r (assoc_set k v kvs)
      | inl e => (kvs, Some e)
      end
  end.

Definition chars_of (s : string) : list value :=
  map (fun a => VStr (String a EmptyString)) (list_ascii_of_string s).

Definition py_update (tgt src : value) : M unit := fun st =>
  match tgt, deref st tgt with
  | VRef l, Some (ODict kvs) =>
      let finish (r : list (string * value) * option exc) :=
        let st' := set_objs (<[l := ODict r.1]> (objs st)) st in
        match r.2 with None => (st', inr tt) | Some e => (st', inl e) end in
      match src, deref st src with
      | VRef _, Some (ODict skvs) =>
          finish (foldl (fun acc kv => assoc_set kv.1 kv.2 acc) kvs skvs, None)
      | VRef _, Some (OList xs) => finish (update_from_seq st 0 xs kvs)
      | VStr s, _ => finish (update_from_seq st 0 (chars_of s) kvs)
      | _, _ => (st, inl (Exc TypeError
                   ("'" +:+ type_name st src +:+ "' object is not iterable")))
      end
  | _, _ => (st, inl (Exc AttributeError
               ("'" +:+ type_name st tgt +:+ "' object has no attribute 'update'")))
  end.

(** ** [json.dump] and [json.load] *)

(** Serialisation of a heap value.  The fuel bounds the nesting depth by
    the number of allocated objects, so running out of it means a cycle,
    which [json.dump] reports as [ValueError: Circular reference detected]. *)
Fixpoint to_json (fuel : nat) (st : state) (v : value) : option json :=
  match v with
  | VNone => Some JNull
  | VBool b => Some (JBool b)
  | VInt z => Some (JInt z)
  | VStr s => Some (JStr s)
  | VRef l =>
      match fuel with
      | O => None
      | S f =>
          match objs st !! l with
          | Some (ODict kvs) =>
              JObj <$> mapM (fun kv => pair kv.1 <$> to_json f st kv.2) kvs
          | Some (OList xs) => JArr <$> mapM (to_json f st) xs
          | None => None
          end
      end
  end.

Definition dump_fuel (st : state) : nat := Pos.to_nat (next_loc st).

(** [with open(path, 'w') as f: json.dump(v, f, ...)].  A failing [open]
    leaves the file alone; a failing [json.dump] leaves it truncated (the
    prefix written before the error is abstracted as empty). *)
Definition write_json_file (e : env) (path : string) (v : value) : M unit :=
  fun st =>
  if write_fails e path then
    (st, inl (Exc OSError ("[Errno 13] Permission denied: '" +:+ path +:+ "'")))
  else
    match to_json (dump_fuel st) st v with
    | Some j => (set_disk (<[path := FJson j]> (disk st)) st, inr tt)
    | None => (set_disk (<[path := FRaw ""]> (disk st)) st,
               inl (Exc ValueError "Circular reference detected"))
    end.

(** [json.load]: fresh objects; a repeated key keeps its first position
    and its last value, as [dict] construction does. *)
Fixpoint of_json (j : json) : M value :=
  match j with
  | JNull => mret VNone
  | JBool b => mret (VBool b)
  | JInt z => mret (VInt z)
  | JStr s => mret (VStr s)
  | JArr xs => vs ← mapM of_json xs; new_list vs
  | JObj kvs =>
      vs ← mapM (fun kv => v ← of_json kv.2; mret (kv.1, v)) kvs;
      new_dict (foldl (fun acc kv => assoc_set kv.1 kv.2 acc) [] vs)
  end.

(** ** [_validate_context_name] *)

Definition name_char (c : ascii) : bool :=
  let n := nat_of_ascii c in
  ((97 <=? n) && (n <=? 122))%nat || ((65 <=? n) && (n <=? 90))%nat
  || ((48 <=? n) && (n <=? 57))%nat || (n =? 95)%nat || (n =? 45)%nat.

Definition newline : ascii := ascii_of_nat 10.

(** The text a [$] may stop before: [$] also matches just before a final
    newline. *)
Definition strip_final_newline (l : list ascii) : list ascii :=
  match rev l with
  | c :: t => if Ascii.eqb c newline then rev t else l
  | [] => l
  end.

(** [re.match(r'^[a-zA-Z0-9_-]+$', s)] *)
Definition re_match_name (s : string) : bool :=
  let body := strip_final_newline (list_ascii_of_string s) in
  negb (bool_decide (body = [])) && forallb name_char body.

Definition ascii_lower (c : ascii) : ascii :=
  let n := nat_of_ascii c in
  if ((65 <=? n) && (n <=? 90))%nat then ascii_of_nat (n + 32) else c.

Definition py_lower (s : string) : string :=
  string_of_list_ascii (map ascii_lower (list_ascii_of_string s)).

Definition reserved_names : list string := ["system"; "admin"; "config"; "server"].

Definition _validate_context_name (name : string) : bool :=
  re_match_name name
  && (1 <=? String.length name)%nat && (String.length name <=? 50)%nat
  && negb (existsb (String.eqb (py_lower name)) reserved_names).

(** ** [_validate_context_data] *)

Definition is_digit (c : ascii) : bool :=
  let n := nat_of_ascii c in ((48 <=? n) && (n <=? 57))%nat.

Fixpoint split_on (sep : ascii) (l : list ascii) : list (list ascii) :=
  match l with
  | [] => [[]]
  | c :: r =>
      if Ascii.eqb c sep then [] :: split_on sep r
      else match split_on sep r with
           | w :: ws => (c :: w) :: ws
           | [] => [[c]]
           end
  end.

(** [re.match(r'^\d+\.\d+\.\d+$', s)] *)
Definition re_match_version (s : string) : bool :=
  match split_on "."%char (strip_final_newline (list_ascii_of_string s)) with
  | [a; b; c] =>
      forallb (fun w => negb (bool_decide (w = [])) && forallb is_digit w) [a; b; c]
  | _ => false
  end.

(** [str(metadata['version'])] matches the pattern only for a string
    value: the text of an int, bool, None, list or dict has no dot or
    starts with a non-digit. *)
Definition version_ok (v : value) : bool :=
  match v with VStr s => re_match_version s | _ => false end.

Definition required_fields : list string := ["tool_category"; "description"].
Definition optional_sections : list string :=
  ["syntax_rules"; "preferences"; "auto_corrections"; "session_initialization"].

Definition _validate_context_data (cd : value) : M (list string * list string) :=
  e_req ← mapM (fun f => b ← py_contains cd f;
                   mret (if (b : bool) then [] else ["Missing required field: " +:+ f]))
                required_fields;
  has_tc ← py_contains cd "tool_category";
  e_tc ← (if (has_tc : bool) then
            tc ← py_getitem cd "tool_category";
            mret (match tc with
                  | VStr s => if _validate_context_name s then []
                              else ["tool_category contains invalid characters"]
                  | _ => ["tool_category must be a string"]
                  end)
          else mret []);
  has_d ← py_contains cd "description";
  d_res ← (if (has_d : bool) then
             d ← py_getitem cd "description";
             mret (match d with
                   | VStr s => ([], if (500 <? String.length s)%nat
                                     then ["description is very long (>500 characters)"]
                                     else [])
                   | _ => (["description must be a string"], [])
                   end)
           else mret ([], []));
  e_sec ← mapM (fun sec => b ← py_contains cd sec;
                  if (b : bool) then
                    v ← py_getitem cd sec; st ← get_state;
                    mret (if is_dict st v then [] else [sec +:+ " must be a dictionary"])
                  else mret [])
               optional_sections;
  has_m ← py_contains cd "metadata";
  m_res ← (if (has_m : bool) then
             md ← py_getitem cd "metadata"; st ← get_state;
             match deref st md with
             | Some (ODict mkvs) =>
                 mret ([], match assoc_lookup "version" mkvs with
                           | Some ver => if version_ok ver then []
                                         else ["version should follow semantic versioning (x.y.z)"]
                           | None => []
                           end)
             | _ => mret (["metadata must be a dictionary"], [])
             end
           else mret ([], [])) : M (list string * list string);
  mret (concat e_req ++ e_tc ++ d_res.1 ++ concat e_sec ++ m_res.1,
        d_res.2 ++ m_res.2).

(** ** Clock formatting *)

Definition pad2 (z : Z) : string := string_of_list_ascii (fixed_digits 2 z).

(** [datetime.now().isoformat()] *)
Definition isoformat (d : datetime) : string :=
  string_of_list_ascii (fixed_digits 4 (dt_year d)) +:+ "-" +:+ pad2 (dt_month d)
  +:+ "-" +:+ pad2 (dt_day d) +:+ "T" +:+ pad2 (dt_hour d) +:+ ":"
  +:+ pad2 (dt_minute d) +:+ ":" +:+ pad2 (dt_second d)
  +:+ (if dt_microsecond d =? 0 then ""
       else "." +:+ string_of_list_ascii (fixed_digits 6 (dt_microsecond d))).

(** [datetime.now().strftime('%Y%m%d_%H%M%S')]; [%Y] is the plain
    decimal year (C library behaviour on Linux). *)
Definition strftime_stamp (d : datetime) : string :=
  string_of_list_ascii (dec (dt_year d)) +:+ pad2 (dt_month d) +:+ pad2 (dt_day d)
  +:+ "_" +:+ pad2 (dt_hour d) +:+ pad2 (dt_minute d) +:+ pad2 (dt_second d).

Definition now_iso (e : env) : value := VStr (isoformat (now e)).

(** ** [_backup_context_file] *)

Definition context_file_of (name : string) : string := name +:+ "_context.json".

Definition backup_file_of (name stamp : string) : string :=
  "backups/" +:+ name +:+ "_context_" +:+ stamp +:+ ".json".

(** [backup_dir.mkdir(exist_ok=True)] raises when [backups] exists as a
    file; [shutil.copy2] failures are caught and give [None]. *)
Definition _backup_context_file (e : env) (name : string) : M (option string) :=
  fun st =>
  let context_file := context_file_of name in
  match disk st !! context_file with
  | None => (st, inr None)
  | Some f =>
      if bool_decide (is_Some (disk st !! "backups")) then
        (st, inl (Exc FileExistsError "[Errno 17] File exists: 'backups'"))
      else
        let backup_file := backup_file_of name (strftime_stamp (now e)) in
        if write_fails e backup_file then (st, inr None)
        else (set_disk (<[backup_file := f]> (disk st)) st, inr (Some backup_file))
  end.

(** ** [load_context_file] and [load_all_contexts] *)

(** A file that is missing or that [json.load] rejects gives [{}]. *)
Definition load_context_file (path : string) : M value := fun st =>
  match disk st !! path with
  | Some (FJson j) => of_json j st
  | _ => new_dict [] st
  end.

Definition ctx_set (name : string) (v : value) : M unit :=
  modify (fun st => set_contexts (assoc_set name v (contexts st)) st).

Definition context_name_of_file (fname : string) : string :=
  if ends_with "_context.json" fname then str_replace fname "_context.json" ""
  else str_replace fname ".json" "".

(** The directory listing: the files directly under [config_dir], in the
    (arbitrary) order the map enumerates them. *)
Definition dir_listing (st : state) : list string :=
  filter (fun n => negb (str_in "/" n)) (map fst (map_to_list (disk st))).

Definition discovered_files (st : state) : list string :=
  let first := filter (ends_with "_context.json") (dir_listing st) in
  first ++ filter (fun n => ends_with ".json" n && negb (bool_decide (n ∈ first)))
                  (dir_listing st).

Definition load_all_contexts (e : env) : M unit :=
  if negb (auto_load e) then mret ()
  else if negb (dir_exists e) then mret ()
  else
    st ← get_state;
    foldr (fun fname k =>
             v ← load_context_file fname;
             ctx_set (context_name_of_file fname) v;;
             k)
          (mret ()) (discovered_files st).

(** [ContextProvider(config_dir)] over the files [d]. *)
Definition provider_init (e : env) (d : gmap string file) : state :=
  (load_all_contexts e {| objs := ∅; next_loc := 1%positive; contexts := [];
                          disk := d; status := initial_session_status |}).1.

(** ** Results of the mutating operations

    The returned Python dicts, key by key. *)

Inductive rfield : Type :=
  | RB (b : bool)
  | RS (s : string)
  | RL (l : list string)
  | RN
  | RV (v : value).

Definition result : Type := list (string * rfield).

(** [str(backup_file) if backup_file else None] *)
Definition opt_path (o : option string) : rfield :=
  match o with Some p => RS p | None => RN end.

Definition with_warnings (r : result) (warns : list string) : result :=
  if bool_decide (warns = []) then r else r ++ [("warnings", RL warns)].

Definition exc_str (ex : exc) : string :=
  match exc_type ex with
  | KeyError => "'" +:+ exc_msg ex +:+ "'"
  | _ => exc_msg ex
  end.

(** [self.contexts[name]] *)
Definition ctx_get (name : string) : M value := fun st =>
  match assoc_lookup name (contexts st) with
  | Some v => (st, inr v)
  | None => (st, inl (Exc KeyError name))
  end.

Definition ctx_names (st : state) : list string := map fst (contexts st).

Definition in_contexts (name : string) (st : state) : bool :=
  bool_decide (is_Some (assoc_lookup name (contexts st))).

(** [if key not in d: d[key] = {}] *)
Definition ensure_dict_key (d : value) (key : string) : M unit :=
  has ← py_contains d key;
  if (has : bool) then mret () else (fresh ← new_dict []; py_setitem d key fresh).

(** [if 'metadata' not in cur: cur['metadata'] = {}]
    [cur['metadata']['last_updated'] = datetime.now().isoformat()] *)
Definition refresh_last_updated (e : env) (cur : value) : M unit :=
  ensure_dict_key cur "metadata";;
  md ← py_getitem cur "metadata";
  py_setitem md "last_updated" (now_iso e).

(** The [backup_file = self._backup_context_file(name)] statement that
    opens the [try] blocks of the mutating methods.  When it raises, the
    [except] handler reads the still unbound [backup_file]. *)
Definition backup_then {A} (e : env) (name : string)
    (body : option string -> M A) (handler : exc -> option string -> M A) : M A :=
  r ← try_except (bf ← _backup_context_file e name; mret (inr bf))
                 (fun ex => mret (inl ex));
  match r with
  | inl _ => raise UnboundLocalError
      "cannot access local variable 'backup_file' where it is not associated with a value"
  | inr bf => try_except (body bf) (fun ex => handler ex bf)
  end.

(** ** [create_context_file] *)

Definition invalid_name_result (name : string) : result :=
  [("success", RB false);
   ("error", RS "Invalid context name. Use only alphanumeric characters, underscores, and hyphens.");
   ("context_name", RS name)].

Definition invalid_category_result (name : string) : result :=
  [("success", RB false);
   ("error", RS "Invalid category name. Use only alphanumeric characters, underscores, and hyphens.");
   ("context_name", RS name)].

Definition default_description (category : string) : string :=
  "Dynamically created context for " +:+ category.

(** Lines 888-911: the document assembled from the arguments. *)
Definition create_build (e : env) (category : string) (rules : value) : M value :=
  ac ← py_get rules "auto_convert" (VBool false);
  dflt_tools ← new_list [VStr (category +:+ ":*")];
  tools ← py_get rules "applies_to_tools" dflt_tools;
  prio ← py_get rules "priority" (VStr "medium");
  md ← new_dict [("version", VStr "1.0.0"); ("last_updated", now_iso e);
                 ("created_by", VStr "dynamic_context_management");
                 ("applies_to_tools", tools); ("priority", prio)];
  cd ← new_dict [("tool_category", VStr category); ("auto_convert", ac);
                 ("metadata", md)];
  has_desc ← py_contains rules "description";
  (if (has_desc : bool) then
     d ← py_getitem rules "description"; py_setitem cd "description" d
   else py_setitem cd "description" (VStr (default_description category)));;
  foldr (fun sec k =>
           b ← py_contains rules sec;
           (if (b : bool) then v ← py_getitem rules sec; py_setitem cd sec v
            else mret ());;
           k)
        (mret ()) optional_sections;;
  mret cd.

(** The [asyncio.create_task] audit notification has no effect on the
    modelled state (it only prints); it is omitted. *)
Definition create_context_file (e : env) (name category : string) (rules : value)
    : M result :=
  if negb (_validate_context_name name) then mret (invalid_name_result name)
  else if negb (_validate_context_name category) then mret (invalid_category_result name)
  else
    st ← get_state;
    let context_file := context_file_of name in
    if bool_decide (is_Some (disk st !! context_file)) then
      mret [("success", RB false);
            ("error", RS ("Context file " +:+ name +:+
               "_context.json already exists. Use update_context_rules to modify it."));
            ("context_name", RS name); ("existing_file", RS context_file)]
    else
      cd ← create_build e category rules;
      '(errs, warns) ← _validate_context_data cd;
      if bool_decide (errs ≠ []) then
        mret [("success", RB false); ("error", RS "Context data validation failed");
              ("validation_errors", RL errs); ("context_name", RS name)]
      else
        try_except
          (write_json_file e context_file cd;;
           ctx_set name cd;;
           mret (with_warnings
                   [("success", RB true);
                    ("message", RS ("Context file " +:+ name +:+ "_context.json created successfully"));
                    ("context_name", RS name); ("context_file", RS context_file);
                    ("context_data", RV cd)] warns))
          (fun ex => mret [("success", RB false);
                          ("error", RS ("Failed to create context file: " +:+ exc_str ex));
                          ("context_name", RS name)]).

(** ** [update_context_rules] *)

(** Lines 986-994: the loop over [updates.items()]. *)
Definition update_apply (e : env) (cur updates : value) : M unit :=
  items ← py_items updates;
  foldr (fun kv k =>
           (if String.eqb kv.1 "metadata" then
              ensure_dict_key cur "metadata";;
              md ← py_getitem cur "metadata";
              py_update md kv.2;;
              md' ← py_getitem cur "metadata";
              py_setitem md' "last_updated" (now_iso e)
            else py_setitem cur kv.1 kv.2);;
           k)
        (mret ()) items.

(** Lines 983-999: the merged document, [current_data]. *)
Definition update_merge (e : env) (name : string) (updates : value) : M value :=
  cur0 ← ctx_get name;
  cur ← py_copy cur0;
  update_apply e cur updates;;
  refresh_last_updated e cur;;
  mret cur.

Definition update_context_rules (e : env) (name : string) (updates : value)
    : M result :=
  if negb (_validate_context_name name) then
    mret [("success", RB false); ("error", RS "Invalid context name");
          ("context_name", RS name)]
  else
    st ← get_state;
    if negb (in_contexts name st) then
      mret [("success", RB false);
            ("error", RS ("Context " +:+ name +:+
               " not found. Use create_context_file to create it first."));
            ("context_name", RS name);
            ("available_contexts", RL (ctx_names st))]
    else
      backup_then e name
        (fun bf =>
           cur ← update_merge e name updates;
           '(errs, warns) ← _validate_context_data cur;
           if bool_decide (errs ≠ []) then
             mret [("success", RB false);
                   ("error", RS "Updated context data validation failed");
                   ("validation_errors", RL errs); ("context_name", RS name);
                   ("backup_file", opt_path bf)]
           else
             let context_file := context_file_of name in
             write_json_file e context_file cur;;
             ctx_set name cur;;
             items ← py_items updates;
             mret (with_warnings
                     [("success", RB true);
                      ("message", RS ("Context " +:+ name +:+ " updated successfully"));
                      ("context_name", RS name);
                      ("updated_fields", RL (map fst items));
                      ("context_file", RS context_file);
                      ("backup_file", opt_path bf)] warns))
        (fun ex bf =>
           mret [("success", RB false);
                 ("error", RS ("Failed to update context: " +:+ exc_str ex));
                 ("context_name", RS name); ("backup_file", opt_path bf)]).

(** ** [add_context_pattern] *)

Definition valid_pattern_sections : list string :=
  ["auto_store_triggers"; "auto_retrieve_triggers"].

Definition add_context_pattern (e : env) (name section pname : string)
    (cfg : value) : M result :=
  if negb (_validate_context_name name) then
    mret [("success", RB false); ("error", RS "Invalid context name");
          ("context_name", RS name)]
  else
    st ← get_state;
    if negb (in_contexts name st) then
      mret [("success", RB false); ("error", RS ("Context " +:+ name +:+ " not found"));
            ("context_name", RS name); ("available_contexts", RL (ctx_names st))]
    else if negb (existsb (String.eqb section) valid_pattern_sections) then
      mret [("success", RB false);
            ("error", RS "Invalid pattern section. Must be one of: ['auto_store_triggers', 'auto_retrieve_triggers']");
            ("context_name", RS name); ("pattern_section", RS section)]
    else
      backup_then e name
        (fun bf =>
           cur0 ← ctx_get name;
           cur ← py_copy cur0;
           ensure_dict_key cur section;;
           sd ← py_getitem cur section;
           py_setitem sd pname cfg;;
           refresh_last_updated e cur;;
           let context_file := context_file_of name in
           write_json_file e context_file cur;;
           ctx_set name cur;;
           mret [("success", RB true);
                 ("message", RS ("Pattern " +:+ pname +:+ " added to " +:+ name +:+ "." +:+ section));
                 ("context_name", RS name); ("pattern_section", RS section);
                 ("pattern_name", RS pname); ("context_file", RS context_file);
                 ("backup_file", opt_path bf)])
        (fun ex bf =>
           mret [("success", RB false);
                 ("error", RS ("Failed to add pattern: " +:+ exc_str ex));
                 ("context_name", RS name); ("backup_file", opt_path bf)]).

(** ** [auto_optimize_context] *)

(** [for x in v]: the items of an iterable. *)
Definition py_iter (v : value) : M (list value) := fun st =>
  match v, deref st v with
  | VStr s, _ => (st, inr (chars_of s))
  | _, Some (OList xs) => (st, inr xs)
  | _, Some (ODict kvs) => (st, inr (map (fun kv => VStr kv.1) kvs))
  | _, _ => (st, inl (Exc TypeError
               ("'" +:+ type_name st v +:+ "' object is not iterable")))
  end.

(** [lst.extend(it)] *)
Definition list_append_all (lst : value) (xs : list value) : M unit := fun st =>
  match lst, deref st lst with
  | VRef l, Some (OList ys) =>
      (set_objs (<[l := OList (ys ++ xs)]> (objs st)) st, inr tt)
  | _, _ => (st, inl (Exc AttributeError
               ("'" +:+ type_name st lst +:+ "' object has no attribute 'extend'")))
  end.

Definition py_extend (lst it : value) : M unit :=
  xs ← py_iter it; list_append_all lst xs.

(** [x + 1] for the stored [optimization_count]; [bool] is an [int]. *)
Definition py_add1 (v : value) : M value :=
  match v with
  | VInt z => mret (VInt (z + 1))
  | VBool b => mret (VInt (Z.b2z b + 1))
  | VStr _ => raise TypeError "can only concatenate str (not 'int') to str"
  | _ => fun st => (st, inl (Exc TypeError
           ("unsupported operand type(s) for +: '" +:+ type_name st v +:+ "' and 'int'")))
  end.

(** [for key, value in data.items(): cur[section][key] = value] *)
Definition set_section_items (cur : value) (section : string) (data : value)
    : M (list string) :=
  ensure_dict_key cur section;;
  items ← py_items data;
  foldr (fun kv k =>
           sd ← py_getitem cur section;
           py_setitem sd kv.1 kv.2;;
           rest ← k; mret (kv.1 :: rest))
        (mret []) items.

Definition apply_optimization (cur od : value) : M (list string) :=
  otype ← py_get od "type" (VStr "unknown");
  if bool_decide (otype = VStr "pattern_improvement") then
    d ← new_dict [];
    pd ← py_get od "patterns" d;
    items ← py_items pd;
    foldr (fun kv k =>
             has ← py_contains cur kv.1;
             msg ← (if (has : bool) then
                      sv ← py_getitem cur kv.1;
                      st ← get_state;
                      if is_dict st sv then
                        hp ← py_contains sv "patterns";
                        if (hp : bool) then
                          pl ← py_getitem sv "patterns";
                          py_extend pl kv.2;;
                          n ← py_iter kv.2;
                          mret ["Added " +:+ str_of_nat (length n) +:+ " patterns to " +:+ kv.1]
                        else mret []
                      else mret []
                    else mret []) : M (list string);
             rest ← k; mret (msg ++ rest))
          (mret []) items
  else if bool_decide (otype = VStr "preference_tuning") then
    d ← new_dict [];
    pd ← py_get od "preferences" d;
    keys ← set_section_items cur "preferences" pd;
    mret (map (fun k => "Updated preference " +:+ k) keys)
  else if bool_decide (otype = VStr "rule_refinement") then
    d ← new_dict [];
    rd ← py_get od "syntax_rules" d;
    keys ← set_section_items cur "syntax_rules" rd;
    mret (map (fun k => "Refined " +:+ k +:+ " syntax rules") keys)
  else mret [].

Definition auto_optimize_context (e : env) (name : string) (od : value) : M result :=
  try_except
    (st ← get_state;
     if negb (in_contexts name st) then
       mret [("success", RB false); ("error", RS ("Context " +:+ name +:+ " not found"))]
     else
       cur0 ← ctx_get name;
       cur ← py_copy cur0;
       applied ← apply_optimization cur od;
       bf ← _backup_context_file e name;
       '(errs, warns) ← _validate_context_data cur;
       if bool_decide (errs ≠ []) then
         mret [("success", RB false); ("error", RS "Optimized context validation failed");
               ("validation_errors", RL errs); ("backup_file", opt_path bf)]
       else
         ensure_dict_key cur "metadata";;
         md ← py_getitem cur "metadata";
         py_setitem md "last_updated" (now_iso e);;
         md ← py_getitem cur "metadata";
         py_setitem md "last_optimization" (now_iso e);;
         md ← py_getitem cur "metadata";
         c ← py_get md "optimization_count" (VInt 0);
         c' ← py_add1 c;
         md ← py_getitem cur "metadata";
         py_setitem md "optimization_count" c';;
         let context_file := context_file_of name in
         write_json_file e context_file cur;;
         ctx_set name cur;;
         otype ← py_get od "type" (VStr "unknown");
         mret [("success", RB true);
               ("message", RS ("Context " +:+ name +:+ " optimized successfully"));
               ("context_name", RS name); ("optimization_type", RV otype);
               ("optimizations_applied", RL applied); ("backup_file", opt_path bf)])
    (fun ex => mret [("success", RB false);
                    ("error", RS ("Auto-optimization failed: " +:+ exc_str ex));
                    ("context_name", RS name)]).

(** ** Session initialisation *)

Definition py_truthy (st : state) (v : value) : bool :=
  match v with
  | VNone => false
  | VBool b => b
  | VInt z => negb (z =? 0)
  | VStr s => negb (String.eqb s "")
  | VRef _ =>
      match deref st v with
      | Some (ODict kvs) => negb (bool_decide (kvs = []))
      | Some (OList xs) => negb (bool_decide (xs = []))
      | None => true
      end
  end.

(** [str(v)] for scalars; containers are not rendered. *)
Definition py_str (v : value) : string :=
  match v with
  | VNone => "None"
  | VBool b => if b then "True" else "False"
  | VInt z => str_of_Z z
  | VStr s => s
  | VRef _ => "<object>"
  end.

(** The dict returned by [_execute_memory_action]: its [summary] entry
    and the whole dict. *)
Record memory_result : Type := {
  mr_summary : option string;
  mr_result : json }.

Definition update_status (f : session_status -> session_status) : M unit :=
  modify (fun st => set_status (f (status st)) st).

Definition add_executed_action (entry : list (string * value)) (s : session_status)
    : session_status :=
  {| ss_initialized := ss_initialized s;
     ss_initialization_time := ss_initialization_time s;
     ss_executed_actions := ss_executed_actions s ++ [entry];
     ss_errors := ss_errors s;
     ss_memory_retrieval_results := ss_memory_retrieval_results s;
     ss_execution_time_seconds := ss_execution_time_seconds s;
     ss_initialized_contexts := ss_initialized_contexts s;
     ss_learning_insights := ss_learning_insights s |}.

Definition add_error (msg : string) (s : session_status) : session_status :=
  {| ss_initialized := ss_initialized s;
     ss_initialization_time := ss_initialization_time s;
     ss_executed_actions := ss_executed_actions s;
     ss_errors := ss_errors s ++ [msg];
     ss_memory_retrieval_results := ss_memory_retrieval_results s;
     ss_execution_time_seconds := ss_execution_time_seconds s;
     ss_initialized_contexts := ss_initialized_contexts s;
     ss_learning_insights := ss_learning_insights s |}.

Definition set_retrieval (key : string) (r : json) (s : session_status)
    : session_status :=
  {| ss_initialized := ss_initialized s;
     ss_initialization_time := ss_initialization_time s;
     ss_executed_actions := ss_executed_actions s;
     ss_errors := ss_errors s;
     ss_memory_retrieval_results := assoc_set key r (ss_memory_retrieval_results s);
     ss_execution_time_seconds := ss_execution_time_seconds s;
     ss_initialized_contexts := ss_initialized_contexts s;
     ss_learning_insights := ss_learning_insights s |}.

(** Lines 595-598: [execution_time_seconds], [initialized] and
    [initialized_contexts] are stored into the current status. *)
Definition finish_status (t : Z) (inits : list string) (s : session_status)
    : session_status :=
  {| ss_initialized := true;
     ss_initialization_time := ss_initialization_time s;
     ss_executed_actions := ss_executed_actions s;
     ss_errors := ss_errors s;
     ss_memory_retrieval_results := ss_memory_retrieval_results s;
     ss_execution_time_seconds := Some t;
     ss_initialized_contexts := Some inits;
     ss_learning_insights := ss_learning_insights s |}.

Definition set_insights (j : json) (s : session_status) : session_status :=
  {| ss_initialized := ss_initialized s;
     ss_initialization_time := ss_initialization_time s;
     ss_executed_actions := ss_executed_actions s;
     ss_errors := ss_errors s;
     ss_memory_retrieval_results := ss_memory_retrieval_results s;
     ss_execution_time_seconds := ss_execution_time_seconds s;
     ss_initialized_contexts := ss_initialized_contexts s;
     ss_learning_insights := Some j |}.

(** [ContextLearningEngine.learn_from_session_patterns].  The execution
    time is in microseconds; [store_memory] of the memory service always
    succeeds ([memory_available] is [True]). *)
Definition learn_from_session_patterns (sd : session_status) : json :=
  if negb (ss_initialized sd) then
    JObj [("success", JBool false); ("error", JStr "Session not initialized")]
  else
    let t := match ss_execution_time_seconds sd with Some t => t | None => 0 end in
    let n := Z.of_nat (length (ss_executed_actions sd)) in
    let ec := Z.of_nat (length (ss_errors sd)) in
    let insights :=
      (if 1000000 <? t then
         ["Session initialization took longer than expected - optimize memory queries"]
       else [])
      ++ (if 0 <? ec then ["Session had errors - review context configurations"] else [])
      ++ (if n =? 0 then
            ["No session actions executed - consider adding more initialization contexts"]
          else []) in
    JObj [("success", JBool true); ("patterns_learned", JInt n);
          ("insights_gained", JArr (map JStr insights));
          ("session_analysis", JObj [("execution_time", JInt t);
                                     ("actions_executed", JInt n);
                                     ("errors_count", JInt ec)]);
          ("memory_stored", JBool true)].

(** [j[k]] on a JSON dict. *)
Definition json_getitem (j : json) (k : string) : M json :=
  match j with
  | JObj kvs =>
      match assoc_lookup k kvs with
      | Some v => mret v
      | None => raise KeyError k
      end
  | _ => raise TypeError "object is not subscriptable"
  end.

Definition json_truthy (j : json) : bool :=
  match j with
  | JNull => false
  | JBool b => b
  | JInt z => negb (z =? 0)
  | JStr s => negb (String.eqb s "")
  | JArr xs => negb (bool_decide (xs = []))
  | JObj kvs => negb (bool_decide (kvs = []))
  end.

Section SessionInit.

(** [_execute_memory_action(action_type, parameters)] of the simulated
    memory service.  It catches every exception and always returns a
    dict, and it does not touch the modelled state. *)
Variable _execute_memory_action : value -> value -> memory_result.

Definition run_startup_action (name : string) (cfg : value) : M unit :=
  atype ← py_get cfg "action" VNone;
  pd ← new_dict [];
  params ← py_get cfg "parameters" pd;
  descr ← py_get cfg "description" (VStr ("Execute " +:+ py_str atype));
  let r := _execute_memory_action atype params in
  update_status (add_executed_action
    [("context", VStr name); ("action", atype); ("description", descr);
     ("parameters", params);
     ("result_summary", VStr (match mr_summary r with
                              | Some s => s | None => "No summary available" end));
     ("status", VStr "success")]);;
  if bool_decide (atype = VStr "recall_memory") || bool_decide (atype = VStr "search_by_tag")
  then update_status (set_retrieval (name +:+ "_" +:+ py_str atype) (mr_result r))
  else mret ().

(** The [except] handler of the action loop. *)
Definition startup_action_error (name : string) (cfg : value) (ex : exc) : M unit :=
  a ← py_get cfg "action" (VStr "unknown");
  update_status (add_error ("Error executing " +:+ py_str a +:+ " for " +:+ name
                            +:+ ": " +:+ exc_str ex)).

Definition _execute_context_initialization (name : string) (data : value) : M unit :=
  d1 ← new_dict [];
  si ← py_get data "session_initialization" d1;
  d2 ← new_dict [];
  acts ← py_get si "actions" d2;
  l ← new_list [];
  on_startup ← py_get acts "on_startup" l;
  cfgs ← py_iter on_startup;
  foldr (fun cfg k =>
           try_except (run_startup_action name cfg) (startup_action_error name cfg);;
           k)
        (mret ()) cfgs.

Definition fresh_session_status (e : env) : session_status :=
  {| ss_initialized := false;
     ss_initialization_time := Some (isoformat (now e));
     ss_executed_actions := []; ss_errors := [];
     ss_memory_retrieval_results := [];
     ss_execution_time_seconds := None;
     ss_initialized_contexts := None; ss_learning_insights := None |}.

(** Lines 585-591: the contexts with [session_initialization.enabled]. *)
Definition initialize_contexts (ctxs : list (string * value)) : M (list string) :=
  foldr (fun nd k =>
           d ← new_dict [];
           si ← py_get nd.2 "session_initialization" d;
           en ← py_get si "enabled" (VBool false);
           st ← get_state;
           if py_truthy st en then
             _execute_context_initialization nd.1 nd.2;;
             rest ← k; mret (nd.1 :: rest)
           else k)
        (mret []) ctxs.

Definition execute_session_initialization (e : env) : M session_status :=
  modify (set_status (fresh_session_status e));;
  st ← get_state;
  inits ← initialize_contexts (contexts st);
  update_status (finish_status (elapsed_us e) inits);;
  st ← get_state;
  let learning_result := learn_from_session_patterns (status st) in
  ok ← json_getitem learning_result "success";
  (if json_truthy ok then
     ins ← json_getitem learning_result "insights";
     update_status (set_insights ins)
   else mret ());;
  st ← get_state;
  mret (status st).

End SessionInit.

(** ** The correction engine *)

(** A compiled regular expression, as the [sre] matcher uses it:
    [m s p nonempty] is the end of the match found when the pattern is
    tried at position [p] of [s] (the first in backtracking order), where
    [nonempty] rejects empty matches ([state->must_advance]). *)
Definition matcher : Type := list ascii -> nat -> bool -> option nat.

(** [sre_search]: the leftmost position from [p] on where the pattern
    matches; [must_advance] only concerns the first position. *)
Fixpoint search_from (m : matcher) (s : list ascii) (p : nat) (must_advance : bool)
    (fuel : nat) : option (nat * nat) :=
  match fuel with
  | O => None
  | S f =>
      match m s p must_advance with
      | Some e => Some (p, e)
      | None => search_from m s (S p) false f
      end
  end.

Definition sre_search (m : matcher) (s : list ascii) (p : nat) (must_advance : bool)
    : option (nat * nat) :=
  if (p <=? length s)%nat then search_from m s p must_advance (S (length s - p))
  else None.

(** A replacement: the text substituted for the match [s[b:e]]. *)
Definition filler : Type := list ascii -> nat -> nat -> list ascii.

(** [pattern_subx] with [count=0]: [i] is the end of the previous match
    and [ma] is [state.must_advance]. *)
Fixpoint subx_loop (m : matcher) (t : filler) (s : list ascii) (fuel i : nat)
    (ma : bool) : list ascii :=
  match fuel with
  | O => drop i s
  | S f =>
      match sre_search m s i ma with
      | None => drop i s
      | Some (b, e) =>
          take (b - i) (drop i s) ++ t s b e ++ subx_loop m t s f e (Nat.eqb e b)
      end
  end.

Definition pattern_sub (m : matcher) (t : filler) (s : list ascii) : list ascii :=
  subx_loop m t s (2 * length s + 2) 0 false.

(** The matcher of a pattern without special characters. *)
Definition literal_matcher (p : list ascii) : matcher := fun s i nonempty =>
  if is_prefix p (drop i s) && negb (nonempty && bool_decide (p = []))
  then Some (i + length p)%nat else None.

Definition metachar (c : ascii) : bool :=
  existsb (Ascii.eqb c) (list_ascii_of_string ".^$*+?{}[]\|()").

Definition backslash : ascii := ascii_of_nat 92.

Section CorrectionEngine.

(** The regular expression compiler, [re.compile(pattern, re.MULTILINE)]
    ([None] is [re.error]), and the compiler of replacement templates that
    contain a backslash ([None] is [re.error]). *)
Variable re_compile : string -> option matcher.
Variable re_template : string -> option filler.

(** The replacement of [re.sub]: a template without a backslash is used
    literally ([_compile_template] is skipped). *)
Definition repl_template (repl : string) : option filler :=
  if existsb (Ascii.eqb backslash) (list_ascii_of_string repl)
  then re_template repl
  else Some (fun _ _ _ => list_ascii_of_string repl).

(** [re.sub(pattern, repl, text, flags=re.MULTILINE)]; [None] is
    [re.error]. *)
Definition re_sub (pattern repl text : string) : option string :=
  match re_compile pattern with
  | None => None
  | Some m =>
      match repl_template repl with
      | None => None
      | Some f => Some (string_of_list_ascii (pattern_sub m f (list_ascii_of_string text)))
      end
  end.

Definition tool_category_of (tool_name : string) : string :=
  if str_in ":" tool_name then
    match split_on ":"%char (list_ascii_of_string tool_name) with
    | w :: _ => string_of_list_ascii w
    | [] => tool_name
    end
  else tool_name.

(** [self.contexts.get(tool_category, {})] *)
Definition get_tool_context (tool_name : string) : M value :=
  st ← get_state;
  match assoc_lookup (tool_category_of tool_name) (contexts st) with
  | Some v => mret v
  | None => new_dict []
  end.

(** One iteration of the correction loop.  A non-string pattern or
    replacement raises a [TypeError], which is not caught. *)
Definition apply_correction (rule : value) (text : string) : M string :=
  hp ← py_contains rule "pattern";
  hr ← (if (hp : bool) then py_contains rule "replacement" else mret false);
  if hp && hr then
    pat ← py_getitem rule "pattern";
    rep ← py_getitem rule "replacement";
    match pat with
    | VStr p =>
        match re_compile p with
        | None => mret text
        | Some _ =>
            match rep with
            | VStr r =>
                match re_sub p r text with
                | Some t => mret t
                | None => mret text
                end
            | _ => raise TypeError "expected str instance"
            end
        end
    | _ => raise TypeError "first argument must be string or compiled pattern"
    end
  else mret text.

Definition apply_auto_corrections (tool_name text : string) : M string :=
  ctx ← get_tool_context tool_name;
  d ← new_dict [];
  acs ← py_get ctx "auto_corrections" d;
  items ← py_items acs;
  foldl (fun acc kv => t ← acc; apply_correction kv.2 t) (mret text) items.

(** The text produced by one rule [(pattern, replacement)]: the result of
    [re.sub], or the text itself when [re.sub] reports [re.error]. *)
Definition correction_step (text : string) (rule : string * string) : string :=
  match re_sub rule.1 rule.2 text with Some t => t | None => text end.

End CorrectionEngine.

(** ** The simulated memory service ([MemoryServiceIntegration]) *)

(** [_check_memory_service] answers [True]. *)
Definition memory_available : bool := true.

(** A memory as [search_by_tag] builds it. *)
Record memory : Type := {
  mem_content : string; mem_tags : list string;
  mem_timestamp : string; mem_relevance : float }.

Inductive search_result : Type :=
  | SearchFail (err : string)
  | SearchOk (tags : list string) (results : list memory) (total : Z).

(** The [all_memories] table of [search_by_tag]. *)
Definition demo_memories : list (string * list string) := [
  ("implementation", [
     "Phase 1: Session initialization system with memory integration";
     "Phase 2: Dynamic context management with security framework";
     "Successfully established mcp-memory-service in repository"]);
  ("technical", [
     "MCP tool extension pattern scales excellently";
     "Security-first design prevents malformed contexts";
     "Atomic operations with backup-first approach"]);
  ("decision", [
     "Decided to build on mcp-memory-service instead of separate database";
     "Agreed that security-first approach essential for dynamic contexts";
     "Established simulation layer for development testing"]);
  ("learning", [
     "Performance optimization achieved <0.01 second execution";
     "100% test coverage crucial for dynamic context management";
     "Multi-layer validation prevents security issues"])].

(** [xs[:n]] *)
Definition py_slice_to {A} (xs : list A) (n : Z) : list A :=
  if 0 <=? n then take (Z.to_nat n) xs
  else take (Z.to_nat (Z.of_nat (length xs) + n)) xs.

Definition search_by_tag (e : env) (tags : list string) (limit : Z) : search_result :=
  if negb memory_available then SearchFail "Memory service not available"
  else
    let results :=
      flat_map (fun tag =>
                  match assoc_lookup tag demo_memories with
                  | Some cs => map (fun c => {| mem_content := c; mem_tags := [tag];
                                                mem_timestamp := isoformat (now e);
                                                mem_relevance := 0.9%float |}) cs
                  | None => []
                  end) tags in
    SearchOk tags (py_slice_to results limit) (Z.of_nat (length results)).

(** ** [ContextLearningEngine] *)

Record usage_stats : Type := {
  us_total_interactions : Z; us_creation_count : Z; us_update_count : Z;
  us_pattern_additions : Z; us_last_activity : option string }.

(** [min(score, 1.0)] returns [score] unless [1.0 < score]. *)
Definition _calculate_effectiveness_score (u : usage_stats) : float :=
  let s0 := 0.0%float in
  let s1 := if 0 <? us_total_interactions u then (s0 + 0.3)%float else s0 in
  let s2 := if 0 <? us_update_count u then (s1 + 0.4)%float else s1 in
  let s3 := if 0 <? us_pattern_additions u then (s2 + 0.3)%float else s2 in
  if PrimFloat.ltb 1.0%float s3 then 1.0%float else s3.

Definition _generate_recommendations (context_name : string) (u : usage_stats)
    : list string :=
  let recs :=
    (if us_total_interactions u =? 0 then
       ["Context has no recorded usage - consider promoting or reviewing relevance"]
     else [])
    ++ (if (us_update_count u =? 0) && (0 <? us_total_interactions u) then
          ["Context created but never updated - may need refinement"]
        else [])
    ++ (if us_pattern_additions u =? 0 then
          ["Consider adding auto-trigger patterns for automated memory integration"]
        else [])
    ++ (if 5 <? us_total_interactions u then
          ["High-usage context - consider creating specialized variants"]
        else []) in
  if bool_decide (recs = []) then ["Context shows healthy usage patterns"] else recs.

Inductive analysis : Type :=
  | AnalysisFail (err : string)
  | AnalysisOk (context_name : string) (u : usage_stats) (score : float)
      (recommendations : list string).

Definition count_containing (p : string) (ms : list memory) : Z :=
  Z.of_nat (length (filter (fun m => str_in p (mem_content m)) ms)).

Definition analyze_context_effectiveness (e : env) (context_name : string) : analysis :=
  match search_by_tag e [context_name; "context_change"] 10 with
  | SearchFail _ => AnalysisFail "Failed to retrieve context memories"
  | SearchOk _ ms _ =>
      let u := {| us_total_interactions := Z.of_nat (length ms);
                  us_creation_count := count_containing "created" ms;
                  us_update_count := count_containing "updated" ms;
                  us_pattern_additions := count_containing "pattern_added" ms;
                  us_last_activity :=
                    match ms with m :: _ => Some (mem_timestamp m) | [] => None end |} in
      AnalysisOk context_name u (_calculate_effectiveness_score u)
        (_generate_recommendations context_name u)
  end.

(** [str.isspace] on the characters of the model. *)
Definition py_space (c : ascii) : bool :=
  let n := nat_of_ascii c in
  ((9 <=? n) && (n <=? 13))%nat || ((28 <=? n) && (n <=? 32))%nat
  || (n =? 133)%nat || (n =? 160)%nat.

Fixpoint lstrip_aux (l : list ascii) : list ascii :=
  match l with
  | c :: r => if py_space c then lstrip_aux r else l
  | [] => []
  end.

(** [s.strip()] *)
Definition py_strip (s : string) : string :=
  string_of_list_ascii (rev (lstrip_aux (rev (lstrip_aux (list_ascii_of_string s))))).

(** [s.split()]: the maximal runs of non-space characters; [cur] is the
    current run, reversed. *)
Fixpoint words_aux (l cur : list ascii) : list (list ascii) :=
  match l with
  | [] => match cur with [] => [] | _ => [rev cur] end
  | c :: r =>
      if py_space c then
        match cur with [] => words_aux r [] | _ => rev cur :: words_aux r [] end
      else words_aux r (c :: cur)
  end.

Definition py_split_ws (s : string) : list string :=
  map string_of_list_ascii (words_aux (list_ascii_of_string s) []).

(** [s.split(sep)] *)
Definition py_split (sep : ascii) (s : string) : list string :=
  map string_of_list_ascii (split_on sep (list_ascii_of_string s)).

Fixpoint py_join (sep : string) (xs : list string) : string :=
  match xs with
  | [] => ""
  | [x] => x
  | x :: r => x +:+ sep +:+ py_join sep r
  end.

(** [context_usage]: per context name, its count and its memories. *)
Definition usage_table : Type := list (string * (Z * list memory)).

(** The loop of lines 303-312; [parts[1].strip().split()[0]] raises
    [IndexError] on a blank segment, which ends the loop. *)
Fixpoint tally_memories (ms : list memory) (usage : usage_table) : string + usage_table :=
  match ms with
  | [] => inr usage
  | m :: r =>
      let content := mem_content m in
      if str_in "Context" content && str_in ":" content then
        let parts := py_split ":"%char content in
        if (1 <? length parts)%nat then
          match py_split_ws (py_strip (nth 1 parts "")) with
          | [] => inl "list index out of range"
          | cname :: _ =>
              let usage1 := match assoc_lookup cname usage with
                            | Some _ => usage
                            | None => assoc_set cname (0, []) usage
                            end in
              let entry := match assoc_lookup cname usage1 with
                           | Some ce => ce | None => (0, []) end in
              tally_memories r (assoc_set cname (entry.1 + 1, entry.2 ++ [m]) usage1)
          end
        else tally_memories r usage
      else tally_memories r usage
  end.

(** [max(context_usage, key=...)]: the first key of largest count. *)
Definition most_active_of (usage : usage_table) : option string :=
  match usage with
  | [] => None
  | (k0, (c0, _)) :: r =>
      Some (fst (foldl (fun (acc : string * Z) kv =>
                          if acc.2 <? kv.2.1 then (kv.1, kv.2.1) else acc) (k0, c0) r))
  end.

Inductive global_suggestions : Type :=
  | GlobalFail (err : string)
  | GlobalList (suggestions : list (list (string * string))).

Definition global_suggestion (rec : string) : list (string * string) :=
  [("context_name", "global"); ("optimization_type", "global_analysis");
   ("priority", "medium"); ("description", rec)].

(** Lines 300-336, from the memories returned by the search on. *)
Definition global_suggestions_of (ms : list memory) : global_suggestions :=
  match tally_memories ms [] with
  | inl err => GlobalFail ("Optimization analysis failed: " +:+ err)
  | inr usage =>
      let r1 := match most_active_of usage with
                | Some ma => ["Most active context: " +:+ ma
                              +:+ " - consider creating templates based on it"]
                | None => []
                end in
      let inactive := map fst (filter (fun kv => kv.2.1 <? 2) usage) in
      let r2 := if bool_decide (inactive = []) then []
                else ["Low-usage contexts: " +:+ py_join ", " (take 3 inactive)
                      +:+ " - review for relevance"] in
      GlobalList (map global_suggestion (r1 ++ r2))
  end.

Definition suggest_context_optimizations (e : env) : global_suggestions :=
  match search_by_tag e ["context_change"] 50 with
  | SearchFail _ => GlobalFail "Failed to retrieve context memories"
  | SearchOk _ ms _ => global_suggestions_of ms
  end.

(** A formatted proactive suggestion. *)
Record suggestion : Type := {
  sg_suggested_context : string; sg_reason : string; sg_confidence : float;
  sg_type : string; sg_priority : string }.

Inductive proactive_result : Type :=
  | ProactiveFail (err : string)
  | ProactiveList (suggestions : list suggestion).

Definition common_tools : list string :=
  ["docker"; "kubernetes"; "react"; "python"; "javascript"].

(** A raw suggestion: type, suggestion, priority, reasoning. *)
Definition format_suggestion (s : string * string * string * string) : suggestion :=
  let '(ty, sugg, prio, why) := s in
  {| sg_suggested_context := sugg; sg_reason := why;
     sg_confidence := if String.eqb prio "high" then 0.7%float else 0.5%float;
     sg_type := ty; sg_priority := prio |}.

Definition proactive_context_suggestions (e : env) (current_contexts : list string)
    : proactive_result :=
  match search_by_tag e ["context_change"; "usage"] 30 with
  | SearchFail _ => ProactiveFail "Failed to analyze usage patterns"
  | SearchOk _ _ _ =>
      let existing_tools := map py_lower current_contexts in
      let missing :=
        flat_map (fun tool =>
                    if existsb (String.eqb tool) existing_tools then []
                    else [("missing_tool_context",
                           "Create " +:+ tool +:+ "_context.json for " +:+ tool +:+ " development",
                           "medium",
                           tool +:+ " is commonly used but no context exists")])
                 common_tools in
      let workflow :=
        if (3 <? length current_contexts)%nat then
          [("workflow_context",
            "Create workflow_context.json to combine common development patterns",
            "low", "Multiple contexts suggest need for workflow automation")]
        else [] in
      let memory_contexts :=
        filter (fun ctx => str_in "memory" (py_lower ctx)) current_contexts in
      let enhance :=
        if bool_decide (memory_contexts = []) then
          [("memory_enhancement",
            "Enhance existing contexts with memory integration patterns",
            "high", "Memory service available but contexts lack memory integration")]
        else [] in
      ProactiveList (map format_suggestion (missing ++ workflow ++ enhance))
  end.

(** ** Context getters *)




(** [for context_data in self.contexts.values(): ...] *)
Definition has_session_initialization_contexts : M bool :=
  st ← get_state;
  foldr (fun nd k =>
           d ← new_dict [];
           si ← py_get nd.2 "session_initialization" d;
           en ← py_get si "enabled" (VBool false);
           st' ← get_state;
           if py_truthy st' en then mret true else k)
        (mret false) (contexts st).

(** ** Derived notions used in the statements below *)

Definition healthy_message : string := "Context shows healthy usage patterns".


(** The suggestion of [proactive_context_suggestions] for a missing tool. *)
Definition missing_tool_suggestion (tool : string) : suggestion :=
  format_suggestion ("missing_tool_context",
                     "Create " +:+ tool +:+ "_context.json for " +:+ tool +:+ " development",
                     "medium", tool +:+ " is commonly used but no context exists").

(** The context file of [name] holds the JSON serialisation of the
    document [self.contexts[name]] as it stands in memory. *)
Definition persisted_as_in_memory (st : state) (name : string) : Prop :=
  exists v j, assoc_lookup name (contexts st) = Some v /\
    disk st !! context_file_of name = Some (FJson j) /\
    to_json (dump_fuel st) st v = Some j.

(** The answer of [create_context_file] for a file that exists. *)
Definition already_exists_result (name : string) : result :=
  [("success", RB false);
   ("error", RS ("Context file " +:+ name +:+
      "_context.json already exists. Use update_context_rules to modify it."));
   ("context_name", RS name); ("existing_file", RS (context_file_of name))].






(** A computation that never raises and leaves [self.contexts] alone. *)
Definition total_ctx {A} (m : M A) : Prop :=
  forall s, exists s' a, m s = (s', inr a) /\ contexts s' = contexts s.

(** ** Observations *)

(** The [success] entry of a returned dict. *)
Definition succeeded (r : result) : bool :=
  match assoc_lookup "success" r with Some (RB b) => b | _ => false end.

(** Whether a call returned normally with [success] set. *)
Definition returned_success (o : exc + result) : option bool :=
  match o with inr r => Some (succeeded r) | inl _ => None end.

(** The validation errors of the in-memory document [name]. *)
Definition stored_validation_errors (st : state) (name : string)
    : option (list string) :=
  match assoc_lookup name (contexts st) with
  | Some d =>
      match (_validate_context_data d st).2 with
      | inr (errs, _) => Some errs
      | inl _ => None
      end
  | None => None
  end.

(** The object under key [key] of the in-memory document [name]. *)
Definition context_section (st : state) (name key : string) : option obj :=
  match assoc_lookup name (contexts st) with
  | Some d =>
      match deref st d with
      | Some (ODict kvs) =>
          match assoc_lookup key kvs with Some v => deref st v | None => None end
      | _ => None
      end
  | None => None
  end.

(** [self.contexts[name]['metadata']['optimization_count']], if present. *)
Definition optimization_count (st : state) (name : string) : option value :=
  match context_section st name "metadata" with
  | Some (ODict mkvs) => assoc_lookup "optimization_count" mkvs
  | _ => None
  end.

(** The stored count after one more optimisation: [.get(.., 0) + 1]. *)
Definition count_plus_one (c : option value) : option value :=
  match c with
  | None => Some (VInt 1)
  | Some (VInt z) => Some (VInt (z + 1))
  | Some (VBool b) => Some (VInt (Z.b2z b + 1))
  | Some _ => None
  end.

(** A [strftime('%Y%m%d_%H%M%S')] stamp: eight digits, [_], six digits. *)
Definition is_stamp (s : string) : bool :=
  let l := list_ascii_of_string s in
  (length l =? 15)%nat && forallb is_digit (take 8 l)
  && Ascii.eqb (nth 8 l "a"%char) "_"%char && forallb is_digit (drop 9 l).

(** Heap well-formedness: every allocated location and every reference
    stored in the heap or in [self.contexts] lies below [next_loc]. *)
Definition val_below (n : loc) (v : value) : bool :=
  match v with VRef l => bool_decide (l < n)%positive | _ => true end.

Definition obj_below (n : loc) (o : obj) : bool :=
  match o with
  | ODict kvs => forallb (fun kv => val_below n kv.2) kvs
  | OList xs => forallb (val_below n) xs
  end.

Definition wf_state (st : state) : bool :=
  forallb (fun lo => bool_decide (lo.1 < next_loc st)%positive
                     && obj_below (next_loc st) lo.2) (map_to_list (objs st))
  && forallb (fun kv => val_below (next_loc st) kv.2) (contexts st).

(** No top-level entry of the in-memory document [name] other than
    [metadata] is the very object stored under [metadata] (true of every
    document produced by [json.load]). *)
Definition metadata_unshared (st : state) (name : string) : bool :=
  match assoc_lookup name (contexts st) with
  | Some d =>
      match deref st d with
      | Some (ODict kvs) =>
          match assoc_lookup "metadata" kvs with
          | Some m => forallb (fun kv => String.eqb kv.1 "metadata"
                                         || negb (bool_decide (kv.2 = m))) kvs
          | None => true
          end
      | _ => true
      end
  | None => true
  end.

(** The rule [(pattern, replacement)] of an [auto_corrections] entry whose
    two fields are strings. *)
Definition rule_pair (st : state) (v : value) : option (string * string) :=
  match deref st v with
  | Some (ODict kvs) =>
      match assoc_lookup "pattern" kvs, assoc_lookup "replacement" kvs with
      | Some (VStr p), Some (VStr r) => Some (p, r)
      | _, _ => None
      end
  | _ => None
  end.

(** Behaviour of a regular-expression engine: a match found at a position
    [p] of the text ends within the text, not before [p], and strictly after
    [p] when empty matches are refused. *)
Definition matcher_wf (m : matcher) : Prop :=
  forall s p ne e, (p <= length s)%nat -> m s p ne = Some e ->
    (p <= e <= length s)%nat /\ (ne = true -> p < e)%nat.

(** Global substitution as the specification states it: scanning from the
    left, the leftmost occurrence at or after the current position is
    replaced and the scan resumes at its end (an empty occurrence is not
    accepted right where the previous empty one ended); the text after the
    last occurrence is copied.  No occurrence in between is skipped. *)
Inductive replaces_all (m : matcher) (t : filler) (s : list ascii)
    : nat -> bool -> list ascii -> Prop :=
  | ra_done i ma :
      (forall p, (i <= p <= length s)%nat -> m s p (ma && Nat.eqb p i) = None) ->
      replaces_all m t s i ma (drop i s)
  | ra_step i ma b e out :
      (i <= b <= length s)%nat ->
      (forall p, (i <= p < b)%nat -> m s p (ma && Nat.eqb p i) = None) ->
      m s b (ma && Nat.eqb b i) = Some e ->
      replaces_all m t s e (Nat.eqb e b) out ->
      replaces_all m t s i ma (take (b - i) (drop i s) ++ t s b e ++ out).

(** Computations that only touch the heap: the files, [self.contexts] and
    the session status stay as they are, whatever the outcome. *)
Definition heap_only {A} (m : M A) : Prop :=
  forall st, disk (m st).1 = disk st /\ contexts (m st).1 = contexts st
             /\ status (m st).1 = status st.

(** Computations that leave the whole state as it is. *)
Definition reads_only {A} (m : M A) : Prop := forall st, (m st).1 = st.

(** The entries [create_context_file] copies from [rules]: for each
    section present in [rules], [context_data[section] = rules[section]]. *)
Definition copy_sections (kvs : list (string * value)) (secs : list string)
    (acc : list (string * value)) : list (string * value) :=
  fold_left (fun acc sec => match assoc_lookup sec kvs with
                            | Some v => assoc_set sec v acc
                            | None => acc
                            end) secs acc.

(** The error [_validate_context_data] reports for a section copied from
    [rules] (a dict in the heap [st]). *)
Definition section_error (st : state) (kvs : list (string * value)) (sec : string)
    : list string :=
  match assoc_lookup sec kvs with
  | Some v => if is_dict st v then [] else [sec +:+ " must be a dictionary"]
  | None => []
  end.

Definition create_section_errors (st : state) (kvs : list (string * value))
    : list string :=
  concat (map (section_error st kvs) optional_sections).

(** [m] keeps [I] on every normal return. *)
Definition keeps {A} (I : state -> Prop) (m : M A) : Prop :=
  forall st st' a, I st -> m st = (st', inr a) -> I st'.

(** What a mutating method needs to know about its working copy [c] of a
    document: while [c] is a dict its [metadata] entry is [mval], and while
    the object that entry refers to is a dict its [optimization_count] is
    [cnt]. *)
Definition count_inv (c : loc) (mval cnt : option value) (st : state) : Prop :=
  (c < next_loc st)%positive /\
  (forall ck, objs st !! c = Some (ODict ck) -> assoc_lookup "metadata" ck = mval) /\
  (forall m, mval = Some (VRef m) ->
     (m < next_loc st)%positive /\ m <> c /\
     forall mk, objs st !! m = Some (ODict mk) -> assoc_lookup "optimization_count" mk = cnt).

(** No entry of [c] other than [metadata] is [c] itself or the metadata
    object. *)
Definition entries_fresh (c : loc) (mval : option value) (st : state) : Prop :=
  forall ck, objs st !! c = Some (ODict ck) ->
  forall k v, assoc_lookup k ck = Some v -> k <> "metadata" ->
  v <> VRef c /\ forall m, mval = Some (VRef m) -> v <> VRef m.

Definition copy_inv (c : loc) (mval cnt : option value) (st : state) : Prop :=
  count_inv c mval cnt st /\ entries_fresh c mval st.

(** ** Concrete configurations *)

Module Fixtures.

(** 2025-09-17 22:21:11.526615, every write succeeds. *)
Definition env0 : env := {|
  now := {| dt_year := 2025; dt_month := 9; dt_day := 17; dt_hour := 22;
            dt_minute := 21; dt_second := 11; dt_microsecond := 526615 |};
  write_fails := fun _ => false; auto_load := true; dir_exists := true;
  elapsed_us := 1200 |}.

Definition git_doc : json := JObj [
  ("tool_category", JStr "git"); ("description", JStr "Git conventions");
  ("metadata", JObj [("version", JStr "1.0.0"); ("optimization_count", JInt 3)]);
  ("auto_corrections", JObj [
     ("first", JObj [("pattern", JStr "a"); ("replacement", JStr "b")]);
     ("second", JObj [("pattern", JStr "b"); ("replacement", JStr "c")])])].

Definition docker_doc : json :=
  JObj [("tool_category", JStr "docker"); ("description", JStr "Docker conventions")].

(** [git_context.json], a [docker.json] in the older naming, and a
    [notes.json] that [json.load] rejects. *)
Definition disk0 : gmap string file :=
  <["git_context.json" := FJson git_doc]>
    (<["docker.json" := FJson docker_doc]>
       (<["notes.json" := FRaw "{unterminated"]> ∅)).

Definition st0 : state := provider_init env0 disk0.

(** The payload [{'tool_category': 5, 'metadata': {'priority': 'high'}}]. *)
Definition bad_payload : M value :=
  md ← new_dict [("priority", VStr "high")];
  new_dict [("tool_category", VInt 5); ("metadata", md)].

Definition st_bad : state := (bad_payload st0).1.

Definition bad_ref : value :=
  match (bad_payload st0).2 with inr v => v | inl _ => VNone end.

(** [update_context_rules('git', {'tool_category': 5,
    'metadata': {'priority': 'high'}})] *)
Definition bad_update : M result :=
  u ← bad_payload;
  update_context_rules env0 "git" u.

(** [update_context_rules('git', {'metadata': {'optimization_count': 0}})] *)
Definition reset_update : M result :=
  md ← new_dict [("optimization_count", VInt 0)];
  u ← new_dict [("metadata", md)];
  update_context_rules env0 "git" u.

(** [st0] with the dict [{'description': 'Git conventions, revised'}]
    allocated, used as an argument of the mutating methods. *)
Definition st_arg : state := (new_dict [("description", VStr "Git conventions, revised")] st0).1.

Definition arg_ref : value := VRef (next_loc st0).

(** [add_context_pattern('notes', 'auto_store_triggers', 'todo', {...})] *)
Definition notes_pattern : M result :=
  c ← new_dict [("keywords", VStr "todo")];
  add_context_pattern env0 "notes" "auto_store_triggers" "todo" c.

(** [create_context_file('docker', 'docker', {})] *)
Definition docker_create : M result :=
  r ← new_dict [];
  create_context_file env0 "docker" "docker" r.

(** [create_context_file('lint', 'lint', {'preferences': 5})] *)
Definition bad_section_create : M result :=
  r ← new_dict [("preferences", VInt 5)];
  create_context_file env0 "lint" "lint" r.

(** A document whose [metadata] is a string. *)
Definition flat_meta_doc : json := JObj [
  ("tool_category", JStr "git"); ("description", JStr "Git conventions");
  ("metadata", JStr "1.0.0")].

Definition st1 : state :=
  provider_init env0 (<["git_context.json" := FJson flat_meta_doc]> ∅).

(** [update_context_rules('git', {})] *)
Definition empty_update : M result :=
  u ← new_dict [];
  update_context_rules env0 "git" u.

(** A state holding the single rule [{'pattern': 'X', 'replacement': 'Y'}]. *)
Definition rule_state : state := {|
  objs := {[ 1%positive := ODict [("pattern", VStr "X"); ("replacement", VStr "Y")] ]};
  next_loc := 2%positive; contexts := []; disk := ∅;
  status := initial_session_status |}.

(** A memory service that answers every action with an empty result. *)
Definition no_memory : value -> value -> memory_result :=
  fun _ _ => {| mr_summary := None; mr_result := JObj [] |}.

(** [re.compile] restricted to patterns without special characters. *)
Definition lit_compile (p : string) : option matcher :=
  if existsb metachar (list_ascii_of_string p) then None
  else Some (literal_matcher (list_ascii_of_string p)).

Definition no_template : string -> option filler := fun _ => None.

End Fixtures.

(** * Properties *)

(** ** Strings *)

Lemma list_ascii_of_string_app (s1 s2 : string) :
  list_ascii_of_string (s1 +:+ s2) = list_ascii_of_string s1 ++ list_ascii_of_string s2.
Proof. induction s1 as [|a s1 IH]; simpl; [reflexivity | now rewrite IH]. Qed.

Lemma length_list_ascii_app (s1 s2 : string) :
  length (list_ascii_of_string (s1 +:+ s2))
  = (length (list_ascii_of_string s1) + length (list_ascii_of_string s2))%nat.
Proof. now rewrite list_ascii_of_string_app, length_app. Qed.

(** ** C8: session initialisation *)

(** C8 (code_bug): whenever the per-context phase of
    [execute_session_initialization] completes, the method raises
    [KeyError: 'insights']: [learn_from_session_patterns] reports success
    and its result has the key [insights_gained], not [insights].  It never
    returns a status, whatever the memory service answers. *)
Theorem session_init_raises_on_insights
    (act : value -> value -> memory_result) (e : env) (st st' : state)
    (inits : list string) :
  initialize_contexts act (contexts st) (set_status (fresh_session_status e) st)
    = (st', inr inits) ->
  (execute_session_initialization act e st).2 = inl (Exc KeyError "insights").
Proof.
  intros H.
  cbv [execute_session_initialization mbind M_bind modify get_state
       update_status mret M_ret].
  change (contexts (set_status (fresh_session_status e) st)) with (contexts st).
  rewrite H. reflexivity.
Qed.

Lemma session_init_raises_on_insights_witness :
  (execute_session_initialization Fixtures.no_memory Fixtures.env0 Fixtures.st0).2
  = inl (Exc KeyError "insights").
Proof.
  refine (session_init_raises_on_insights Fixtures.no_memory Fixtures.env0
            Fixtures.st0
            (initialize_contexts Fixtures.no_memory (contexts Fixtures.st0)
               (set_status (fresh_session_status Fixtures.env0) Fixtures.st0)).1
            [] _).
  vm_compute. reflexivity.
Defined.

(** ** C2: the failed update of the fixture *)

(** C2 (code_bug): [update_context_rules('git', {'tool_category': 5,
    'metadata': {'priority': 'high'}})] fails validation and returns
    [success=False], yet the in-memory [metadata] of [git] has gained the
    [priority] entry and a refreshed [last_updated]: the shallow
    [.copy()] shares the nested [metadata] dict, which the merge mutates
    before validation. *)
Theorem failed_update_mutates_metadata :
  returned_success (Fixtures.bad_update Fixtures.st0).2 = Some false /\
  context_section Fixtures.st0 "git" "metadata"
    = Some (ODict [("version", VStr "1.0.0"); ("optimization_count", VInt 3)]) /\
  context_section (Fixtures.bad_update Fixtures.st0).1 "git" "metadata"
    = Some (ODict [("version", VStr "1.0.0"); ("optimization_count", VInt 3);
                   ("priority", VStr "high");
                   ("last_updated", VStr "2025-09-17T22:21:11.526615")]).
Proof. vm_compute. repeat split. Qed.

(** ** C3: [add_context_pattern] does not validate *)

(** C3 (code_bug): [notes] is loaded as [{}] from a [notes.json] that
    [json.load] rejects; [add_context_pattern('notes',
    'auto_store_triggers', 'todo', {...})] succeeds and writes
    [notes_context.json] with neither [tool_category] nor [description],
    a document that validation rejects. *)
Theorem add_pattern_writes_invalid_document :
  returned_success (Fixtures.notes_pattern Fixtures.st0).2 = Some true /\
  disk (Fixtures.notes_pattern Fixtures.st0).1 !! "notes_context.json"
    = Some (FJson (JObj [
        ("auto_store_triggers", JObj [("todo", JObj [("keywords", JStr "todo")])]);
        ("metadata", JObj [("last_updated", JStr "2025-09-17T22:21:11.526615")])])) /\
  stored_validation_errors (Fixtures.notes_pattern Fixtures.st0).1 "notes"
    = Some ["Missing required field: tool_category";
            "Missing required field: description"].
Proof. vm_compute. repeat split. Qed.

(** ** C6: a document loaded from [<name>.json] *)

(** C6 (code_bug): [docker] is in the store, loaded from [docker.json];
    [create_context_file('docker', 'docker', {})] still succeeds, writes
    [docker_context.json] and replaces the in-memory [docker] document. *)
Theorem create_ignores_plain_json_document :
  in_contexts "docker" Fixtures.st0 = true /\
  disk Fixtures.st0 !! "docker.json" = Some (FJson Fixtures.docker_doc) /\
  disk Fixtures.st0 !! "docker_context.json" = None /\
  returned_success (Fixtures.docker_create Fixtures.st0).2 = Some true /\
  disk (Fixtures.docker_create Fixtures.st0).1 !! "docker_context.json" <> None /\
  assoc_lookup "docker" (contexts (Fixtures.docker_create Fixtures.st0).1)
    <> assoc_lookup "docker" (contexts Fixtures.st0).
Proof. vm_compute. repeat split; discriminate. Qed.

(** ** C7: backup file names *)

Lemma digit_is_digit (z : Z) : z < 10 -> is_digit (digit z) = true.
Proof.
  intros Hz. unfold is_digit, digit.
  rewrite nat_ascii_embedding by lia.
  apply andb_true_intro; split; apply Nat.leb_le; lia.
Qed.

Lemma digit_mod_is_digit (z : Z) : is_digit (digit (z mod 10)) = true.
Proof. apply digit_is_digit. pose proof (Z.mod_pos_bound z 10). lia. Qed.

Lemma fixed_digits_length (w : nat) (z : Z) : length (fixed_digits w z) = w.
Proof.
  revert z; induction w as [|w IH]; intros z; cbn [fixed_digits]; [reflexivity|].
  rewrite length_app, IH. cbn [length]. lia.
Qed.

Lemma fixed_digits_digits (w : nat) (z : Z) : forallb is_digit (fixed_digits w z) = true.
Proof.
  revert z; induction w as [|w IH]; intros z; cbn [fixed_digits]; [reflexivity|].
  rewrite forallb_app, IH. cbn [forallb]. now rewrite digit_mod_is_digit.
Qed.

Lemma dec_aux_digits (f : nat) (z : Z) : forallb is_digit (dec_aux f z) = true.
Proof.
  revert z; induction f as [|f IH]; intros z; cbn [dec_aux].
  - cbn [forallb]. now rewrite digit_mod_is_digit.
  - destruct (z <? 10) eqn:E.
    + cbn [forallb]. rewrite digit_is_digit; [reflexivity | now apply Z.ltb_lt].
    + rewrite forallb_app, IH. cbn [forallb]. now rewrite digit_mod_is_digit.
Qed.

(** A four-digit year is printed with four digits. *)
Lemma dec_year_length (y : Z) : 1000 <= y <= 9999 -> length (dec y) = 4%nat.
Proof.
  intros Hy. unfold dec.
  assert (Hl : (3 <= Z.to_nat (Z.log2 y))%nat).
  { assert (3 <= Z.log2 y) by (change 3 with (Z.log2 8); apply Z.log2_le_mono; lia).
    lia. }
  destruct (Z.to_nat (Z.log2 y)) as [|[|[|f]]]; try lia.
  assert (E1 : (y <? 10) = false) by (apply Z.ltb_ge; lia).
  assert (E2 : (y / 10 <? 10) = false) by (apply Z.ltb_ge; Z.div_mod_to_equations; lia).
  assert (E3 : (y / 10 / 10 <? 10) = false)
    by (apply Z.ltb_ge; Z.div_mod_to_equations; lia).
  assert (E4 : (y / 10 / 10 / 10 <? 10) = true)
    by (apply Z.ltb_lt; Z.div_mod_to_equations; lia).
  cbn [dec_aux]. rewrite E1, E2, E3, E4. reflexivity.
Qed.

(** The [strftime] stamp of a four-digit year has the [YYYYMMDD_HHMMSS]
    shape. *)
Lemma strftime_stamp_is_stamp (d : datetime) :
  1000 <= dt_year d <= 9999 -> is_stamp (strftime_stamp d) = true.
Proof.
  intros Hy.
  set (A := dec (dt_year d) ++ fixed_digits 2 (dt_month d) ++ fixed_digits 2 (dt_day d)).
  set (B := fixed_digits 2 (dt_hour d) ++ fixed_digits 2 (dt_minute d)
            ++ fixed_digits 2 (dt_second d)).
  assert (E : list_ascii_of_string (strftime_stamp d) = A ++ "_"%char :: B).
  { unfold strftime_stamp, pad2, A, B.
    rewrite !list_ascii_of_string_app, !list_ascii_of_string_of_list_ascii.
    rewrite <- !app_assoc. reflexivity. }
  assert (HA : length A = 8%nat).
  { unfold A. rewrite !length_app, dec_year_length, !fixed_digits_length by exact Hy.
    reflexivity. }
  assert (HB : length B = 6%nat).
  { unfold B. rewrite !length_app, !fixed_digits_length. reflexivity. }
  assert (DA : forallb is_digit A = true).
  { unfold A, dec. rewrite !forallb_app, dec_aux_digits, !fixed_digits_digits.
    reflexivity. }
  assert (DB : forallb is_digit B = true).
  { unfold B. rewrite !forallb_app, !fixed_digits_digits. reflexivity. }
  clearbody A B. unfold is_stamp. cbv zeta. rewrite E.
  rewrite (take_app_length' A ("_"%char :: B) 8) by (symmetry; exact HA).
  rewrite app_nth2 by lia. rewrite HA. simpl nth.
  rewrite drop_app_ge by lia. rewrite HA. simpl drop. rewrite drop_0.
  rewrite length_app, HA. simpl length. rewrite HB, DA, DB. reflexivity.
Qed.

(** The counterexample to the [<name>_<YYYYMMDD_HHMMSS>.json] pattern:
    the backup of [git] is [backups/git_context_20250917_222111.json], and
    no name of the form [backups/git_<stamp>.json] equals it (it has 32
    characters, the actual name has 40). *)
Lemma backup_name_has_context_infix :
  (_backup_context_file Fixtures.env0 "git" Fixtures.st0).2
    = inr (Some "backups/git_context_20250917_222111.json") /\
  forall stamp, is_stamp stamp = true ->
    "backups/git_context_20250917_222111.json"
      <> "backups/" +:+ "git" +:+ "_" +:+ stamp +:+ ".json".
Proof.
  split; [vm_compute; reflexivity|].
  intros stamp Hs Heq.
  apply (f_equal (fun s => length (list_ascii_of_string s))) in Heq.
  rewrite !length_list_ascii_app in Heq.
  unfold is_stamp in Hs.
  repeat rewrite Bool.andb_true_iff in Hs.
  destruct Hs as [[[H15 _] _] _]. apply Nat.eqb_eq in H15.
  simpl in Heq. lia.
Qed.

(** C7 (corrected): every backup that [_backup_context_file] reports is
    [backups/<name>_context_<YYYYMMDD_HHMMSS>.json] (for a clock year of
    four digits), and it holds the bytes of [<name>_context.json]. *)
Theorem backup_file_name (e : env) (name : string) (st st' : state) (p : string) :
  1000 <= dt_year (now e) <= 9999 ->
  _backup_context_file e name st = (st', inr (Some p)) ->
  exists stamp,
    p = "backups/" +:+ name +:+ "_context_" +:+ stamp +:+ ".json"
    /\ is_stamp stamp = true
    /\ disk st' !! p = disk st !! context_file_of name.
Proof.
  intros Hy H. unfold _backup_context_file in H. cbv zeta in H.
  destruct (disk st !! context_file_of name) as [f|] eqn:Ef; [|discriminate].
  destruct (bool_decide _); [discriminate|].
  destruct (write_fails e _); [discriminate|].
  injection H as <- <-.
  exists (strftime_stamp (now e)). split; [reflexivity|]. split.
  - now apply strftime_stamp_is_stamp.
  - simpl. now rewrite lookup_insert_eq.
Qed.

Lemma backup_file_name_witness :
  exists stamp,
    "backups/git_context_20250917_222111.json"
      = "backups/" +:+ "git" +:+ "_context_" +:+ stamp +:+ ".json"
    /\ is_stamp stamp = true
    /\ disk (_backup_context_file Fixtures.env0 "git" Fixtures.st0).1
          !! "backups/git_context_20250917_222111.json"
       = disk Fixtures.st0 !! context_file_of "git".
Proof.
  apply (backup_file_name Fixtures.env0 "git" Fixtures.st0
           (_backup_context_file Fixtures.env0 "git" Fixtures.st0).1).
  - simpl. lia.
  - vm_compute. reflexivity.
Defined.

(** ** C10: global substitution *)

Section Substitution.

Variable m : matcher.
Variable t : filler.
Variable s : list ascii.

Lemma search_from_some (fuel p : nat) (ma : bool) (b e : nat) :
  search_from m s p ma fuel = Some (b, e) ->
  (p <= b < p + fuel)%nat /\ m s b (ma && Nat.eqb b p) = Some e /\
  (forall q, (p <= q < b)%nat -> m s q (ma && Nat.eqb q p) = None).
Proof.
  revert p ma. induction fuel as [|f IH]; intros p ma H; simpl in H; [discriminate|].
  destruct (m s p ma) as [e'|] eqn:Ep.
  - injection H as <- <-. rewrite Nat.eqb_refl, andb_true_r.
    split; [lia|]. split; [exact Ep | intros q Hq; lia].
  - destruct (IH (S p) false H) as (Hb & Hm & Hbefore).
    assert (Hne : Nat.eqb b p = false) by (apply Nat.eqb_neq; lia).
    split; [lia|]. split.
    + rewrite Hne, andb_false_r. exact Hm.
    + intros q Hq. destruct (Nat.eqb_spec q p) as [->|Hqp].
      * rewrite andb_true_r. exact Ep.
      * rewrite andb_false_r. specialize (Hbefore q ltac:(lia)).
        simpl in Hbefore. exact Hbefore.
Qed.

Lemma search_from_none (fuel p : nat) (ma : bool) :
  search_from m s p ma fuel = None ->
  forall q, (p <= q < p + fuel)%nat -> m s q (ma && Nat.eqb q p) = None.
Proof.
  revert p ma. induction fuel as [|f IH]; intros p ma H q Hq; [lia|].
  simpl in H. destruct (m s p ma) as [e'|] eqn:Ep; [discriminate|].
  destruct (Nat.eqb_spec q p) as [->|Hqp].
  - rewrite andb_true_r. exact Ep.
  - rewrite andb_false_r. specialize (IH (S p) false H q ltac:(lia)).
    simpl in IH. exact IH.
Qed.

Hypothesis m_wf : matcher_wf m.

(** [subx_loop] terminates within [2 * (length s - i) + 2] rounds: every
    round either moves past a non-empty match or is an empty match, after
    which the next one must be non-empty. *)
Lemma subx_loop_replaces_all (fuel i : nat) (ma : bool) :
  (i <= length s)%nat ->
  (2 * (length s - i) + (if ma then 1 else 2) <= fuel)%nat ->
  replaces_all m t s i ma (subx_loop m t s fuel i ma).
Proof.
  revert i ma. induction fuel as [|f IH]; intros i ma Hi Hf.
  { destruct ma; lia. }
  cbn [subx_loop]. unfold sre_search.
  assert (Hle : Nat.leb i (length s) = true) by (apply Nat.leb_le; exact Hi).
  rewrite Hle.
  destruct (search_from m s i ma (S (length s - i))) as [[b e]|] eqn:Hs.
  - destruct (search_from_some _ _ _ _ _ Hs) as (Hb & Hm & Hbefore).
    destruct (m_wf s b _ e ltac:(lia) Hm) as [He Hne].
    apply ra_step; [lia | exact Hbefore | exact Hm |].
    apply IH; [lia|].
    destruct (Nat.eqb_spec e b) as [Heb|Heb].
    + subst e. destruct ma; destruct (Nat.eqb_spec b i) as [Hbi|Hbi]; simpl in Hne;
        try (specialize (Hne eq_refl); lia); lia.
    + destruct ma; lia.
  - apply ra_done. intros p Hp.
    apply (search_from_none _ _ _ Hs). lia.
Qed.

Lemma pattern_sub_replaces_all :
  replaces_all m t s 0 false (pattern_sub m t s).
Proof. apply subx_loop_replaces_all; lia. Qed.

End Substitution.

Lemma is_prefix_length (p l : list ascii) :
  is_prefix p l = true -> (length p <= length l)%nat.
Proof.
  revert l. induction p as [|a p IH]; intros [|b l] H; simpl in *; try lia; try discriminate.
  apply andb_prop in H as [_ H]. specialize (IH l H). lia.
Qed.

Lemma literal_matcher_wf (p : list ascii) : matcher_wf (literal_matcher p).
Proof.
  intros s i ne e Hi H. unfold literal_matcher in H.
  destruct (is_prefix p (drop i s) && negb (ne && bool_decide (p = []))) eqn:E;
    [|discriminate].
  injection H as <-. apply andb_prop in E as [Hp Hn].
  apply is_prefix_length in Hp. rewrite length_drop in Hp.
  split; [lia|]. intros ->. simpl in Hn.
  destruct p as [|c p]; [discriminate | simpl; lia].
Qed.

(** C10: for a rule whose pattern and replacement are strings, with a
    regular-expression engine that behaves as [matcher_wf] states,
    [apply_correction] rewrites the text by global substitution: the
    output is the left-to-right replacement of every non-overlapping
    occurrence ([replaces_all]). *)
Theorem correction_replaces_every_occurrence
    (rc : string -> option matcher) (rt : string -> option filler)
    (st : state) (rule : value) (text p r : string)
    (kvs : list (string * value)) (mt : matcher) (f : filler) :
  deref st rule = Some (ODict kvs) ->
  assoc_lookup "pattern" kvs = Some (VStr p) ->
  assoc_lookup "replacement" kvs = Some (VStr r) ->
  rc p = Some mt -> matcher_wf mt -> repl_template rt r = Some f ->
  exists out,
    apply_correction rc rt rule text st = (st, inr (string_of_list_ascii out))
    /\ replaces_all mt f (list_ascii_of_string text) 0 false out.
Proof.
  intros Hd Hp Hr Hc Hwf Hf.
  exists (pattern_sub mt f (list_ascii_of_string text)). split.
  - destruct rule as [| | | |l]; try discriminate. simpl in Hd.
    unfold apply_correction, re_sub.
    cbv [mbind M_bind py_contains py_getitem mret M_ret deref].
    repeat (first [ rewrite Hd | rewrite Hp | rewrite Hr | rewrite Hc | rewrite Hf
                  | rewrite bool_decide_eq_true_2 by (eexists; reflexivity) ];
            cbn [andb]).
    reflexivity.
  - apply pattern_sub_replaces_all. exact Hwf.
Qed.

Lemma correction_replaces_every_occurrence_witness :
  exists out,
    apply_correction Fixtures.lit_compile Fixtures.no_template (VRef 1%positive)
      "aXbXcXX" Fixtures.rule_state
    = (Fixtures.rule_state, inr (string_of_list_ascii out))
    /\ replaces_all (literal_matcher (list_ascii_of_string "X"))
         (fun _ _ _ => list_ascii_of_string "Y")
         (list_ascii_of_string "aXbXcXX") 0 false out.
Proof.
  apply (correction_replaces_every_occurrence Fixtures.lit_compile
           Fixtures.no_template Fixtures.rule_state (VRef 1%positive)
           "aXbXcXX" "X" "Y" [("pattern", VStr "X"); ("replacement", VStr "Y")]).
  - vm_compute. reflexivity.
  - vm_compute. reflexivity.
  - vm_compute. reflexivity.
  - vm_compute. reflexivity.
  - apply literal_matcher_wf.
  - vm_compute. reflexivity.
Defined.

(** ** Heap well-formedness *)

Lemma wf_lookup_lt (st : state) (l : loc) (o : obj) :
  wf_state st = true -> objs st !! l = Some o -> (l < next_loc st)%positive.
Proof.
  intros Hwf Hl. unfold wf_state in Hwf. apply andb_prop in Hwf as [H _].
  rewrite forallb_forall in H.
  specialize (H (l, o) (proj1 (list_elem_of_In _ _)
                          (proj2 (elem_of_map_to_list _ _ _) Hl))).
  apply andb_prop in H as [H _]. exact (bool_decide_eq_true_1 _ H).
Qed.

Lemma alloc_keeps (st : state) (o o' : obj) (l : loc) :
  wf_state st = true -> objs st !! l = Some o ->
  objs (alloc o' st).1 !! l = Some o.
Proof.
  intros Hwf Hl. pose proof (wf_lookup_lt _ _ _ Hwf Hl) as Hlt.
  unfold alloc, set_next, set_objs. cbn [fst objs next_loc].
  rewrite lookup_insert_ne; [exact Hl|].
  intros Heq. rewrite Heq in Hlt. exact (Pos.lt_irrefl _ Hlt).
Qed.

Lemma deref_alloc (st : state) (o o' : obj) (v : value) :
  wf_state st = true -> deref st v = Some o -> deref (alloc o' st).1 v = Some o.
Proof. destruct v; simpl; try discriminate. apply alloc_keeps. Qed.

Lemma rule_pair_alloc (st : state) (o' : obj) (v : value) (pr : string * string) :
  wf_state st = true -> rule_pair st v = Some pr -> rule_pair (alloc o' st).1 v = Some pr.
Proof.
  intros Hwf. unfold rule_pair.
  destruct (deref st v) as [o|] eqn:Hd; [|discriminate].
  rewrite (deref_alloc _ _ _ _ Hwf Hd). tauto.
Qed.

Lemma map_Some_Forall2 {A B} (g : A -> option B) (l : list A) (l' : list B) :
  map g l = map Some l' -> Forall2 (fun x y => g x = Some y) l l'.
Proof.
  revert l'. induction l as [|x l IH]; intros [|y l'] H; simpl in H;
    try discriminate; constructor.
  - now injection H as H _.
  - injection H as _ H. now apply IH.
Qed.

(** ** C4: ordered correction application *)

(** One rule with string fields: [re.sub], or the text when the pattern
    does not compile; the state is untouched. *)
Lemma apply_correction_rule (rc : string -> option matcher)
    (rt : string -> option filler) (st : state) (v : value) (text p r : string) :
  rule_pair st v = Some (p, r) ->
  apply_correction rc rt v text st = (st, inr (correction_step rc rt text (p, r))).
Proof.
  intros H. unfold rule_pair in H.
  destruct v as [| | | |l]; try discriminate. simpl in H.
  destruct (objs st !! l) as [[kvs|]|] eqn:Hd; try discriminate.
  destruct (assoc_lookup "pattern" kvs) as [[| | |p'|]|] eqn:Hp; try discriminate.
  destruct (assoc_lookup "replacement" kvs) as [[| | |r'|]|] eqn:Hr; try discriminate.
  injection H as <- <-.
  unfold apply_correction.
  cbv [mbind M_bind py_contains py_getitem mret M_ret deref].
  repeat (first [ rewrite Hd | rewrite Hp | rewrite Hr
                | rewrite bool_decide_eq_true_2 by (eexists; reflexivity) ];
          cbn [andb]).
  unfold correction_step, re_sub. simpl.
  destruct (rc p'); [destruct (repl_template rt r')|]; reflexivity.
Qed.

Lemma corrections_loop (rc : string -> option matcher)
    (rt : string -> option filler) (st : state)
    (akvs : list (string * value)) (rules : list (string * string)) :
  Forall2 (fun kv pr => rule_pair st kv.2 = Some pr) akvs rules ->
  forall (acc : M string) (text : string), acc st = (st, inr text) ->
  foldl (fun acc kv => t ← acc; apply_correction rc rt kv.2 t) acc akvs st
  = (st, inr (fold_left (correction_step rc rt) rules text)).
Proof.
  induction 1 as [|kv [p r] akvs rules Hkv _ IH]; intros acc text Hacc; simpl.
  - exact Hacc.
  - apply IH. cbv [mbind M_bind]. rewrite Hacc.
    exact (apply_correction_rule rc rt st kv.2 text p r Hkv).
Qed.

(** C4: when the [auto_corrections] section of the document selected by
    the tool name holds the rules [rules] (pattern and replacement
    strings) in stored order, [apply_auto_corrections] returns the text
    obtained by applying them one after the other in that order, each to
    the output of the previous one. *)
Theorem corrections_applied_in_stored_order
    (rc : string -> option matcher) (rt : string -> option filler)
    (st : state) (tool text : string)
    (akvs : list (string * value)) (rules : list (string * string)) :
  wf_state st = true ->
  context_section st (tool_category_of tool) "auto_corrections" = Some (ODict akvs) ->
  map (fun kv => rule_pair st kv.2) akvs = map Some rules ->
  (apply_auto_corrections rc rt tool text st).2
  = inr (fold_left (correction_step rc rt) rules text).
Proof.
  intros Hwf Hcs Hmap.
  unfold context_section in Hcs.
  destruct (assoc_lookup (tool_category_of tool) (contexts st)) as [ctx|] eqn:Ectx;
    [|discriminate].
  destruct (deref st ctx) as [[ckvs|]|] eqn:Ed; try discriminate.
  destruct (assoc_lookup "auto_corrections" ckvs) as [acs|] eqn:Ea; [|discriminate].
  unfold apply_auto_corrections, get_tool_context, new_dict.
  cbv [mbind M_bind get_state mret M_ret].
  rewrite Ectx.
  change (alloc (ODict []) st)
    with ((alloc (ODict []) st).1, @inr exc value (VRef (next_loc st))).
  cbn [fst snd].
  pose proof (deref_alloc _ _ (ODict []) _ Hwf Ed) as Hd1.
  pose proof (deref_alloc _ _ (ODict []) _ Hwf Hcs) as Ha1.
  pose proof (map_Some_Forall2 _ _ _ Hmap) as Hrules.
  assert (Hrules1 : Forall2 (fun kv pr => rule_pair (alloc (ODict []) st).1 kv.2 = Some pr)
                      akvs rules).
  { eapply Forall2_impl; [exact Hrules|]. intros kv pr H.
    now apply rule_pair_alloc. }
  set (st1 := (alloc (ODict []) st).1) in *. clearbody st1.
  unfold py_get, py_items. rewrite Hd1. cbn. rewrite Ea, Ha1.
  exact (f_equal snd (corrections_loop rc rt st1 akvs rules Hrules1 (mret text) text eq_refl)).
Qed.

Lemma corrections_applied_in_stored_order_witness :
  (apply_auto_corrections Fixtures.lit_compile Fixtures.no_template "git:commit" "a"
     Fixtures.st0).2 = inr "c".
Proof.
  rewrite (corrections_applied_in_stored_order Fixtures.lit_compile Fixtures.no_template
             Fixtures.st0 "git:commit" "a"
             [("first", VRef 2%positive); ("second", VRef 3%positive)]
             [("a", "b"); ("b", "c")]).
  - vm_compute. reflexivity.
  - vm_compute. reflexivity.
  - vm_compute. reflexivity.
  - vm_compute. reflexivity.
Defined.

(** ** Frame lemmas *)

Lemma heap_only_ret {A} (a : A) : heap_only (mret a).
Proof. intros st. repeat split. Qed.

Lemma heap_only_bind {A B} (m : M A) (k : A -> M B) :
  heap_only m -> (forall a, heap_only (k a)) -> heap_only (mbind k m).
Proof.
  intros Hm Hk st. cbv [mbind M_bind]. specialize (Hm st).
  destruct (m st) as [st' [ex|a]]; simpl in *; [exact Hm|].
  destruct (Hk a st') as (H1 & H2 & H3). destruct Hm as (H4 & H5 & H6).
  repeat split; congruence.
Qed.

Lemma heap_only_foldr {A B} (g : A -> M B -> M B) (z : M B) (xs : list A) :
  (forall x k, heap_only k -> heap_only (g x k)) -> heap_only z ->
  heap_only (foldr g z xs).
Proof. intros Hg Hz. induction xs as [|x xs IH]; simpl; auto. Qed.

Lemma heap_only_raise {A} (k : exc_kind) (msg : string) : heap_only (@raise A k msg).
Proof. intros st. repeat split. Qed.

Lemma heap_only_get_state : heap_only get_state.
Proof. intros st. repeat split. Qed.

Ltac prim_frame :=
  intros st; repeat (case_match; simpl); repeat split.

Lemma heap_only_alloc (o : obj) : heap_only (alloc o).
Proof. prim_frame. Qed.

Lemma heap_only_new_dict kvs : heap_only (new_dict kvs).
Proof. apply heap_only_alloc. Qed.

Lemma heap_only_py_contains c k : heap_only (py_contains c k).
Proof. unfold py_contains. prim_frame. Qed.

Lemma heap_only_py_getitem c k : heap_only (py_getitem c k).
Proof. unfold py_getitem. prim_frame. Qed.

Lemma heap_only_py_setitem c k v : heap_only (py_setitem c k v).
Proof. unfold py_setitem. prim_frame. Qed.

Lemma heap_only_py_get c k d : heap_only (py_get c k d).
Proof. unfold py_get. prim_frame. Qed.

Lemma heap_only_py_items c : heap_only (py_items c).
Proof. unfold py_items. prim_frame. Qed.

Lemma heap_only_py_copy c : heap_only (py_copy c).
Proof. unfold py_copy, alloc. prim_frame. Qed.

Lemma heap_only_py_update t src : heap_only (py_update t src).
Proof. unfold py_update. prim_frame. Qed.

Lemma heap_only_ctx_get name : heap_only (ctx_get name).
Proof. unfold ctx_get. prim_frame. Qed.

Create HintDb frame.

#[local] Hint Resolve heap_only_ret heap_only_raise heap_only_get_state
  heap_only_alloc heap_only_new_dict heap_only_py_contains heap_only_py_getitem
  heap_only_py_setitem heap_only_py_get heap_only_py_items heap_only_py_copy
  heap_only_py_update heap_only_ctx_get : frame.

Ltac heap_only_solve :=
  repeat match goal with
  | |- heap_only (mbind _ _) => apply heap_only_bind; [|intro]
  | |- heap_only (foldr _ _ _) => apply heap_only_foldr; [intros ? ? ?|]
  | |- heap_only (if ?b then _ else _) => destruct b
  | |- _ => solve [eauto with frame]
  end.

Lemma heap_only_ensure_dict_key d key : heap_only (ensure_dict_key d key).
Proof. unfold ensure_dict_key. heap_only_solve. Qed.

Lemma heap_only_refresh_last_updated e cur : heap_only (refresh_last_updated e cur).
Proof.
  unfold refresh_last_updated. heap_only_solve. apply heap_only_ensure_dict_key.
Qed.

#[local] Hint Resolve heap_only_ensure_dict_key heap_only_refresh_last_updated : frame.

Lemma heap_only_update_apply e cur updates : heap_only (update_apply e cur updates).
Proof. unfold update_apply. heap_only_solve. Qed.

#[local] Hint Resolve heap_only_update_apply : frame.

Lemma heap_only_update_merge e name updates : heap_only (update_merge e name updates).
Proof. unfold update_merge. heap_only_solve. Qed.

Lemma reads_only_bind {A B} (m : M A) (k : A -> M B) :
  reads_only m -> (forall a, reads_only (k a)) -> reads_only (mbind k m).
Proof.
  intros Hm Hk st. cbv [mbind M_bind]. specialize (Hm st).
  destruct (m st) as [st' [ex|a]]; simpl in *; [exact Hm|].
  rewrite Hk. exact Hm.
Qed.

Lemma reads_only_mapM {A B} (f : A -> M B) (xs : list A) :
  (forall x, reads_only (f x)) -> reads_only (mapM f xs).
Proof.
  intros Hf. induction xs as [|x xs IH]; simpl.
  - intros st. reflexivity.
  - apply reads_only_bind; [apply Hf|]. intros b.
    apply reads_only_bind; [exact IH|]. intros bs st. reflexivity.
Qed.

Lemma reads_only_ret {A} (a : A) : reads_only (mret a).
Proof. intros st. reflexivity. Qed.

Lemma reads_only_get_state : reads_only get_state.
Proof. intros st. reflexivity. Qed.

Lemma reads_only_py_contains c k : reads_only (py_contains c k).
Proof. intros st. unfold py_contains. repeat case_match; reflexivity. Qed.

Lemma reads_only_py_getitem c k : reads_only (py_getitem c k).
Proof. intros st. unfold py_getitem. repeat case_match; reflexivity. Qed.

#[local] Hint Resolve reads_only_ret reads_only_get_state reads_only_py_contains
  reads_only_py_getitem : frame.

Ltac reads_only_solve :=
  repeat match goal with
  | |- reads_only (mbind _ _) => apply reads_only_bind; [|intro]
  | |- reads_only (mapM _ _) => apply reads_only_mapM; intro
  | |- reads_only (if ?b then _ else _) => destruct b
  | |- reads_only (match ?x with _ => _ end) => destruct x
  | |- _ => solve [eauto with frame]
  end.

(** Validation reads the document and changes nothing. *)
Lemma reads_only_validate cd : reads_only (_validate_context_data cd).
Proof. unfold _validate_context_data. reads_only_solve. Qed.

(** ** C1: a rejected update leaves the context file alone *)

Lemma strip_final_newline_no_slash (l : list ascii) :
  forallb name_char (strip_final_newline l) = true -> ~ In "/"%char l.
Proof.
  unfold strip_final_newline. intros H Hin.
  assert (Hslash : name_char "/"%char = false) by reflexivity.
  destruct (rev l) as [|c t] eqn:E.
  - rewrite forallb_forall in H. specialize (H _ Hin). congruence.
  - destruct (Ascii.eqb c newline) eqn:Ec.
    + apply Ascii.eqb_eq in Ec. subst c.
      assert (El : l = rev t ++ [newline])
        by (rewrite <- (rev_involutive l), E; reflexivity).
      rewrite El in Hin. apply in_app_or in Hin as [Hin|[Hin|[]]].
      * rewrite forallb_forall in H. specialize (H _ Hin). congruence.
      * discriminate Hin.
    + rewrite forallb_forall in H. specialize (H _ Hin). congruence.
Qed.

(** A valid context name has no [/]. *)
Lemma valid_name_no_slash (name : string) :
  _validate_context_name name = true -> ~ In "/"%char (list_ascii_of_string name).
Proof.
  unfold _validate_context_name, re_match_name. intros H.
  repeat rewrite Bool.andb_true_iff in H.
  destruct H as [[[[_ H] _] _] _].
  now apply strip_final_newline_no_slash.
Qed.

Lemma backup_ne_context_file (name stamp : string) :
  _validate_context_name name = true ->
  backup_file_of name stamp <> context_file_of name.
Proof.
  intros Hv Heq.
  assert (H1 : In "/"%char (list_ascii_of_string (backup_file_of name stamp))).
  { unfold backup_file_of. rewrite list_ascii_of_string_app.
    apply in_or_app. left. simpl. do 7 right. left. reflexivity. }
  rewrite Heq in H1. unfold context_file_of in H1.
  rewrite list_ascii_of_string_app in H1.
  apply in_app_or in H1 as [H1|H1].
  - exact (valid_name_no_slash name Hv H1).
  - simpl in H1. repeat (destruct H1 as [H1|H1]; [discriminate H1|]). exact H1.
Qed.

(** [_backup_context_file] writes only its backup: the context file of a
    valid name, the heap, [self.contexts] and the status are untouched. *)
Lemma backup_keeps_context_file (e : env) (name : string) (st st' : state)
    (r : exc + option string) :
  _validate_context_name name = true ->
  _backup_context_file e name st = (st', r) ->
  disk st' !! context_file_of name = disk st !! context_file_of name
  /\ objs st' = objs st /\ next_loc st' = next_loc st
  /\ contexts st' = contexts st /\ status st' = status st.
Proof.
  intros Hv H. unfold _backup_context_file in H. cbv zeta in H.
  repeat case_match; injection H as <- _; repeat split; try congruence.
  cbn [disk set_disk]. rewrite lookup_insert_ne; [congruence|].
  apply backup_ne_context_file. exact Hv.
Qed.

Lemma backup_then_ok {A} (e : env) (name : string) (st stb : state)
    (bf : option string) (body : option string -> M A)
    (handler : exc -> option string -> M A) :
  _backup_context_file e name st = (stb, inr bf) ->
  backup_then e name body handler st = try_except (body bf) (fun ex => handler ex bf) stb.
Proof.
  intros H. unfold backup_then. cbv [mbind M_bind try_except mret M_ret].
  rewrite H. reflexivity.
Qed.

(** C1 (corrected): for a valid name present in the store, once the
    backup has been taken: if building the merged document (shallow copy,
    the updates, [last_updated]) completes and the result fails
    validation, [update_context_rules] returns [success=False] with those
    validation errors and the backup reference; if building it raises, it
    returns [success=False] with the error text and the backup reference,
    without validation errors.  In both cases [<name>_context.json] is
    unchanged. *)
Theorem update_failure_keeps_file (e : env) (name : string) (updates : value)
    (st stb : state) (bf : option string) :
  _validate_context_name name = true ->
  in_contexts name st = true ->
  _backup_context_file e name st = (stb, inr bf) ->
  (forall stm cur stv errs warns,
     update_merge e name updates stb = (stm, inr cur) ->
     _validate_context_data cur stm = (stv, inr (errs, warns)) ->
     errs <> [] ->
     update_context_rules e name updates st
       = (stv, inr [("success", RB false);
                    ("error", RS "Updated context data validation failed");
                    ("validation_errors", RL errs); ("context_name", RS name);
                    ("backup_file", opt_path bf)])
     /\ disk stv !! context_file_of name = disk st !! context_file_of name)
  /\
  (forall stm ex,
     update_merge e name updates stb = (stm, inl ex) ->
     update_context_rules e name updates st
       = (stm, inr [("success", RB false);
                    ("error", RS ("Failed to update context: " +:+ exc_str ex));
                    ("context_name", RS name); ("backup_file", opt_path bf)])
     /\ disk stm !! context_file_of name = disk st !! context_file_of name).
Proof.
  intros Hv Hin Hb.
  destruct (backup_keeps_context_file e name st stb (inr bf) Hv Hb) as [Hdb _].
  unfold update_context_rules. rewrite Hv. cbn [negb].
  cbv [mbind M_bind get_state]. rewrite Hin. cbn [negb].
  rewrite (backup_then_ok e name st stb bf _ _ Hb).
  split.
  - intros stm cur stv errs warns Hm Hval Hne.
    pose proof (heap_only_update_merge e name updates stb) as Hfm.
    pose proof (reads_only_validate cur stm) as Hfv.
    rewrite Hm in Hfm. rewrite Hval in Hfv. cbn [fst] in Hfm, Hfv.
    destruct Hfm as [Hdm _].
    unfold try_except. rewrite Hm. rewrite Hval.
    rewrite bool_decide_eq_true_2 by exact Hne.
    split; [reflexivity|]. subst stv. rewrite Hdm. exact Hdb.
  - intros stm ex Hm.
    pose proof (heap_only_update_merge e name updates stb) as Hfm.
    rewrite Hm in Hfm. cbn [fst] in Hfm. destruct Hfm as [Hdm _].
    unfold try_except. rewrite Hm.
    split; [reflexivity|]. rewrite Hdm. exact Hdb.
Qed.

Lemma update_failure_keeps_file_witness :
  update_context_rules Fixtures.env0 "git" Fixtures.bad_ref Fixtures.st_bad
  = ((_validate_context_data (VRef 10%positive)
        (update_merge Fixtures.env0 "git" Fixtures.bad_ref
           (_backup_context_file Fixtures.env0 "git" Fixtures.st_bad).1).1).1,
     inr [("success", RB false);
          ("error", RS "Updated context data validation failed");
          ("validation_errors", RL ["tool_category must be a string"]);
          ("context_name", RS "git");
          ("backup_file", opt_path (Some "backups/git_context_20250917_222111.json"))])
  /\ disk (_validate_context_data (VRef 10%positive)
             (update_merge Fixtures.env0 "git" Fixtures.bad_ref
                (_backup_context_file Fixtures.env0 "git" Fixtures.st_bad).1).1).1
       !! context_file_of "git"
     = disk Fixtures.st_bad !! context_file_of "git".
Proof.
  refine (proj1 (update_failure_keeps_file Fixtures.env0 "git" Fixtures.bad_ref
                   Fixtures.st_bad
                   (_backup_context_file Fixtures.env0 "git" Fixtures.st_bad).1
                   (Some "backups/git_context_20250917_222111.json") _ _ _)
            (update_merge Fixtures.env0 "git" Fixtures.bad_ref
               (_backup_context_file Fixtures.env0 "git" Fixtures.st_bad).1).1
            (VRef 10%positive)
            (_validate_context_data (VRef 10%positive)
               (update_merge Fixtures.env0 "git" Fixtures.bad_ref
                  (_backup_context_file Fixtures.env0 "git" Fixtures.st_bad).1).1).1
            ["tool_category must be a string"] [] _ _ _).
  - vm_compute. reflexivity.
  - vm_compute. reflexivity.
  - vm_compute. reflexivity.
  - vm_compute. reflexivity.
  - vm_compute. reflexivity.
  - discriminate.
Defined.

(** The counterexample: the stored [git] document has a string
    [metadata], so it fails validation, and so does its merge with [{}];
    [update_context_rules('git', {})] then reports the [TypeError] of the
    [last_updated] assignment, with no validation errors. *)
Lemma update_merge_error_hides_validation :
  stored_validation_errors Fixtures.st1 "git" = Some ["metadata must be a dictionary"] /\
  (Fixtures.empty_update Fixtures.st1).2
  = inr [("success", RB false);
         ("error", RS "Failed to update context: 'str' object does not support item assignment");
         ("context_name", RS "git");
         ("backup_file", RS "backups/git_context_20250917_222111.json")].
Proof. vm_compute. split; reflexivity. Qed.
(** ** C9: the document built by [create_context_file] *)

Lemma bind_ok {A B} (m : M A) (k : A -> M B) (s s' : state) (a : A) :
  m s = (s', inr a) -> (m ≫= k) s = k a s'.
Proof. intros H. unfold mbind, M_bind. rewrite H. reflexivity. Qed.

Lemma py_get_dict (c : value) (k : string) (d : value) (s : state) kvs :
  deref s c = Some (ODict kvs) ->
  py_get c k d s = (s, inr (match assoc_lookup k kvs with Some v => v | None => d end)).
Proof. intros H. unfold py_get. rewrite H. reflexivity. Qed.

Lemma py_contains_dict (l : loc) (k : string) (s : state) kvs :
  objs s !! l = Some (ODict kvs) ->
  py_contains (VRef l) k s = (s, inr (bool_decide (is_Some (assoc_lookup k kvs)))).
Proof. intros H. unfold py_contains. simpl. rewrite H. reflexivity. Qed.

Lemma py_getitem_dict (c : value) (k : string) (s : state) kvs v :
  deref s c = Some (ODict kvs) -> assoc_lookup k kvs = Some v ->
  py_getitem c k s = (s, inr v).
Proof. intros H Hk. unfold py_getitem. rewrite H, Hk. reflexivity. Qed.

Lemma py_setitem_dict (l : loc) (k : string) (v : value) (s : state) kvs :
  objs s !! l = Some (ODict kvs) ->
  py_setitem (VRef l) k v s
  = (set_objs (<[l := ODict (assoc_set k v kvs)]> (objs s)) s, inr tt).
Proof. intros H. unfold py_setitem. simpl. rewrite H. reflexivity. Qed.

Lemma assoc_lookup_set {A} (k k' : string) (v : A) (acc : list (string * A)) :
  assoc_lookup k (assoc_set k' v acc)
  = if String.eqb k k' then Some v else assoc_lookup k acc.
Proof.
  induction acc as [|[k0 v0] acc IH]; simpl.
  - destruct (String.eqb k k'); reflexivity.
  - destruct (String.eqb k' k0) eqn:E1.
    + apply String.eqb_eq in E1. subst k0. simpl.
      destruct (String.eqb k k'); reflexivity.
    + simpl. destruct (String.eqb k k0) eqn:E2; [|exact IH].
      apply String.eqb_eq in E2. subst k0.
      destruct (String.eqb k k') eqn:E3; [|reflexivity].
      apply String.eqb_eq in E3. subst k'. rewrite String.eqb_refl in E1. discriminate.
Qed.

Lemma lookup_copy_sections (k : string) kvs (secs : list string) acc :
  assoc_lookup k (copy_sections kvs secs acc)
  = if existsb (String.eqb k) secs
    then match assoc_lookup k kvs with
         | Some v => Some v
         | None => assoc_lookup k acc
         end
    else assoc_lookup k acc.
Proof.
  unfold copy_sections. revert acc.
  induction secs as [|sec secs IH]; intros acc; [reflexivity|].
  cbn [fold_left existsb]. rewrite IH.
  destruct (String.eqb k sec) eqn:E.
  - apply String.eqb_eq in E. subst sec. cbn [orb].
    destruct (assoc_lookup k kvs) eqn:Ek.
    + rewrite assoc_lookup_set, String.eqb_refl. destruct existsb; reflexivity.
    + destruct existsb; reflexivity.
  - cbn [orb]. destruct (assoc_lookup sec kvs).
    + rewrite assoc_lookup_set, E. reflexivity.
    + reflexivity.
Qed.

Lemma set_objs_eta (s : state) : set_objs (objs s) s = s.
Proof. destruct s. reflexivity. Qed.

Lemma set_objs_set_objs (h h' : gmap loc obj) (s : state) :
  set_objs h (set_objs h' s) = set_objs h s.
Proof. reflexivity. Qed.

(** Lines 907-909: the loop copying the optional sections. *)
Lemma create_sections_loop (r c : loc) kvs ckvs (secs : list string) (s : state) :
  r <> c -> objs s !! r = Some (ODict kvs) -> objs s !! c = Some (ODict ckvs) ->
  foldr (fun sec k =>
           b ← py_contains (VRef r) sec;
           (if (b : bool) then v ← py_getitem (VRef r) sec; py_setitem (VRef c) sec v
            else mret ());;
           k)
        (mret ()) secs s
  = (set_objs (<[c := ODict (copy_sections kvs secs ckvs)]> (objs s)) s, inr tt).
Proof.
  intros Hrc. revert s ckvs.
  induction secs as [|sec secs IH]; intros s ckvs Hr Hc.
  - cbn [foldr copy_sections fold_left]. rewrite insert_id by exact Hc.
    rewrite set_objs_eta. reflexivity.
  - cbn [foldr]. rewrite (bind_ok _ _ _ _ _ (py_contains_dict _ _ _ _ Hr)).
    assert (Hcs : copy_sections kvs (sec :: secs) ckvs
                  = copy_sections kvs secs (match assoc_lookup sec kvs with
                                            | Some v => assoc_set sec v ckvs
                                            | None => ckvs
                                            end)) by reflexivity.
    rewrite Hcs.
    destruct (assoc_lookup sec kvs) as [v|] eqn:Ek.
    + rewrite bool_decide_eq_true_2 by (eexists; reflexivity). cbv beta iota.
      assert (Hin : (v' ← py_getitem (VRef r) sec; py_setitem (VRef c) sec v') s
                    = (set_objs (<[c := ODict (assoc_set sec v ckvs)]> (objs s)) s, inr tt)).
      { rewrite (bind_ok _ _ _ _ _ (py_getitem_dict (VRef r) _ _ _ _ Hr Ek)).
        exact (py_setitem_dict _ _ _ _ _ Hc). }
      rewrite (bind_ok _ _ _ _ _ Hin).
      rewrite (IH _ (assoc_set sec v ckvs)).
      * cbn [objs set_objs]. rewrite insert_insert_eq, set_objs_set_objs. reflexivity.
      * cbn [objs set_objs]. rewrite lookup_insert_ne by congruence. exact Hr.
      * cbn [objs set_objs]. apply lookup_insert_eq.
    + rewrite bool_decide_eq_false_2 by (intros [? H]; discriminate H).
      cbv beta iota.
      rewrite (bind_ok _ _ _ _ _ (eq_refl : (mret () : M unit) s = (s, inr ()))).
      exact (IH s ckvs Hr Hc).
Qed.

Lemma new_list_eq (xs : list value) (s : state) :
  new_list xs s = (set_next (Pos.succ (next_loc s))
                     (set_objs (<[next_loc s := OList xs]> (objs s)) s),
                   inr (VRef (next_loc s))).
Proof. reflexivity. Qed.

Lemma new_dict_eq (kvs : list (string * value)) (s : state) :
  new_dict kvs s = (set_next (Pos.succ (next_loc s))
                      (set_objs (<[next_loc s := ODict kvs]> (objs s)) s),
                    inr (VRef (next_loc s))).
Proof. reflexivity. Qed.

(** Lines 888-909 for a [rules] dict without [description]: three fresh
    objects (the default tool list, [metadata] and the document), and the
    document holds the default description and the copied sections. *)
Lemma create_build_run (e : env) (category : string) (r : loc) kvs (st : state) :
  wf_state st = true -> objs st !! r = Some (ODict kvs) ->
  assoc_lookup "description" kvs = None ->
  exists stF,
    create_build e category (VRef r) st
      = (stF, inr (VRef (Pos.succ (Pos.succ (next_loc st))))) /\
    objs stF !! Pos.succ (Pos.succ (next_loc st))
      = Some (ODict (copy_sections kvs optional_sections
           [("tool_category", VStr category);
            ("auto_convert", match assoc_lookup "auto_convert" kvs with
                             | Some v => v | None => VBool false end);
            ("metadata", VRef (Pos.succ (next_loc st)));
            ("description", VStr (default_description category))])) /\
    (exists mdkvs, objs stF !! Pos.succ (next_loc st) = Some (ODict mdkvs) /\
                   assoc_lookup "version" mdkvs = Some (VStr "1.0.0")) /\
    (forall l, (l < next_loc st)%positive -> objs stF !! l = objs st !! l).
Proof.
  intros Hwf Hr Hd.
  pose proof (wf_lookup_lt _ _ _ Hwf Hr) as Hlt.
  eexists. split.
  { unfold create_build.
    rewrite (bind_ok _ _ _ _ _ (py_get_dict (VRef r) "auto_convert" (VBool false) st kvs Hr)).
    cbv beta.
    rewrite (bind_ok _ _ _ _ _ (new_list_eq _ st)). cbv beta.
    set (s1 := set_next _ _).
    assert (Hr1 : objs s1 !! r = Some (ODict kvs)).
    { subst s1. cbn [objs set_objs set_next]. rewrite lookup_insert_ne by lia. exact Hr. }
    rewrite (bind_ok _ _ _ _ _ (py_get_dict (VRef r) "applies_to_tools" _ s1 kvs Hr1)).
    cbv beta.
    rewrite (bind_ok _ _ _ _ _ (py_get_dict (VRef r) "priority" _ s1 kvs Hr1)).
    cbv beta.
    rewrite (bind_ok _ _ _ _ _ (new_dict_eq _ s1)). cbv beta.
    set (s2 := set_next _ (set_objs _ s1)).
    rewrite (bind_ok _ _ _ _ _ (new_dict_eq _ s2)). cbv beta.
    set (s3 := set_next _ (set_objs _ s2)).
    assert (Hr3 : objs s3 !! r = Some (ODict kvs)).
    { subst s3 s2 s1. cbn [objs set_objs set_next next_loc].
      rewrite !lookup_insert_ne by lia. exact Hr. }
    rewrite (bind_ok _ _ _ _ _ (py_contains_dict r "description" s3 kvs Hr3)).
    cbv beta. rewrite Hd.
    rewrite bool_decide_eq_false_2 by (intros [? H]; discriminate H). cbv beta iota.
    eassert (Hc3 : objs s3 !! next_loc s2 = Some (ODict _)).
    { subst s3. cbn [objs set_objs set_next]. apply lookup_insert_eq. }
    rewrite (bind_ok _ _ _ _ _ (py_setitem_dict _ "description" _ s3 _ Hc3)). cbv beta.
    set (s4 := set_objs _ s3).
    assert (Hr4 : objs s4 !! r = Some (ODict kvs)).
    { subst s4 s3 s2 s1. cbn [objs set_objs set_next next_loc].
      rewrite !lookup_insert_ne by lia. exact Hr. }
    eassert (Hc4 : objs s4 !! next_loc s2
                  = Some (ODict (assoc_set "description"
                                   (VStr (default_description category)) _))).
    { subst s4. cbn [objs set_objs]. apply lookup_insert_eq. }
    assert (Hrc : r <> next_loc s2).
    { subst s2 s1. cbn [next_loc set_next set_objs]. lia. }
    rewrite (bind_ok _ _ _ _ _
               (create_sections_loop r (next_loc s2) kvs _ optional_sections s4 Hrc Hr4 Hc4)).
    subst s4 s3 s2 s1. reflexivity. }
  split; [|split].
  - cbn [objs set_objs set_next next_loc]. rewrite lookup_insert_eq. reflexivity.
  - eexists. split.
    + cbn [objs set_objs set_next next_loc].
      rewrite !lookup_insert_ne by lia. apply lookup_insert_eq.
    + reflexivity.
  - intros l Hl. cbn [objs set_objs set_next next_loc].
    rewrite !lookup_insert_ne by lia. reflexivity.
Qed.

Lemma string_length_list (s : string) :
  String.length s = length (list_ascii_of_string s).
Proof. induction s as [|a s IH]; simpl; congruence. Qed.

(** The default description of a valid category is at most 83
    characters, below the 500 of the warning. *)
Lemma default_description_short (category : string) :
  _validate_context_name category = true ->
  (500 <? String.length (default_description category))%nat = false.
Proof.
  unfold _validate_context_name. intros H.
  repeat rewrite Bool.andb_true_iff in H. destruct H as [[[_ _] Hlen] _].
  apply Nat.leb_le in Hlen. rewrite string_length_list in Hlen.
  apply Nat.ltb_ge. unfold default_description.
  rewrite string_length_list, length_list_ascii_app. simpl length. lia.
Qed.

Lemma lookup_built_fixed (k : string) kvs base :
  existsb (String.eqb k) optional_sections = false ->
  assoc_lookup k (copy_sections kvs optional_sections base) = assoc_lookup k base.
Proof. intros H. rewrite lookup_copy_sections, H. reflexivity. Qed.

Lemma lookup_built_section (k : string) kvs base :
  existsb (String.eqb k) optional_sections = true -> assoc_lookup k base = None ->
  assoc_lookup k (copy_sections kvs optional_sections base) = assoc_lookup k kvs.
Proof.
  intros H Hb. rewrite lookup_copy_sections, H, Hb.
  destruct (assoc_lookup k kvs); reflexivity.
Qed.

(** [_validate_context_data] on the document built for a valid category:
    only the copied sections that are not dicts are reported. *)
Lemma validate_built (s st : state) (c m : loc) (category : string) kvs ac mdkvs :
  _validate_context_name category = true ->
  objs s !! c = Some (ODict (copy_sections kvs optional_sections
     [("tool_category", VStr category); ("auto_convert", ac); ("metadata", VRef m);
      ("description", VStr (default_description category))])) ->
  objs s !! m = Some (ODict mdkvs) ->
  assoc_lookup "version" mdkvs = Some (VStr "1.0.0") ->
  (forall sec v, assoc_lookup sec kvs = Some v -> is_dict s v = is_dict st v) ->
  _validate_context_data (VRef c) s = (s, inr (create_section_errors st kvs, [])).
Proof.
  intros Hcat Hc Hm Hver Hisd.
  set (fkvs := copy_sections kvs optional_sections _) in Hc.
  assert (Htc : assoc_lookup "tool_category" fkvs = Some (VStr category))
    by (apply lookup_built_fixed; reflexivity).
  assert (Hds : assoc_lookup "description" fkvs
                = Some (VStr (default_description category)))
    by (apply lookup_built_fixed; reflexivity).
  assert (Hmd : assoc_lookup "metadata" fkvs = Some (VRef m))
    by (apply lookup_built_fixed; reflexivity).
  assert (Hs1 : assoc_lookup "syntax_rules" fkvs = assoc_lookup "syntax_rules" kvs)
    by (apply lookup_built_section; reflexivity).
  assert (Hs2 : assoc_lookup "preferences" fkvs = assoc_lookup "preferences" kvs)
    by (apply lookup_built_section; reflexivity).
  assert (Hs3 : assoc_lookup "auto_corrections" fkvs = assoc_lookup "auto_corrections" kvs)
    by (apply lookup_built_section; reflexivity).
  assert (Hs4 : assoc_lookup "session_initialization" fkvs
                = assoc_lookup "session_initialization" kvs)
    by (apply lookup_built_section; reflexivity).
  clearbody fkvs.
  pose proof (default_description_short category Hcat) as Hshort.
  unfold create_section_errors, section_error. cbn [map concat optional_sections].
  cbv [_validate_context_data mapM required_fields optional_sections
       mbind M_bind mret M_ret py_contains py_getitem get_state deref].
  repeat (first [rewrite Hc | rewrite Hm | rewrite Htc | rewrite Hds | rewrite Hmd
                | rewrite Hver | rewrite Hcat | rewrite Hshort
                | rewrite Hs1 | rewrite Hs2 | rewrite Hs3 | rewrite Hs4
                | rewrite bool_decide_eq_true_2 by (eexists; reflexivity)
                | rewrite bool_decide_eq_false_2 by (intros [? Hn]; discriminate Hn)
                | match goal with
                  | H : assoc_lookup _ kvs = Some ?v |- context [is_dict s ?v] =>
                      rewrite (Hisd _ _ H)
                  | |- context [assoc_lookup ?k kvs] =>
                      destruct (assoc_lookup k kvs) eqn:?
                  end];
          cbv beta iota).
  all: change (version_ok (VStr "1.0.0")) with true; cbn [fst snd concat app];
    rewrite ?app_nil_r; reflexivity.
Qed.

Lemma assoc_lookup_In {A} (k : string) (kvs : list (string * A)) (v : A) :
  assoc_lookup k kvs = Some v -> In (k, v) kvs.
Proof.
  induction kvs as [|[k' v'] kvs IH]; simpl; [discriminate|].
  destruct (String.eqb k k') eqn:E.
  - apply String.eqb_eq in E. subst k'. intros [= ->]. now left.
  - intros H. right. now apply IH.
Qed.

(** A value stored in a dict of a well-formed heap lies below [next_loc]. *)
Lemma wf_dict_value_below (st : state) (r : loc) kvs (k : string) (v : value) :
  wf_state st = true -> objs st !! r = Some (ODict kvs) ->
  assoc_lookup k kvs = Some v -> val_below (next_loc st) v = true.
Proof.
  intros Hwf Hr Hk. unfold wf_state in Hwf. apply andb_prop in Hwf as [H _].
  rewrite forallb_forall in H.
  specialize (H (r, ODict kvs) (proj1 (list_elem_of_In _ _)
                                  (proj2 (elem_of_map_to_list _ _ _) Hr))).
  apply andb_prop in H as [_ H]. cbn [snd obj_below] in H.
  rewrite forallb_forall in H. exact (H (k, v) (assoc_lookup_In _ _ _ Hk)).
Qed.

Lemma is_dict_below (s st : state) (v : value) :
  (forall l, (l < next_loc st)%positive -> objs s !! l = objs st !! l) ->
  val_below (next_loc st) v = true -> is_dict s v = is_dict st v.
Proof.
  intros Hs Hv. destruct v as [| | | |l]; try reflexivity.
  unfold is_dict, deref. rewrite Hs; [reflexivity|].
  exact (bool_decide_eq_true_1 _ Hv).
Qed.

(** C9 (corrected): for a valid name with no existing file, a valid
    category and a [rules] dict without [description], the document
    [create_context_file] builds carries the description
    ['Dynamically created context for <category>'], and validation reports
    exactly one error ["<section> must be a dictionary"] for each optional
    section present in [rules] whose value is not a dict (in the order of
    [optional_sections]), and nothing else; when there is such an error,
    [create_context_file] returns the validation failure with them. *)
Theorem create_default_description (e : env) (name category : string) (r : loc)
    kvs (st : state) :
  wf_state st = true ->
  _validate_context_name name = true ->
  _validate_context_name category = true ->
  disk st !! context_file_of name = None ->
  objs st !! r = Some (ODict kvs) ->
  assoc_lookup "description" kvs = None ->
  exists stF l fkvs,
    create_build e category (VRef r) st = (stF, inr (VRef l)) /\
    objs stF !! l = Some (ODict fkvs) /\
    assoc_lookup "description" fkvs = Some (VStr (default_description category)) /\
    _validate_context_data (VRef l) stF = (stF, inr (create_section_errors st kvs, [])) /\
    (create_section_errors st kvs <> [] ->
     create_context_file e name category (VRef r) st
     = (stF, inr [("success", RB false); ("error", RS "Context data validation failed");
                  ("validation_errors", RL (create_section_errors st kvs));
                  ("context_name", RS name)])).
Proof.
  intros Hwf Hname Hcat Hfile Hr Hd.
  destruct (create_build_run e category r kvs st Hwf Hr Hd)
    as (stF & Hb & Hc & (mdkvs & Hm & Hver) & Hkeep).
  assert (Hval : _validate_context_data (VRef (Pos.succ (Pos.succ (next_loc st)))) stF
                 = (stF, inr (create_section_errors st kvs, []))).
  { apply (validate_built stF st _ _ category kvs _ mdkvs Hcat Hc Hm Hver).
    intros sec v Hk. apply is_dict_below; [exact Hkeep|].
    exact (wf_dict_value_below st r kvs sec v Hwf Hr Hk). }
  exists stF, (Pos.succ (Pos.succ (next_loc st))). eexists.
  split; [exact Hb|]. split; [exact Hc|]. split.
  { apply lookup_built_fixed. reflexivity. }
  split; [exact Hval|].
  intros Hne. unfold create_context_file.
  rewrite Hname, Hcat. cbn [negb].
  rewrite (bind_ok _ _ _ _ _ (eq_refl : get_state st = (st, inr st))). cbv beta zeta.
  rewrite Hfile, bool_decide_eq_false_2 by (intros [? Hn]; discriminate Hn).
  rewrite (bind_ok _ _ _ _ _ Hb). cbv beta.
  rewrite (bind_ok _ _ _ _ _ Hval). cbv beta iota.
  rewrite bool_decide_eq_true_2 by exact Hne. reflexivity.
Qed.

Lemma create_default_description_witness :
  exists stF l fkvs,
    create_build Fixtures.env0 "lint" (VRef 8%positive)
      (new_dict [("preferences", VInt 5)] Fixtures.st0).1 = (stF, inr (VRef l)) /\
    objs stF !! l = Some (ODict fkvs) /\
    assoc_lookup "description" fkvs = Some (VStr (default_description "lint")) /\
    _validate_context_data (VRef l) stF
    = (stF, inr (create_section_errors (new_dict [("preferences", VInt 5)] Fixtures.st0).1
                   [("preferences", VInt 5)], [])) /\
    (create_section_errors (new_dict [("preferences", VInt 5)] Fixtures.st0).1
       [("preferences", VInt 5)] <> [] ->
     create_context_file Fixtures.env0 "lint" "lint" (VRef 8%positive)
       (new_dict [("preferences", VInt 5)] Fixtures.st0).1
     = (stF, inr [("success", RB false); ("error", RS "Context data validation failed");
                  ("validation_errors",
                   RL (create_section_errors (new_dict [("preferences", VInt 5)] Fixtures.st0).1
                         [("preferences", VInt 5)]));
                  ("context_name", RS "lint")])).
Proof.
  refine (create_default_description Fixtures.env0 "lint" "lint" 8%positive
            [("preferences", VInt 5)] (new_dict [("preferences", VInt 5)] Fixtures.st0).1
            _ _ _ _ _ _).
  - vm_compute. reflexivity.
  - vm_compute. reflexivity.
  - vm_compute. reflexivity.
  - vm_compute. reflexivity.
  - vm_compute. reflexivity.
  - vm_compute. reflexivity.
Defined.

(** The counterexample: [create('lint', 'lint', {'preferences': 5})]
    has no [description] in [rules], yet validation fails. *)
Lemma create_section_not_dict_fails :
  (Fixtures.bad_section_create Fixtures.st0).2
  = inr [("success", RB false); ("error", RS "Context data validation failed");
         ("validation_errors", RL ["preferences must be a dictionary"]);
         ("context_name", RS "lint")].
Proof. vm_compute. reflexivity. Qed.
(** ** C5: the optimisation counter *)

(** *** Normal returns of the primitives *)

Lemma bind_inr {A B} (m : M A) (k : A -> M B) (s s' : state) (b : B) :
  (m ≫= k) s = (s', inr b) -> exists s0 a, m s = (s0, inr a) /\ k a s0 = (s', inr b).
Proof.
  unfold mbind, M_bind. destruct (m s) as [s0 [ex|a]]; [discriminate|].
  intros H. now exists s0, a.
Qed.

Lemma try_except_inr {A} (m : M A) (h : exc -> M A) (s s' : state) (a : A) :
  try_except m h s = (s', inr a) ->
  m s = (s', inr a) \/ exists s0 ex, m s = (s0, inl ex) /\ h ex s0 = (s', inr a).
Proof.
  unfold try_except. destruct (m s) as [s0 [ex|a0]] eqn:E.
  - intros H. right. now exists s0, ex.
  - intros H. now left.
Qed.

Lemma backup_then_inr {A} (e : env) (name : string) (body : option string -> M A)
    (handler : exc -> option string -> M A) (s s' : state) (a : A) :
  backup_then e name body handler s = (s', inr a) ->
  exists sb bf, _backup_context_file e name s = (sb, inr bf) /\
    try_except (body bf) (fun ex => handler ex bf) sb = (s', inr a).
Proof.
  unfold backup_then, try_except. cbv [mbind M_bind mret M_ret].
  destruct (_backup_context_file e name s) as [sb [ex|bf]].
  - unfold raise. discriminate.
  - intros H. now exists sb, bf.
Qed.

Lemma inv_get_state (s s' a : state) : get_state s = (s', inr a) -> s' = s /\ a = s.
Proof. unfold get_state. intros [= -> ->]. tauto. Qed.

Lemma inv_mret {A} (x : A) (s s' : state) (a : A) :
  (mret x : M A) s = (s', inr a) -> s' = s /\ a = x.
Proof. cbv [mret M_ret]. intros [= -> ->]. tauto. Qed.

Lemma inv_py_contains (c : value) (k : string) (s s' : state) (b : bool) :
  py_contains c k s = (s', inr b) -> s' = s.
Proof. unfold py_contains. repeat case_match; congruence. Qed.

Lemma inv_py_getitem (c : value) (k : string) (s s' : state) (v : value) :
  py_getitem c k s = (s', inr v) ->
  s' = s /\ exists kvs, deref s c = Some (ODict kvs) /\ assoc_lookup k kvs = Some v.
Proof.
  unfold py_getitem. repeat case_match; try congruence.
  intros [= -> ->]. split; [reflexivity|]. eexists; split; eauto.
Qed.

Lemma inv_py_get (c : value) (k : string) (d : value) (s s' : state) (v : value) :
  py_get c k d s = (s', inr v) ->
  s' = s /\ exists kvs, deref s c = Some (ODict kvs) /\
    v = match assoc_lookup k kvs with Some v => v | None => d end.
Proof.
  unfold py_get. destruct (deref s c) as [[kvs|xs]|]; try discriminate.
  intros [= -> <-]. split; [reflexivity|]. now exists kvs.
Qed.

Lemma inv_py_setitem (c : value) (k : string) (v : value) (s s' : state) (u : unit) :
  py_setitem c k v s = (s', inr u) ->
  exists l kvs, c = VRef l /\ objs s !! l = Some (ODict kvs) /\
    s' = set_objs (<[l := ODict (assoc_set k v kvs)]> (objs s)) s.
Proof.
  unfold py_setitem. repeat case_match; try congruence.
  intros [= <- _]. subst. do 2 eexists. split; [reflexivity|]. split; [eassumption|].
  reflexivity.
Qed.

Lemma inv_py_items (c : value) (s s' : state) kvs :
  py_items c s = (s', inr kvs) -> s' = s /\ deref s c = Some (ODict kvs).
Proof. unfold py_items. repeat case_match; try congruence. intros [= -> <-]. tauto. Qed.

Lemma inv_py_iter (v : value) (s s' : state) xs : py_iter v s = (s', inr xs) -> s' = s.
Proof. unfold py_iter. repeat case_match; congruence. Qed.

Lemma inv_list_append_all (lst : value) (xs : list value) (s s' : state) (u : unit) :
  list_append_all lst xs s = (s', inr u) ->
  exists l ys, lst = VRef l /\ objs s !! l = Some (OList ys) /\
    s' = set_objs (<[l := OList (ys ++ xs)]> (objs s)) s.
Proof.
  unfold list_append_all. repeat case_match; try congruence.
  intros [= <- _]. subst. do 2 eexists. split; [reflexivity|]. split; [eassumption|].
  reflexivity.
Qed.

Lemma inv_alloc (o : obj) (s s' : state) (v : value) :
  alloc o s = (s', inr v) ->
  s' = set_next (Pos.succ (next_loc s)) (set_objs (<[next_loc s := o]> (objs s)) s)
  /\ v = VRef (next_loc s).
Proof. unfold alloc. intros [= <- <-]. tauto. Qed.

Lemma inv_py_copy (c : value) (s s' : state) (v : value) :
  py_copy c s = (s', inr v) ->
  exists o, deref s c = Some o /\
    s' = set_next (Pos.succ (next_loc s)) (set_objs (<[next_loc s := o]> (objs s)) s)
    /\ v = VRef (next_loc s).
Proof.
  unfold py_copy. destruct (deref s c) as [o|]; [|discriminate].
  intros H. apply inv_alloc in H. now exists o.
Qed.

Lemma inv_py_add1 (v : value) (s s' : state) (w : value) :
  py_add1 v s = (s', inr w) -> s' = s /\ count_plus_one (Some v) = Some w.
Proof.
  unfold py_add1. destruct v; cbv [mret M_ret raise]; try discriminate;
    intros [= -> <-]; tauto.
Qed.

Lemma inv_ctx_get (name : string) (s s' : state) (v : value) :
  ctx_get name s = (s', inr v) -> s' = s /\ assoc_lookup name (contexts s) = Some v.
Proof.
  unfold ctx_get. destruct (assoc_lookup name (contexts s)) eqn:E;
    [intros [= -> ->]; tauto | discriminate].
Qed.

Lemma inv_ctx_set (name : string) (v : value) (s s' : state) (u : unit) :
  ctx_set name v s = (s', inr u) -> s' = set_contexts (assoc_set name v (contexts s)) s.
Proof. unfold ctx_set, modify. congruence. Qed.

Lemma inv_write_json_file (e : env) (path : string) (v : value) (s s' : state) (u : unit) :
  write_json_file e path v s = (s', inr u) ->
  objs s' = objs s /\ next_loc s' = next_loc s /\ contexts s' = contexts s.
Proof. unfold write_json_file. repeat case_match; try congruence; intros [= <- _]; tauto. Qed.

Lemma inv_backup (e : env) (name : string) (s s' : state) r :
  _backup_context_file e name s = (s', r) ->
  objs s' = objs s /\ next_loc s' = next_loc s /\ contexts s' = contexts s.
Proof.
  unfold _backup_context_file. cbv zeta.
  repeat case_match; intros [= <- _]; tauto.
Qed.

Lemma inv_validate (cd : value) (s s' : state) r :
  _validate_context_data cd s = (s', r) -> s' = s.
Proof. intros H. pose proof (reads_only_validate cd s) as Hr. rewrite H in Hr. exact Hr. Qed.

(** *** Invariants kept through a run *)

Lemma keeps_ret {A} (I : state -> Prop) (a : A) : keeps I (mret a).
Proof. intros s s' b HI H. apply inv_mret in H as [-> _]. exact HI. Qed.

Lemma keeps_bind {A B} (I : state -> Prop) (m : M A) (k : A -> M B) :
  keeps I m -> (forall a, keeps I (k a)) -> keeps I (m ≫= k).
Proof.
  intros Hm Hk s s' b HI H. apply bind_inr in H as (s0 & a & H1 & H2).
  exact (Hk a s0 s' b (Hm s s0 a HI H1) H2).
Qed.

Lemma keeps_foldr {A B} (I : state -> Prop) (g : A -> M B -> M B) (z : M B) (xs : list A) :
  (forall x r, keeps I r -> keeps I (g x r)) -> keeps I z -> keeps I (foldr g z xs).
Proof. intros Hg Hz. induction xs as [|x xs IH]; simpl; auto. Qed.

Lemma keeps_reads {A} (I : state -> Prop) (m : M A) : reads_only m -> keeps I m.
Proof. intros Hr s s' a HI H. pose proof (Hr s) as E. rewrite H in E. simpl in E. now subst. Qed.

Lemma reads_only_py_get c k d : reads_only (py_get c k d).
Proof. intros st. unfold py_get. repeat case_match; reflexivity. Qed.

Lemma reads_only_py_items c : reads_only (py_items c).
Proof. intros st. unfold py_items. repeat case_match; reflexivity. Qed.

Lemma reads_only_py_iter v : reads_only (py_iter v).
Proof. intros st. unfold py_iter. repeat case_match; reflexivity. Qed.

Lemma count_inv_same_heap (c : loc) (mval cnt : option value) (s s' : state) :
  objs s' = objs s -> next_loc s' = next_loc s ->
  count_inv c mval cnt s -> count_inv c mval cnt s'.
Proof. intros Ho Hn. unfold count_inv. rewrite Ho, Hn. tauto. Qed.

Lemma entries_fresh_same_heap (c : loc) (mval : option value) (s s' : state) :
  objs s' = objs s -> entries_fresh c mval s -> entries_fresh c mval s'.
Proof. intros Ho. unfold entries_fresh. rewrite Ho. tauto. Qed.

Lemma copy_inv_alloc (c : loc) (mval cnt : option value) (o : obj) (s : state) :
  copy_inv c mval cnt s ->
  copy_inv c mval cnt
    (set_next (Pos.succ (next_loc s)) (set_objs (<[next_loc s := o]> (objs s)) s)).
Proof.
  intros [(Hc & Hck & Hm) Hf]. split; [split; [|split]|].
  - cbn [next_loc set_next set_objs]. lia.
  - intros ck. cbn [objs set_next set_objs].
    rewrite lookup_insert_ne by lia. apply Hck.
  - intros m Em. destruct (Hm m Em) as (Hlt & Hne & Hmk).
    cbn [objs next_loc set_next set_objs]. split; [lia|]. split; [exact Hne|].
    intros mk. rewrite lookup_insert_ne by lia. apply Hmk.
  - intros ck. cbn [objs set_next set_objs].
    rewrite lookup_insert_ne by lia. apply Hf.
Qed.

(** [d[k] = v] on a dict other than the copy's [metadata] entry or the
    counter of the metadata object. *)
Lemma count_inv_setitem (c y : loc) (mval cnt : option value) (k : string) (v : value)
    ky (s : state) :
  count_inv c mval cnt s -> objs s !! y = Some (ODict ky) ->
  (y = c -> k <> "metadata") ->
  (forall m, mval = Some (VRef m) -> y = m -> k <> "optimization_count") ->
  count_inv c mval cnt (set_objs (<[y := ODict (assoc_set k v ky)]> (objs s)) s).
Proof.
  intros (Hc & Hck & Hm) Hy Hyc Hym. split; [|split].
  - exact Hc.
  - intros ck. cbn [objs set_objs].
    destruct (decide (y = c)) as [->|Hne].
    + rewrite lookup_insert_eq. intros [= <-].
      rewrite assoc_lookup_set.
      destruct (String.eqb "metadata" k) eqn:E.
      * apply String.eqb_eq in E. exfalso. exact (Hyc eq_refl (eq_sym E)).
      * exact (Hck ky Hy).
    + rewrite lookup_insert_ne by congruence. apply Hck.
  - intros m Em. destruct (Hm m Em) as (Hlt & Hne & Hmk).
    split; [exact Hlt|]. split; [exact Hne|]. intros mk. cbn [objs set_objs].
    destruct (decide (y = m)) as [->|Hne'].
    + rewrite lookup_insert_eq. intros [= <-].
      rewrite assoc_lookup_set.
      destruct (String.eqb "optimization_count" k) eqn:E.
      * apply String.eqb_eq in E. exfalso. exact (Hym m Em eq_refl (eq_sym E)).
      * exact (Hmk ky Hy).
    + rewrite lookup_insert_ne by congruence. apply Hmk.
Qed.

Lemma entries_fresh_setitem_other (c y : loc) (mval : option value) (o : obj) (s : state) :
  y <> c -> entries_fresh c mval s ->
  entries_fresh c mval (set_objs (<[y := o]> (objs s)) s).
Proof.
  intros Hyc Hf ck. cbn [objs set_objs]. rewrite lookup_insert_ne by congruence.
  apply Hf.
Qed.

Lemma entries_fresh_setitem_self (c : loc) (mval : option value) (k : string) (v : value)
    ck (s : state) :
  entries_fresh c mval s -> objs s !! c = Some (ODict ck) ->
  v <> VRef c -> (forall m, mval = Some (VRef m) -> v <> VRef m) ->
  entries_fresh c mval (set_objs (<[c := ODict (assoc_set k v ck)]> (objs s)) s).
Proof.
  intros Hf Hc Hvc Hvm ck'. cbn [objs set_objs]. rewrite lookup_insert_eq.
  intros [= <-] k' v' Hl Hk'. rewrite assoc_lookup_set in Hl.
  destruct (String.eqb k' k).
  - injection Hl as <-. split; assumption.
  - exact (Hf ck Hc k' v' Hl Hk').
Qed.

(** [lst.extend(...)] writes a list, never a dict. *)
Lemma keeps_list_append_all (c : loc) (mval cnt : option value) lst xs :
  keeps (copy_inv c mval cnt) (list_append_all lst xs).
Proof.
  intros s s' u [(Hc & Hck & Hm) Hf] H.
  apply inv_list_append_all in H as (l & ys & -> & Hl & ->).
  split; [split; [|split]|].
  - exact Hc.
  - intros ck. cbn [objs set_objs].
    destruct (decide (l = c)) as [->|Hne].
    + rewrite lookup_insert_eq. discriminate.
    + rewrite lookup_insert_ne by congruence. apply Hck.
  - intros m Em. destruct (Hm m Em) as (Hlt & Hne & Hmk).
    split; [exact Hlt|]. split; [exact Hne|]. intros mk. cbn [objs set_objs].
    destruct (decide (l = m)) as [->|Hne'].
    + rewrite lookup_insert_eq. discriminate.
    + rewrite lookup_insert_ne by congruence. apply Hmk.
  - intros ck. cbn [objs set_objs].
    destruct (decide (l = c)) as [->|Hne].
    + rewrite lookup_insert_eq. discriminate.
    + rewrite lookup_insert_ne by congruence. apply Hf.
Qed.

Lemma keeps_py_extend (c : loc) (mval cnt : option value) lst it :
  keeps (copy_inv c mval cnt) (py_extend lst it).
Proof.
  unfold py_extend. apply keeps_bind.
  - apply keeps_reads, reads_only_py_iter.
  - intros xs. apply keeps_list_append_all.
Qed.

Lemma keeps_new_dict (c : loc) (mval cnt : option value) kvs :
  keeps (copy_inv c mval cnt) (new_dict kvs).
Proof.
  intros s s' v HI H. apply inv_alloc in H as [-> _]. now apply copy_inv_alloc.
Qed.

(** [if key not in cur: cur[key] = {}] for a key other than [metadata]. *)
Lemma keeps_ensure_dict_key (c : loc) (mval cnt : option value) (key : string) :
  key <> "metadata" -> keeps (copy_inv c mval cnt) (ensure_dict_key (VRef c) key).
Proof.
  intros Hk s s' u HI H. unfold ensure_dict_key in H.
  apply bind_inr in H as (s0 & has & H1 & H). apply inv_py_contains in H1. subst s0.
  destruct has.
  - apply inv_mret in H as [-> _]. exact HI.
  - apply bind_inr in H as (s1 & f & H1 & H). apply inv_alloc in H1 as [-> ->].
    pose proof (copy_inv_alloc c mval cnt (ODict []) s HI) as HI1.
    destruct HI as [(Hc & _ & Hm0) _].
    apply inv_py_setitem in H as (y & ky & [= <-] & Hy & ->).
    destruct HI1 as [Hci Hfi]. pose proof Hci as (_ & _ & Hm).
    split.
    + apply (count_inv_setitem _ _ _ _ _ _ _ _ Hci Hy).
      * intros _. exact Hk.
      * intros m Em Ecm. destruct (Hm m Em) as (_ & Hne & _). congruence.
    + apply (entries_fresh_setitem_self _ _ _ _ _ _ Hfi Hy).
      * intros [= E]. lia.
      * intros m Em [= E]. destruct (Hm0 m Em) as (Hlt & _ & _). lia.
Qed.

(** [for key, value in data.items(): cur[section][key] = value] for a
    section other than [metadata]: the section dict is neither the copy
    nor its metadata object. *)
Lemma keeps_set_section_items (c : loc) (mval cnt : option value) (section : string)
    (data : value) :
  section <> "metadata" ->
  keeps (copy_inv c mval cnt) (set_section_items (VRef c) section data).
Proof.
  intros Hsec. unfold set_section_items. apply keeps_bind.
  { now apply keeps_ensure_dict_key. }
  intros _. apply keeps_bind; [apply keeps_reads, reads_only_py_items|].
  intros items. apply keeps_foldr; [|apply keeps_ret].
  intros kv r Hr s s' a HI H.
  apply bind_inr in H as (s0 & sd & H1 & H).
  apply inv_py_getitem in H1 as (-> & ck & Hck & Hsd).
  apply bind_inr in H as (s1 & u & H1 & H).
  apply inv_py_setitem in H1 as (y & ky & -> & Hy & ->).
  destruct HI as [Hci Hfi].
  destruct (Hfi ck Hck section (VRef y) Hsd Hsec) as [Hyc Hym].
  assert (HI1 : copy_inv c mval cnt (set_objs (<[y := ODict (assoc_set kv.1 kv.2 ky)]> (objs s)) s)).
  { split.
    - apply (count_inv_setitem _ _ _ _ _ _ _ _ Hci Hy).
      + intros ->. now destruct Hyc.
      + intros m Em ->. now destruct (Hym m Em).
    - apply entries_fresh_setitem_other; [congruence|exact Hfi]. }
  exact (keeps_bind _ _ _ Hr (fun _ => keeps_ret _ _) _ _ _ HI1 H).
Qed.

Create HintDb keeps.
#[local] Hint Resolve keeps_ret keeps_py_extend keeps_new_dict : keeps.
#[local] Hint Resolve reads_only_py_contains reads_only_py_getitem reads_only_get_state
  reads_only_py_get reads_only_py_items reads_only_py_iter : keeps.
#[local] Hint Extern 1 (_ <> _) => discriminate : keeps.

Ltac keeps_solve :=
  repeat match goal with
  | |- keeps _ (mbind _ _) => apply keeps_bind; [|intro]
  | |- keeps _ (foldr _ _ _) => apply keeps_foldr; [intros ? ? ?|]
  | |- keeps _ (if ?b then _ else _) => destruct b
  | |- keeps _ (set_section_items _ _ _) => apply keeps_set_section_items
  | |- keeps _ _ => solve [apply keeps_reads; eauto with keeps | eauto with keeps]
  | |- _ <> _ => discriminate
  end.

(** [apply_optimization] on the working copy changes neither its
    [metadata] entry nor the counter. *)
Lemma keeps_apply_optimization (c : loc) (mval cnt : option value) (od : value) :
  keeps (copy_inv c mval cnt) (apply_optimization (VRef c) od).
Proof. unfold apply_optimization. keeps_solve. Qed.

Lemma assoc_lookup_None_keys {A} (k : string) (kvs : list (string * A)) :
  assoc_lookup k kvs = None -> forall kv, In kv kvs -> kv.1 <> k.
Proof.
  induction kvs as [|[k' v'] kvs IH]; simpl; [tauto|].
  destruct (String.eqb k k') eqn:E; [discriminate|].
  intros H kv [<-|Hin].
  - simpl. intros ->. rewrite String.eqb_refl in E. discriminate.
  - exact (IH H kv Hin).
Qed.

(** Lines 986-994 for a payload without a [metadata] entry: only
    top-level keys of the copy other than [metadata] are set. *)
Lemma update_apply_count (e : env) (c : loc) (mval cnt : option value) (updates : value)
    ukvs (s s' : state) (u : unit) :
  count_inv c mval cnt s -> deref s updates = Some (ODict ukvs) ->
  assoc_lookup "metadata" ukvs = None ->
  update_apply e (VRef c) updates s = (s', inr u) -> count_inv c mval cnt s'.
Proof.
  intros HI Hu Hnm H. unfold update_apply in H.
  apply bind_inr in H as (s0 & items & H1 & H).
  apply inv_py_items in H1 as [-> Hi]. rewrite Hu in Hi. injection Hi as <-.
  pose proof (assoc_lookup_None_keys _ _ Hnm) as Hkeys. clear Hu Hnm.
  revert s s' u HI H.
  match goal with
  | |- forall s s' u, _ -> foldr ?g ?z _ s = _ -> _ =>
      enough (Hk : forall zs, (forall kv, In kv zs -> kv.1 <> "metadata") ->
                              keeps (count_inv c mval cnt) (foldr g z zs))
  end.
  { intros s s' u HI H. exact (Hk ukvs Hkeys s s' u HI H). }
  clear Hkeys. induction zs as [|kv zs IH]; intros Hz; cbn [foldr]; [apply keeps_ret|].
  apply keeps_bind.
  - rewrite (proj2 (String.eqb_neq _ _) (Hz kv (or_introl eq_refl))).
    intros s s' w HI H. apply inv_py_setitem in H as (y & ky & [= <-] & Hy & ->).
    apply (count_inv_setitem _ _ _ _ _ _ _ _ HI Hy).
    + intros _. exact (Hz kv (or_introl eq_refl)).
    + intros m Em Ecm. destruct HI as (_ & _ & Hm). destruct (Hm m Em) as (_ & Hne & _).
      congruence.
  - intros _. apply IH. intros kv' Hin. apply Hz. now right.
Qed.

(** [if 'metadata' not in cur: cur['metadata'] = {}]: afterwards the
    counter seen through the copy is unchanged (a fresh metadata dict has
    none, and then neither had the copy). *)
Lemma ensure_metadata_count (c : loc) (mval cnt : option value) (s s' : state) (u : unit) :
  count_inv c mval cnt s -> (mval = None -> cnt = None) ->
  ensure_dict_key (VRef c) "metadata" s = (s', inr u) ->
  exists mval', count_inv c mval' cnt s' /\ (mval' = None -> cnt = None).
Proof.
  intros HI Hnone H. unfold ensure_dict_key in H.
  apply bind_inr in H as (s0 & has & Hhas & H).
  pose proof (inv_py_contains _ _ _ _ _ Hhas) as ->.
  destruct has.
  - apply inv_mret in H as [-> _]. now exists mval.
  - apply bind_inr in H as (s1 & f & H1 & H). apply inv_alloc in H1 as [-> ->].
    apply inv_py_setitem in H as (y & ky & [= <-] & Hy & ->).
    destruct HI as (Hc & Hck & Hm).
    cbn [objs set_next set_objs] in Hy. rewrite lookup_insert_ne in Hy by lia.
    rewrite (py_contains_dict _ _ _ _ Hy) in Hhas. injection Hhas as Hb.
    assert (Hmd : assoc_lookup "metadata" ky = None).
    { destruct (assoc_lookup "metadata" ky); [|reflexivity].
      rewrite bool_decide_eq_true_2 in Hb by (eexists; reflexivity). discriminate. }
    assert (Hcnt : cnt = None) by (apply Hnone; rewrite <- (Hck ky Hy); exact Hmd).
    exists (Some (VRef (next_loc s))). split; [|discriminate].
    split; [|split].
    + cbn [next_loc set_next set_objs]. lia.
    + intros ck. cbn [objs set_next set_objs]. rewrite lookup_insert_eq.
      intros [= <-]. rewrite assoc_lookup_set. reflexivity.
    + intros m [= <-]. cbn [next_loc objs set_next set_objs].
      split; [lia|]. split; [lia|].
      intros mk. rewrite lookup_insert_ne by lia. rewrite lookup_insert_eq.
      intros [= <-]. now rewrite Hcnt.
Qed.

(** [refresh_last_updated]: the copy ends with a metadata dict whose
    counter is the one tracked. *)
Lemma refresh_count (e : env) (c : loc) (mval cnt : option value) (s s' : state) (u : unit) :
  count_inv c mval cnt s -> (mval = None -> cnt = None) ->
  refresh_last_updated e (VRef c) s = (s', inr u) ->
  exists ck x mk, objs s' !! c = Some (ODict ck) /\
    assoc_lookup "metadata" ck = Some (VRef x) /\
    objs s' !! x = Some (ODict mk) /\ assoc_lookup "optimization_count" mk = cnt.
Proof.
  intros HI Hnone H. unfold refresh_last_updated in H.
  apply bind_inr in H as (s1 & u1 & H1 & H).
  destruct (ensure_metadata_count _ _ _ _ _ _ HI Hnone H1) as (mval' & HI1 & _).
  apply bind_inr in H as (s2 & md & H2 & H).
  apply inv_py_getitem in H2 as (-> & ck & Hc & Hmd).
  apply inv_py_setitem in H as (x & kx & -> & Hx & ->).
  destruct HI1 as (_ & Hck & Hm).
  pose proof (Hck ck Hc) as Emv. rewrite Hmd in Emv.
  destruct (Hm x (eq_sym Emv)) as (_ & Hxc & Hcount).
  exists ck, x, (assoc_set "last_updated" (now_iso e) kx).
  cbn [objs set_objs]. split; [|split; [exact Hmd|split]].
  - rewrite lookup_insert_ne by congruence. exact Hc.
  - apply lookup_insert_eq.
  - rewrite assoc_lookup_set. exact (Hcount kx Hx).
Qed.

(** The counter of a stored document, read through its heap objects. *)
Lemma optimization_count_objs (s : state) (name : string) (c x : loc) ck mk :
  assoc_lookup name (contexts s) = Some (VRef c) -> objs s !! c = Some (ODict ck) ->
  assoc_lookup "metadata" ck = Some (VRef x) -> objs s !! x = Some (ODict mk) ->
  optimization_count s name = assoc_lookup "optimization_count" mk.
Proof.
  intros Hn Hc Hmd Hx. unfold optimization_count, context_section.
  rewrite Hn. cbn [deref]. rewrite Hc, Hmd. cbn [deref]. rewrite Hx. reflexivity.
Qed.

Lemma contexts_set_self (s : state) (name : string) (v : value) :
  assoc_lookup name (contexts (set_contexts (assoc_set name v (contexts s)) s)) = Some v.
Proof. cbn [contexts set_contexts]. now rewrite assoc_lookup_set, String.eqb_refl. Qed.

(** The facts the three methods use depend on the heap and [self.contexts]
    only. *)
Lemma same_core (s s' : state) (name : string) :
  objs s' = objs s -> next_loc s' = next_loc s -> contexts s' = contexts s ->
  wf_state s' = wf_state s /\ metadata_unshared s' name = metadata_unshared s name /\
  optimization_count s' name = optimization_count s name /\ in_contexts name s' = in_contexts name s.
Proof.
  destruct s, s'; cbn [objs next_loc contexts]. intros -> -> ->. tauto.
Qed.

(** [current_data = self.contexts[name].copy()]: the invariant holds of
    the copy, with the counter of the stored document. *)
Lemma copy_start (s : state) (name : string) (d : value) (s1 : state) (cur : value) :
  wf_state s = true -> metadata_unshared s name = true ->
  assoc_lookup name (contexts s) = Some d -> py_copy d s = (s1, inr cur) ->
  exists c mval, cur = VRef c /\ copy_inv c mval (optimization_count s name) s1 /\
    (mval = None -> optimization_count s name = None).
Proof.
  intros Hwf Hun Hd H. apply inv_py_copy in H as (o & Ho & -> & ->).
  destruct d as [| | | |dl]; try discriminate. cbn [deref] in Ho.
  pose proof (wf_lookup_lt _ _ _ Hwf Ho) as Hdl.
  set (c := next_loc s).
  exists c, (match o with ODict kvs => assoc_lookup "metadata" kvs | OList _ => None end).
  split; [reflexivity|].
  assert (Hcount : forall kvs m mk, o = ODict kvs ->
            assoc_lookup "metadata" kvs = Some (VRef m) -> objs s !! m = Some (ODict mk) ->
            assoc_lookup "optimization_count" mk = optimization_count s name).
  { intros kvs m mk -> Hm Hmk. symmetry.
    exact (optimization_count_objs s name dl m kvs mk Hd Ho Hm Hmk). }
  split; [split; [split; [|split]|]|].
  - cbn [next_loc set_next set_objs]. lia.
  - intros ck. cbn [objs set_next set_objs]. rewrite lookup_insert_eq.
    intros [= ->]. reflexivity.
  - intros m Em. destruct o as [kvs|xs]; [|discriminate].
    pose proof (wf_dict_value_below s dl kvs "metadata" (VRef m) Hwf Ho Em) as Hb.
    cbn [val_below] in Hb. apply bool_decide_eq_true_1 in Hb.
    cbn [next_loc objs set_next set_objs]. split; [lia|]. split; [subst c; lia|].
    intros mk. rewrite lookup_insert_ne by (subst c; lia). intros Hmk.
    exact (Hcount kvs m mk eq_refl Em Hmk).
  - intros ck. cbn [objs set_next set_objs]. rewrite lookup_insert_eq.
    intros [= ->] k v Hk Hkm. split.
    + intros ->. pose proof (wf_dict_value_below s dl ck k (VRef c) Hwf Ho Hk) as Hb.
      cbn [val_below] in Hb. apply bool_decide_eq_true_1 in Hb. subst c. lia.
    + intros m Em ->. unfold metadata_unshared in Hun.
      rewrite Hd in Hun. cbn [deref] in Hun. rewrite Ho, Em in Hun.
      rewrite forallb_forall in Hun.
      specialize (Hun (k, VRef m) (assoc_lookup_In _ _ _ Hk)). cbn [fst snd] in Hun.
      apply String.eqb_neq in Hkm. rewrite Hkm in Hun. cbn [orb negb] in Hun.
      rewrite bool_decide_eq_true_2 in Hun by reflexivity. discriminate.
  - intros Hnone. unfold optimization_count, context_section.
    rewrite Hd. cbn [deref]. rewrite Ho.
    destruct o as [kvs|xs]; [|reflexivity]. now rewrite Hnone.
Qed.

(** [md = cur['metadata']; md[k] = v] for a key other than the counter. *)
Lemma meta_setitem_other (c : loc) (mval cnt : option value) (k : string) (v : value)
    (s s1 s' : state) (md : value) (u : unit) :
  count_inv c mval cnt s -> k <> "optimization_count" ->
  py_getitem (VRef c) "metadata" s = (s1, inr md) -> py_setitem md k v s1 = (s', inr u) ->
  count_inv c mval cnt s'.
Proof.
  intros HI Hk H1 H2. apply inv_py_getitem in H1 as (-> & ck & Hc & Hmd).
  apply inv_py_setitem in H2 as (x & kx & -> & Hx & ->).
  pose proof HI as (_ & Hck & Hm). pose proof (Hck ck Hc) as Emv. rewrite Hmd in Emv.
  destruct (Hm x (eq_sym Emv)) as (_ & Hxc & _).
  apply (count_inv_setitem _ _ _ _ _ _ _ _ HI Hx); [congruence|].
  intros _ _ _. exact Hk.
Qed.

Lemma count_plus_one_default (cnt : option value) :
  count_plus_one (Some (match cnt with Some v => v | None => VInt 0 end)) = count_plus_one cnt.
Proof. destruct cnt; reflexivity. Qed.

(** Lines 1191-1196: [current_data['metadata']['optimization_count'] =
    current_data['metadata'].get('optimization_count', 0) + 1]. *)
Lemma meta_count_step (c : loc) (mval cnt : option value)
    (s s1 s2 s3 s4 s5 : state) (md md' cv w : value) (u : unit) :
  count_inv c mval cnt s ->
  py_getitem (VRef c) "metadata" s = (s1, inr md) ->
  py_get md "optimization_count" (VInt 0) s1 = (s2, inr cv) ->
  py_add1 cv s2 = (s3, inr w) ->
  py_getitem (VRef c) "metadata" s3 = (s4, inr md') ->
  py_setitem md' "optimization_count" w s4 = (s5, inr u) ->
  exists ck x mk, objs s5 !! c = Some (ODict ck) /\
    assoc_lookup "metadata" ck = Some (VRef x) /\
    objs s5 !! x = Some (ODict mk) /\
    assoc_lookup "optimization_count" mk = count_plus_one cnt.
Proof.
  intros HI H1 H2 H3 H4 H5.
  apply inv_py_getitem in H1 as (-> & ck & Hc & Hmd).
  apply inv_py_get in H2 as (-> & kx & Hx & ->).
  apply inv_py_add1 in H3 as (-> & Hw).
  apply inv_py_getitem in H4 as (-> & ck' & Hc' & Hmd').
  rewrite Hc in Hc'. injection Hc' as <-. rewrite Hmd in Hmd'. injection Hmd' as <-.
  apply inv_py_setitem in H5 as (x & kx' & -> & Hx' & ->).
  cbn [deref] in Hx. rewrite Hx in Hx'. injection Hx' as <-.
  pose proof HI as (_ & Hck & Hm). pose proof (Hck ck Hc) as Emv. rewrite Hmd in Emv.
  destruct (Hm x (eq_sym Emv)) as (_ & Hxc & Hcount).
  exists ck, x, (assoc_set "optimization_count" w kx). cbn [objs set_objs].
  split; [rewrite lookup_insert_ne by congruence; exact Hc|].
  split; [exact Hmd|]. split; [apply lookup_insert_eq|].
  rewrite assoc_lookup_set, String.eqb_refl, <- (Hcount kx Hx), <- count_plus_one_default.
  now rewrite Hw.
Qed.

(** [self._write_json_file(context_file, current_data)] followed by
    [self.contexts[name] = current_data]. *)
Lemma count_after_store (e : env) (name path : string) (c x : loc) ck mk
    (s s1 s2 : state) (u1 u2 : unit) :
  objs s !! c = Some (ODict ck) -> assoc_lookup "metadata" ck = Some (VRef x) ->
  objs s !! x = Some (ODict mk) ->
  write_json_file e path (VRef c) s = (s1, inr u1) -> ctx_set name (VRef c) s1 = (s2, inr u2) ->
  optimization_count s2 name = assoc_lookup "optimization_count" mk.
Proof.
  intros Hc Hmd Hx H1 H2. apply inv_write_json_file in H1 as (Eo & _ & _).
  apply inv_ctx_set in H2 as ->.
  apply (optimization_count_objs _ _ c x ck); [apply contexts_set_self| | |];
    unfold set_contexts; cbn [objs]; try rewrite Eo; assumption.
Qed.

(** A returned dict with [success] false refutes a successful return. *)
Ltac refute_failure H Hs :=
  apply inv_mret in H as [_ ->]; cbv in Hs; discriminate Hs.

Ltac step H s a Ha := apply bind_inr in H as (s & a & Ha & H); cbv beta zeta in H.

Lemma optimize_count (e : env) (name : string) (od : value) (st st' : state) (r : result) :
  wf_state st = true -> metadata_unshared st name = true ->
  auto_optimize_context e name od st = (st', inr r) -> succeeded r = true ->
  optimization_count st' name = count_plus_one (optimization_count st name).
Proof.
  intros Hwf Hun H Hs. unfold auto_optimize_context in H.
  apply try_except_inr in H as [H | (s0 & ex & _ & H)]; [|refute_failure H Hs].
  step H s1 a1 H1. apply inv_get_state in H1 as [-> ->].
  destruct (negb (in_contexts name st)); [refute_failure H Hs|].
  step H s2 d H2. apply inv_ctx_get in H2 as [-> Hd].
  step H s3 cur H3.
  destruct (copy_start _ _ _ _ _ Hwf Hun Hd H3) as (c & mval & -> & HI3 & Hnone).
  step H s4 applied H4.
  pose proof (keeps_apply_optimization c mval _ od s3 s4 applied HI3 H4) as [HI4 _].
  step H s5 bf H5. apply inv_backup in H5 as (Eo5 & En5 & _).
  pose proof (count_inv_same_heap _ _ _ _ _ Eo5 En5 HI4) as HI5.
  step H s6 p6 H6. apply inv_validate in H6 as ->. destruct p6 as [errs warns]. cbv beta iota in H.
  destruct (bool_decide (errs <> [])); [refute_failure H Hs|].
  step H s7 u7 H7.
  destruct (ensure_metadata_count _ _ _ _ _ _ HI5 Hnone H7) as (mval7 & HI7 & _).
  step H s8 md8 H8. step H s9 u9 H9.
  assert (HI9 : count_inv c mval7 (optimization_count st name) s9)
    by (eapply meta_setitem_other; [exact HI7| |exact H8|exact H9]; discriminate).
  step H s10 md10 H10. step H s11 u11 H11.
  assert (HI11 : count_inv c mval7 (optimization_count st name) s11)
    by (eapply meta_setitem_other; [exact HI9| |exact H10|exact H11]; discriminate).
  step H s12 md12 H12. step H s13 cv H13. step H s14 w H14.
  step H s15 md15 H15. step H s16 u16 H16.
  destruct (meta_count_step _ _ _ _ _ _ _ _ _ _ _ _ _ _ HI11 H12 H13 H14 H15 H16)
    as (ck & x & mk & Hc & Hmd & Hx & Hcount).
  step H s17 u17 H17. step H s18 u18 H18. step H s19 otype H19.
  apply inv_mret in H as [-> _]. apply inv_py_get in H19 as [-> _].
  rewrite (count_after_store _ _ _ _ _ _ _ _ _ _ _ _ Hc Hmd Hx H17 H18). exact Hcount.
Qed.

Lemma add_pattern_count (e : env) (name section pname : string) (cfg : value)
    (st st' : state) (r : result) :
  wf_state st = true -> metadata_unshared st name = true ->
  add_context_pattern e name section pname cfg st = (st', inr r) -> succeeded r = true ->
  optimization_count st' name = optimization_count st name.
Proof.
  intros Hwf Hun H Hs. unfold add_context_pattern in H.
  destruct (negb (_validate_context_name name)); [refute_failure H Hs|].
  step H s1 a1 H1. apply inv_get_state in H1 as [-> ->].
  destruct (negb (in_contexts name st)); [refute_failure H Hs|].
  destruct (negb (existsb (String.eqb section) valid_pattern_sections)) eqn:Esec;
    [refute_failure H Hs|].
  assert (Hsec : section <> "metadata") by (intros ->; discriminate Esec).
  apply backup_then_inr in H as (sb & bf & Hb & H).
  apply inv_backup in Hb as (Eo & En & Ec).
  destruct (same_core _ _ name Eo En Ec) as (Ewf & Eun & Ecount & _).
  rewrite <- Ewf in Hwf. rewrite <- Eun in Hun. rewrite <- Ecount. clear Ewf Eun Ecount.
  apply try_except_inr in H as [H | (s0 & ex & _ & H)]; [|refute_failure H Hs].
  step H s2 d H2. apply inv_ctx_get in H2 as [-> Hd].
  step H s3 cur H3.
  destruct (copy_start _ _ _ _ _ Hwf Hun Hd H3) as (c & mval & -> & HI3 & Hnone).
  step H s4 u4 H4.
  destruct (keeps_ensure_dict_key c mval _ section Hsec s3 s4 u4 HI3 H4) as [HI4 Hfr4].
  step H s5 sd H5. apply inv_py_getitem in H5 as (-> & ck & Hc & Hsd).
  step H s6 u6 H6. apply inv_py_setitem in H6 as (y & ky & -> & Hy & ->).
  destruct (Hfr4 ck Hc section (VRef y) Hsd Hsec) as [Hyc Hym].
  assert (HI6 := count_inv_setitem _ _ _ _ pname cfg _ _ HI4 Hy
                   (fun E => False_ind _ (Hyc (f_equal VRef E)))
                   (fun m Em E => False_ind _ (Hym m Em (f_equal VRef E)))).
  step H s7 u7 H7.
  destruct (refresh_count _ _ _ _ _ _ _ HI6 Hnone H7) as (ck' & x & mk & Hc' & Hmd & Hx & Hcount).
  step H s8 u8 H8. step H s9 u9 H9. apply inv_mret in H as [-> _].
  rewrite (count_after_store _ _ _ _ _ _ _ _ _ _ _ _ Hc' Hmd Hx H8 H9). exact Hcount.
Qed.

Lemma update_count (e : env) (name : string) (updates : value) ukvs
    (st st' : state) (r : result) :
  wf_state st = true -> metadata_unshared st name = true ->
  deref st updates = Some (ODict ukvs) -> assoc_lookup "metadata" ukvs = None ->
  update_context_rules e name updates st = (st', inr r) -> succeeded r = true ->
  optimization_count st' name = optimization_count st name.
Proof.
  intros Hwf Hun Hu Hnm H Hs. unfold update_context_rules in H.
  destruct (negb (_validate_context_name name)); [refute_failure H Hs|].
  step H s1 a1 H1. apply inv_get_state in H1 as [-> ->].
  destruct (negb (in_contexts name st)); [refute_failure H Hs|].
  apply backup_then_inr in H as (sb & bf & Hb & H).
  apply inv_backup in Hb as (Eo & En & Ec).
  destruct (same_core _ _ name Eo En Ec) as (Ewf & Eun & Ecount & _).
  assert (Hub : deref sb updates = Some (ODict ukvs)).
  { destruct updates; try discriminate. cbn [deref] in *. now rewrite Eo. }
  rewrite <- Ewf in Hwf. rewrite <- Eun in Hun. rewrite <- Ecount.
  clear Ewf Eun Ecount Hu Eo En Ec.
  apply try_except_inr in H as [H | (s0 & ex & _ & H)]; [|refute_failure H Hs].
  step H s2 cur H2. unfold update_merge in H2.
  step H2 s3 d H3. apply inv_ctx_get in H3 as [-> Hd].
  step H2 s4 cur' H4.
  destruct (copy_start _ _ _ _ _ Hwf Hun Hd H4) as (c & mval & -> & [HI4 _] & Hnone).
  assert (Hu4 : deref s4 updates = Some (ODict ukvs)).
  { apply inv_py_copy in H4 as (o & _ & -> & _).
    destruct updates as [| | | |l]; try discriminate. cbn [deref objs set_next set_objs] in *.
    rewrite lookup_insert_ne; [exact Hub|].
    pose proof (wf_lookup_lt _ _ _ Hwf Hub). lia. }
  step H2 s5 u5 H5.
  pose proof (update_apply_count _ _ _ _ _ _ _ _ _ HI4 Hu4 Hnm H5) as HI5.
  step H2 s6 u6 H6.
  destruct (refresh_count _ _ _ _ _ _ _ HI5 Hnone H6) as (ck & x & mk & Hc & Hmd & Hx & Hcount).
  apply inv_mret in H2 as [-> ->].
  step H s7 p7 H7. apply inv_validate in H7 as ->. destruct p7 as [errs warns].
  cbv beta iota zeta in H.
  destruct (bool_decide (errs <> [])); [refute_failure H Hs|].
  step H s8 u8 H8. step H s9 u9 H9. step H s10 items H10.
  apply inv_py_items in H10 as [-> _]. apply inv_mret in H as [-> _].
  rewrite (count_after_store _ _ _ _ _ _ _ _ _ _ _ _ Hc Hmd Hx H8 H9). exact Hcount.
Qed.

(** C5 (corrected): on a well-formed heap, for a document whose top-level
    entries other than [metadata] do not alias its [metadata] dict (as for
    every document read by [json.load]), a successful
    [auto_optimize_context] sets [metadata.optimization_count] to its
    previous value plus one (a missing counter counting as 0), while a
    successful [add_context_pattern] and a successful
    [update_context_rules] whose payload has no [metadata] key leave it
    unchanged. *)
Theorem optimization_count_evolution (e : env) (name : string) (st : state) :
  wf_state st = true -> metadata_unshared st name = true ->
  (forall od st' r, auto_optimize_context e name od st = (st', inr r) ->
     succeeded r = true ->
     optimization_count st' name = count_plus_one (optimization_count st name)) /\
  (forall section pname cfg st' r,
     add_context_pattern e name section pname cfg st = (st', inr r) ->
     succeeded r = true -> optimization_count st' name = optimization_count st name) /\
  (forall updates ukvs st' r, deref st updates = Some (ODict ukvs) ->
     assoc_lookup "metadata" ukvs = None ->
     update_context_rules e name updates st = (st', inr r) ->
     succeeded r = true -> optimization_count st' name = optimization_count st name).
Proof.
  intros Hwf Hun. split; [|split]; intros.
  - eapply optimize_count; eassumption.
  - eapply add_pattern_count; eassumption.
  - eapply update_count; eassumption.
Qed.

Lemma optimization_count_evolution_witness :
  optimization_count Fixtures.st_arg "git" = Some (VInt 3) /\
  optimization_count
    (auto_optimize_context Fixtures.env0 "git" Fixtures.arg_ref Fixtures.st_arg).1 "git"
    = Some (VInt 4) /\
  optimization_count
    (add_context_pattern Fixtures.env0 "git" "auto_store_triggers" "todo"
       Fixtures.arg_ref Fixtures.st_arg).1 "git" = Some (VInt 3) /\
  optimization_count
    (update_context_rules Fixtures.env0 "git" Fixtures.arg_ref Fixtures.st_arg).1 "git"
    = Some (VInt 3).
Proof.
  assert (Hwf : wf_state Fixtures.st_arg = true) by (vm_compute; reflexivity).
  assert (Hun : metadata_unshared Fixtures.st_arg "git" = true) by (vm_compute; reflexivity).
  destruct (optimization_count_evolution Fixtures.env0 "git" Fixtures.st_arg Hwf Hun)
    as (Hopt & Hpat & Hupd).
  split; [vm_compute; reflexivity|]. split; [|split].
  - destruct (auto_optimize_context Fixtures.env0 "git" Fixtures.arg_ref Fixtures.st_arg)
      as [s' [ex|r]] eqn:E; [vm_compute in E; discriminate|].
    cbn [fst]. rewrite (Hopt _ _ _ E); [vm_compute; reflexivity|].
    vm_compute in E. injection E as _ <-. vm_compute. reflexivity.
  - destruct (add_context_pattern Fixtures.env0 "git" "auto_store_triggers" "todo"
                Fixtures.arg_ref Fixtures.st_arg) as [s' [ex|r]] eqn:E;
      [vm_compute in E; discriminate|].
    cbn [fst]. rewrite (Hpat _ _ _ _ _ E); [vm_compute; reflexivity|].
    vm_compute in E. injection E as _ <-. vm_compute. reflexivity.
  - destruct (update_context_rules Fixtures.env0 "git" Fixtures.arg_ref Fixtures.st_arg)
      as [s' [ex|r]] eqn:E; [vm_compute in E; discriminate|].
    cbn [fst]. rewrite (Hupd Fixtures.arg_ref [("description", VStr "Git conventions, revised")] _ _
                          ltac:(vm_compute; reflexivity) ltac:(vm_compute; reflexivity) E);
      [vm_compute; reflexivity|].
    vm_compute in E. injection E as _ <-. vm_compute. reflexivity.
Defined.

(** C5 counterexample: [update_context_rules('git', {'metadata':
    {'optimization_count': 0}})] succeeds and resets the counter of [git]
    from 3 to 0. *)
Lemma update_resets_optimization_count :
  optimization_count Fixtures.st0 "git" = Some (VInt 3) /\
  returned_success (Fixtures.reset_update Fixtures.st0).2 = Some true /\
  optimization_count (Fixtures.reset_update Fixtures.st0).1 "git" = Some (VInt 0).
Proof. vm_compute. repeat split. Qed.

(** * Further properties of the code *)

(** ** The learning engine *)

Lemma assoc_lookup_none_of_existsb {A} (k : string) (kvs : list (string * A)) :
  existsb (String.eqb k) (map fst kvs) = false -> assoc_lookup k kvs = None.
Proof.
  induction kvs as [|[k' v] r IH]; simpl; [done|].
  intros H. apply orb_false_iff in H as [H1 H2]. rewrite H1. auto.
Qed.

(** X1: [_generate_recommendations] never returns an empty list, and it
    returns the single "healthy usage" message exactly when the context
    has between 1 and 5 interactions, at least one update and at least one
    pattern addition; that message never comes with another. *)
Theorem recommendations_healthy_iff (context_name : string) (u : usage_stats) :
  0 <= us_total_interactions u ->
  _generate_recommendations context_name u <> [] /\
  (_generate_recommendations context_name u = [healthy_message] <->
   0 < us_total_interactions u <= 5 /\ us_update_count u <> 0 /\
   us_pattern_additions u <> 0) /\
  (In healthy_message (_generate_recommendations context_name u) ->
   _generate_recommendations context_name u = [healthy_message]).
Proof.
  intros Hnn. unfold _generate_recommendations, healthy_message.
  destruct (us_total_interactions u =? 0) eqn:E1;
    destruct (us_update_count u =? 0) eqn:E2;
    destruct (0 <? us_total_interactions u) eqn:E2';
    destruct (us_pattern_additions u =? 0) eqn:E3;
    destruct (5 <? us_total_interactions u) eqn:E4;
    cbn [app andb];
    rewrite ?Z.eqb_eq, ?Z.eqb_neq, ?Z.ltb_lt, ?Z.ltb_ge in *;
    try lia;
    first [rewrite bool_decide_eq_true_2 by reflexivity
          |rewrite bool_decide_eq_false_2 by discriminate];
    (split; [discriminate|split; [split|]]);
    try (intros H; simpl in H; intuition discriminate);
    try (intros [H1 [H2 H3]]; lia);
    try (intros; repeat split; lia); try (intros; reflexivity).
Qed.

Lemma recommendations_healthy_iff_witness :
  _generate_recommendations "git"
    {| us_total_interactions := 2; us_creation_count := 1; us_update_count := 1;
       us_pattern_additions := 1; us_last_activity := None |} = [healthy_message].
Proof.
  assert (Hnn : 0 <= 2) by lia.
  destruct (recommendations_healthy_iff "git"
    {| us_total_interactions := 2; us_creation_count := 1; us_update_count := 1;
       us_pattern_additions := 1; us_last_activity := None |} Hnn) as (_ & [_ Hiff] & _).
  apply Hiff. simpl. split; [lia|]. split; discriminate.
Defined.

(** X2: the effectiveness score lies between 0.0 and 1.0, and it is 1.0
    exactly when the context has interactions, updates and pattern
    additions. *)
Theorem effectiveness_score_range (u : usage_stats) :
  PrimFloat.leb 0.0%float (_calculate_effectiveness_score u) = true /\
  PrimFloat.leb (_calculate_effectiveness_score u) 1.0%float = true /\
  (_calculate_effectiveness_score u = 1.0%float <->
   0 < us_total_interactions u /\ 0 < us_update_count u /\ 0 < us_pattern_additions u).
Proof.
  unfold _calculate_effectiveness_score.
  destruct (0 <? us_total_interactions u) eqn:E1;
    destruct (0 <? us_update_count u) eqn:E2;
    destruct (0 <? us_pattern_additions u) eqn:E3;
    rewrite ?Z.ltb_lt, ?Z.ltb_ge in *;
    (split; [vm_compute; reflexivity|split; [vm_compute; reflexivity|]]);
    (split; [|intros (H1 & H2 & H3); try lia; vm_compute; reflexivity]);
    try (intros; repeat split; assumption);
    intros H; apply (f_equal (fun x => PrimFloat.eqb x 1.0%float)) in H;
    vm_compute in H; discriminate H.
Qed.

(** X3: with the simulated memory service, [analyze_context_effectiveness]
    never counts a creation, an update or a pattern addition: a context
    named after one of the four demo tags gets its three memories and the
    score 0.3, every other context none and the score 0.0. *)
Theorem analysis_never_counts_updates (e : env) (context_name : string) :
  exists u score recs,
    analyze_context_effectiveness e context_name = AnalysisOk context_name u score recs /\
    us_creation_count u = 0 /\ us_update_count u = 0 /\ us_pattern_additions u = 0 /\
    (if existsb (String.eqb context_name) (map fst demo_memories)
     then us_total_interactions u = 3 /\ score = 0.3%float
     else us_total_interactions u = 0 /\ score = 0.0%float).
Proof.
  destruct (existsb (String.eqb context_name) (map fst demo_memories)) eqn:E.
  - apply existsb_exists in E as (k & Hk & Ek). apply String.eqb_eq in Ek; subst.
    vm_compute in Hk.
    repeat destruct Hk as [<-|Hk]; try contradiction.
    all: eexists _, _, _; split; [reflexivity|vm_compute; repeat split].
  - apply assoc_lookup_none_of_existsb in E.
    assert (Hc : assoc_lookup "context_change" demo_memories = @None (list string))
      by reflexivity.
    unfold analyze_context_effectiveness, search_by_tag. cbn [negb memory_available].
    cbn [flat_map]. rewrite E, Hc.
    eexists _, _, _. split; [reflexivity|vm_compute; repeat split].
Qed.

(** X4: with the simulated memory service, [suggest_context_optimizations]
    always returns an empty list of suggestions: the search for the tag
    [context_change] finds nothing. *)
Theorem global_suggestions_always_empty (e : env) :
  suggest_context_optimizations e = GlobalList [].
Proof. reflexivity. Qed.






Lemma NoDup_common_tools : List.NoDup common_tools.
Proof. apply NoDup_ListNoDup, (bool_decide_unpack _). vm_compute. reflexivity. Qed.

Lemma missing_tool_suggestion_inj (t t' : string) :
  In t common_tools -> In t' common_tools ->
  sg_suggested_context (missing_tool_suggestion t) =
  sg_suggested_context (missing_tool_suggestion t') -> t = t'.
Proof.
  unfold common_tools. intros Ht Ht'.
  repeat destruct Ht as [<-|Ht]; try contradiction;
    repeat destruct Ht' as [<-|Ht']; try contradiction;
    intros H; try reflexivity; vm_compute in H; discriminate H.
Qed.

(** X6: [proactive_context_suggestions] never returns an empty list, and
    for each of the five common tools it suggests creating that tool's
    context exactly when the tool is not among the current contexts, after
    lowercasing. *)
Theorem proactive_suggestions_missing_tools (e : env) (current_contexts : list string) :
  exists l, proactive_context_suggestions e current_contexts = ProactiveList l /\
    l <> [] /\
    forall tool, In tool common_tools ->
      (In (missing_tool_suggestion tool) l <-> ~ In tool (map py_lower current_contexts)).
Proof.
  unfold proactive_context_suggestions, search_by_tag. cbn [negb memory_available].
  eexists. split; [reflexivity|].
  set (existing := map py_lower current_contexts).
  set (raw := fun tool : string =>
    ("missing_tool_context",
     "Create " +:+ tool +:+ "_context.json for " +:+ tool +:+ " development",
     "medium", tool +:+ " is commonly used but no context exists")).
  assert (Hmiss : forall y, In y (flat_map (fun tool =>
            if existsb (String.eqb tool) existing then [] else [raw tool]) common_tools) <->
          exists t, In t common_tools /\ ~ In t existing /\ y = raw t).
  { intros y. rewrite in_flat_map. split.
    - intros (t & Ht & Hy). destruct (existsb (String.eqb t) existing) eqn:E;
        [contradiction|]. destruct Hy as [<-|[]]. exists t. split; [exact Ht|split; [|done]].
      intros Hin. assert (existsb (String.eqb t) existing = true) by
        (apply existsb_exists; exists t; split; [exact Hin|apply String.eqb_refl]).
      congruence.
    - intros (t & Ht & Hn & ->). exists t. split; [exact Ht|].
      destruct (existsb (String.eqb t) existing) eqn:E; [|left; reflexivity].
      apply existsb_exists in E as (x & Hx & Ex). apply String.eqb_eq in Ex; subst.
      contradiction. }
  fold (raw "docker") (raw "kubernetes") (raw "react") (raw "python") (raw "javascript").
  change (flat_map _ common_tools) with
    (flat_map (fun tool => if existsb (String.eqb tool) existing then [] else [raw tool])
       common_tools).
  split.
  - destruct (flat_map (fun tool => if existsb (String.eqb tool) existing then []
                                    else [raw tool]) common_tools) as [|y ys] eqn:Em;
      [|simpl; discriminate].
    assert (Hincl : incl common_tools existing).
    { intros t Ht. destruct (in_dec String.string_dec t existing) as [Hin|Hn]; [exact Hin|].
      exfalso. assert (Hy : In (raw t) []) by (apply Hmiss; eauto). inversion Hy. }
    pose proof (NoDup_incl_length NoDup_common_tools Hincl) as Hlen.
    unfold existing in Hlen. rewrite length_map in Hlen. simpl in Hlen.
    assert (H3 : (3 <? length current_contexts)%nat = true) by (apply Nat.ltb_lt; lia).
    rewrite H3. simpl. discriminate.
  - intros tool Htool. unfold missing_tool_suggestion. fold (raw tool).
    split.
    + intros Hin. apply in_map_iff in Hin as (y & Hy & Hin). apply in_app_or in Hin as [Hin|Hin].
      * apply Hmiss in Hin as (t & Ht & Hn & ->).
        assert (t = tool) as -> by
          (apply missing_tool_suggestion_inj; [exact Ht|exact Htool|];
           exact (f_equal sg_suggested_context Hy)).
        exact Hn.
      * exfalso. apply in_app_or in Hin as [Hin|Hin].
        -- destruct (3 <? length current_contexts)%nat; [|inversion Hin].
           destruct Hin as [<-|[]]. apply (f_equal sg_type) in Hy. discriminate Hy.
        -- case_bool_decide; [|inversion Hin].
           destruct Hin as [<-|[]]. apply (f_equal sg_type) in Hy. discriminate Hy.
    + intros Hn. apply in_map_iff. exists (raw tool). split; [reflexivity|].
      apply in_or_app. left. apply Hmiss. eauto.
Qed.

(** ** Context names and file names *)

Lemma is_prefix_app_inv (p s : list ascii) :
  is_prefix p s = true -> exists r, s = p ++ r.
Proof.
  revert s. induction p as [|a p IH]; intros s H; [exists s; reflexivity|].
  destruct s as [|b s]; [discriminate|]. simpl in H.
  apply andb_true_iff in H as [Hab H]. apply Ascii.eqb_eq in Hab; subst.
  destruct (IH s H) as [r ->]. exists r. reflexivity.
Qed.

Lemma is_prefix_refl_app (p r : list ascii) : is_prefix p (p ++ r) = true.
Proof. induction p as [|a p IH]; simpl; [reflexivity|]. now rewrite Ascii.eqb_refl, IH. Qed.

Lemma is_infix_single (c : ascii) (l : list ascii) : is_infix [c] l = true <-> In c l.
Proof.
  induction l as [|x r IH]; simpl; [split; [discriminate|contradiction]|].
  rewrite orb_true_iff, andb_true_r, Ascii.eqb_eq, IH. intuition congruence.
Qed.

(** The characters of a valid name are name characters, but for a final
    newline. *)
Lemma valid_name_chars (name : string) (c : ascii) :
  _validate_context_name name = true -> In c (list_ascii_of_string name) ->
  name_char c = true \/ c = newline.
Proof.
  unfold _validate_context_name, re_match_name. intros H Hin.
  repeat rewrite Bool.andb_true_iff in H.
  destruct H as [[[[_ H] _] _] _]. rewrite forallb_forall in H.
  revert H Hin. unfold strip_final_newline.
  set (l := list_ascii_of_string name).
  destruct (rev l) as [|d t] eqn:E; [intros H Hin; left; auto|].
  destruct (Ascii.eqb d newline) eqn:Ed; [|intros H Hin; left; auto].
  apply Ascii.eqb_eq in Ed. subst d. intros H Hin.
  assert (El : l = rev t ++ [newline]) by (rewrite <- (rev_involutive l), E; reflexivity).
  rewrite El in Hin. apply in_app_or in Hin as [Hin|[Hin|[]]]; [left; auto|right; auto].
Qed.

Lemma valid_name_no_dot (name : string) :
  _validate_context_name name = true -> ~ In "."%char (list_ascii_of_string name).
Proof.
  intros Hv Hin. destruct (valid_name_chars name _ Hv Hin) as [H|H]; discriminate H.
Qed.

Lemma replace_context_suffix (l : list ascii) :
  ~ In "."%char l ->
  replace_aux (S (length (l ++ list_ascii_of_string "_context.json")))
    (list_ascii_of_string "_context.json") (list_ascii_of_string "")
    (l ++ list_ascii_of_string "_context.json") = l.
Proof.
  induction l as [|c l IH]; intros Hdot; [reflexivity|].
  cbn [length app]. cbn [replace_aux].
  destruct (is_prefix (list_ascii_of_string "_context.json")
              (c :: l ++ list_ascii_of_string "_context.json")) eqn:Ep.
  - exfalso. apply is_prefix_app_inv in Ep as [r Er].
    apply (f_equal (fun x => nth 8 x "a"%char)) in Er.
    change (nth 8 (list_ascii_of_string "_context.json" ++ r) "a"%char) with "."%char in Er.
    destruct (Nat.lt_ge_cases 8 (length (c :: l))) as [Hlt|Hge].
    + change (c :: l ++ list_ascii_of_string "_context.json")
        with ((c :: l) ++ list_ascii_of_string "_context.json") in Er.
      rewrite app_nth1 in Er by exact Hlt.
      apply Hdot. rewrite <- Er. apply nth_In. exact Hlt.
    + change (c :: l ++ list_ascii_of_string "_context.json")
        with ((c :: l) ++ list_ascii_of_string "_context.json") in Er.
      rewrite app_nth2 in Er by exact Hge. simpl length in Er, Hge.
      destruct (8 - S (length l))%nat as [|[|[|[|[|[|[|[|j]]]]]]]] eqn:Ej;
        try discriminate Er; lia.
  - f_equal. apply IH. intros H. apply Hdot. right. exact H.
Qed.

(** X7: the file a valid context name is saved under ([name_context.json])
    is read back by the loader under that same name: [context_name_of_file]
    inverts [context_file_of] on valid names. *)
Theorem context_file_name_round_trip (name : string) :
  _validate_context_name name = true ->
  context_name_of_file (context_file_of name) = name.
Proof.
  intros Hv. unfold context_name_of_file, context_file_of, ends_with, str_replace.
  rewrite list_ascii_of_string_app, rev_app_distr, is_prefix_refl_app.
  rewrite replace_context_suffix by exact (valid_name_no_dot name Hv).
  apply string_of_list_ascii_of_string.
Qed.

Lemma context_file_name_round_trip_witness :
  _validate_context_name "git" = true /\ context_name_of_file (context_file_of "git") = "git".
Proof.
  split; [reflexivity|]. apply context_file_name_round_trip. reflexivity.
Defined.

Lemma split_on_app_sep (lc lr : list ascii) (c : ascii) :
  ~ In c lc -> split_on c (lc ++ [c] ++ lr) = lc :: split_on c lr.
Proof.
  change ([c] ++ lr) with (c :: lr).
  induction lc as [|x lc IH]; intros Hn; simpl.
  - now rewrite Ascii.eqb_refl.
  - destruct (Ascii.eqb x c) eqn:E.
    + apply Ascii.eqb_eq in E; subst. exfalso. apply Hn. left. reflexivity.
    + rewrite IH by (intros H; apply Hn; right; exact H). reflexivity.
Qed.

(** X8: a tool name of the form [category:rest], with no colon in
    [category], is served exactly the context of [category]; a tool name
    without a colon is looked up as it is. *)
Theorem tool_context_of_qualified_name (category rest : string) :
  ~ In ":"%char (list_ascii_of_string category) ->
  tool_category_of (category +:+ ":" +:+ rest) = category /\
  tool_category_of category = category /\
  get_tool_context (category +:+ ":" +:+ rest) = get_tool_context category.
Proof.
  intros Hn.
  assert (H1 : tool_category_of (category +:+ ":" +:+ rest) = category).
  { unfold tool_category_of, str_in.
    rewrite !list_ascii_of_string_app.
    assert (Hin : is_infix [":"%char] (list_ascii_of_string category ++
                  list_ascii_of_string ":" ++ list_ascii_of_string rest) = true).
    { apply is_infix_single. apply in_or_app. right. left. reflexivity. }
    change (list_ascii_of_string ":") with [":"%char] in *. rewrite Hin.
    rewrite split_on_app_sep by exact Hn. apply string_of_list_ascii_of_string. }
  assert (H2 : tool_category_of category = category).
  { unfold tool_category_of, str_in. change (list_ascii_of_string ":") with [":"%char].
    destruct (is_infix [":"%char] (list_ascii_of_string category)) eqn:E; [|reflexivity].
    apply is_infix_single in E. contradiction. }
  split; [exact H1|split; [exact H2|]].
  unfold get_tool_context. rewrite H1, H2. reflexivity.
Qed.

Lemma tool_context_of_qualified_name_witness :
  tool_category_of ("git" +:+ ":" +:+ "commit") = "git".
Proof.
  apply (tool_context_of_qualified_name "git" "commit"). simpl. intuition discriminate.
Defined.



(** ** What a successful change leaves on disk *)

Lemma to_json_same_objs (fuel : nat) (s s' : state) (v : value) :
  objs s = objs s' -> to_json fuel s v = to_json fuel s' v.
Proof.
  intros Ho. revert v. induction fuel as [|f IH]; intros v; destruct v; simpl; auto.
  rewrite Ho. destruct (objs s' !! l) as [[kvs|xs]|]; [| |reflexivity].
  - f_equal. apply mapM_ext. intros kv. now rewrite IH.
  - f_equal. apply mapM_ext. intros x. apply IH.
Qed.

Lemma inv_write_ok (e : env) (path : string) (v : value) (s s' : state) (u : unit) :
  write_json_file e path v s = (s', inr u) ->
  exists j, to_json (dump_fuel s) s v = Some j /\
    s' = set_disk (<[path := FJson j]> (disk s)) s.
Proof.
  unfold write_json_file. destruct (write_fails e path); [discriminate|].
  destruct (to_json (dump_fuel s) s v) as [j|]; [|discriminate].
  intros [= <- _]. eauto.
Qed.

Lemma store_persists (e : env) (name : string) (v : value) (s s1 s2 : state) (u u' : unit) :
  write_json_file e (context_file_of name) v s = (s1, inr u) ->
  ctx_set name v s1 = (s2, inr u') -> persisted_as_in_memory s2 name.
Proof.
  intros Hw Hc. apply inv_write_ok in Hw as (j & Hj & ->). apply inv_ctx_set in Hc as ->.
  exists v, j. cbn [contexts disk set_contexts set_disk]. split; [|split].
  - rewrite assoc_lookup_set, String.eqb_refl. reflexivity.
  - apply lookup_insert_eq.
  - rewrite <- Hj. unfold dump_fuel. cbn [next_loc set_contexts set_disk].
    apply to_json_same_objs. reflexivity.
Qed.

Lemma create_success (e : env) (name category : string) (rules : value)
    (st st' : state) (r : result) :
  create_context_file e name category rules st = (st', inr r) -> succeeded r = true ->
  _validate_context_name name = true /\ persisted_as_in_memory st' name.
Proof.
  intros H Hs. unfold create_context_file in H.
  destruct (_validate_context_name name) eqn:Ev; cbn [negb] in H; [|refute_failure H Hs].
  split; [reflexivity|].
  destruct (negb (_validate_context_name category)); [refute_failure H Hs|].
  step H s1 a1 H1. apply inv_get_state in H1 as [-> ->].
  destruct (bool_decide (is_Some (disk st !! context_file_of name))); [refute_failure H Hs|].
  step H s2 cd H2. step H s3 p3 H3. destruct p3 as [errs warns]. cbv beta iota in H.
  destruct (bool_decide (errs <> [])); [refute_failure H Hs|].
  apply try_except_inr in H as [H | (s0 & ex & _ & H)]; [|refute_failure H Hs].
  step H s4 u4 H4. step H s5 u5 H5. apply inv_mret in H as [-> _].
  exact (store_persists _ _ _ _ _ _ _ _ H4 H5).
Qed.

(** X10: after a successful [create_context_file], [update_context_rules],
    [add_context_pattern] or [auto_optimize_context], the context file of
    the name holds exactly the JSON serialisation of the document the
    provider keeps in memory for it. *)
Theorem successful_changes_are_persisted (e : env) (name : string) (st : state) :
  (forall category rules st' r,
     create_context_file e name category rules st = (st', inr r) ->
     succeeded r = true -> persisted_as_in_memory st' name) /\
  (forall updates st' r,
     update_context_rules e name updates st = (st', inr r) ->
     succeeded r = true -> persisted_as_in_memory st' name) /\
  (forall section pname cfg st' r,
     add_context_pattern e name section pname cfg st = (st', inr r) ->
     succeeded r = true -> persisted_as_in_memory st' name) /\
  (forall od st' r,
     auto_optimize_context e name od st = (st', inr r) ->
     succeeded r = true -> persisted_as_in_memory st' name).
Proof.
  split; [|split; [|split]].
  - intros category rules st' r H Hs. exact (proj2 (create_success _ _ _ _ _ _ _ H Hs)).
  - intros updates st' r H Hs. unfold update_context_rules in H.
    destruct (negb (_validate_context_name name)); [refute_failure H Hs|].
    step H s1 a1 H1. apply inv_get_state in H1 as [-> ->].
    destruct (negb (in_contexts name st)); [refute_failure H Hs|].
    apply backup_then_inr in H as (sb & bf & _ & H).
    apply try_except_inr in H as [H | (s0 & ex & _ & H)]; [|refute_failure H Hs].
    step H s2 cur H2. step H s3 p3 H3. destruct p3 as [errs warns]. cbv beta iota in H.
    destruct (bool_decide (errs <> [])); [refute_failure H Hs|].
    step H s4 u4 H4. step H s5 u5 H5. step H s6 items H6.
    apply inv_mret in H as [-> _]. apply inv_py_items in H6 as [-> _].
    exact (store_persists _ _ _ _ _ _ _ _ H4 H5).
  - intros section pname cfg st' r H Hs. unfold add_context_pattern in H.
    destruct (negb (_validate_context_name name)); [refute_failure H Hs|].
    step H s1 a1 H1. apply inv_get_state in H1 as [-> ->].
    destruct (negb (in_contexts name st)); [refute_failure H Hs|].
    destruct (negb (existsb (String.eqb section) valid_pattern_sections));
      [refute_failure H Hs|].
    apply backup_then_inr in H as (sb & bf & _ & H).
    apply try_except_inr in H as [H | (s0 & ex & _ & H)]; [|refute_failure H Hs].
    step H s2 cur0 H2. step H s3 cur H3. step H s4 u4 H4. step H s5 sd H5.
    step H s6 u6 H6. step H s7 u7 H7. step H s8 u8 H8. step H s9 u9 H9.
    apply inv_mret in H as [-> _].
    exact (store_persists _ _ _ _ _ _ _ _ H8 H9).
  - intros od st' r H Hs. unfold auto_optimize_context in H.
    apply try_except_inr in H as [H | (s0 & ex & _ & H)]; [|refute_failure H Hs].
    step H s1 a1 H1. apply inv_get_state in H1 as [-> ->].
    destruct (negb (in_contexts name st)); [refute_failure H Hs|].
    step H s2 cur0 H2. step H s3 cur H3. step H s4 applied H4. step H s5 bf H5.
    step H s6 p6 H6. destruct p6 as [errs warns]. cbv beta iota in H.
    destruct (bool_decide (errs <> [])); [refute_failure H Hs|].
    step H s7 u7 H7. step H s8 md8 H8. step H s9 u9 H9. step H s10 md10 H10.
    step H s11 u11 H11. step H s12 md12 H12. step H s13 c13 H13. step H s14 c14 H14.
    step H s15 md15 H15. step H s16 u16 H16. step H s17 u17 H17. step H s18 u18 H18.
    step H s19 otype H19.
    apply inv_mret in H as [-> _]. apply inv_py_get in H19 as [-> _].
    exact (store_persists _ _ _ _ _ _ _ _ H17 H18).
Qed.

(** X11: once [create_context_file] has succeeded for a name, a second
    call for the same name with a valid category is refused with the
    "already exists" answer and changes nothing. *)
Theorem create_twice_rejected (e e' : env) (name category category' : string)
    (rules rules' : value) (st st' : state) (r : result) :
  create_context_file e name category rules st = (st', inr r) -> succeeded r = true ->
  _validate_context_name category' = true ->
  create_context_file e' name category' rules' st' = (st', inr (already_exists_result name)).
Proof.
  intros H Hs Hc. destruct (create_success _ _ _ _ _ _ _ H Hs) as (Hv & v & j & _ & Hd & _).
  unfold create_context_file. rewrite Hv, Hc. cbn [negb].
  cbv [mbind M_bind get_state]. rewrite bool_decide_eq_true_2 by (rewrite Hd; eauto).
  reflexivity.
Qed.

Lemma create_twice_rejected_witness :
  create_context_file Fixtures.env0 "lint" "lint" Fixtures.arg_ref
    (create_context_file Fixtures.env0 "lint" "lint" Fixtures.arg_ref Fixtures.st_arg).1
  = ((create_context_file Fixtures.env0 "lint" "lint" Fixtures.arg_ref Fixtures.st_arg).1,
     inr (already_exists_result "lint")).
Proof.
  destruct (create_context_file Fixtures.env0 "lint" "lint" Fixtures.arg_ref Fixtures.st_arg)
    as [s' [ex|r]] eqn:E; [vm_compute in E; discriminate|].
  cbn [fst]. apply (create_twice_rejected _ _ _ "lint" _ _ _ _ _ _ E).
  - vm_compute in E. injection E as _ <-. vm_compute. reflexivity.
  - reflexivity.
Defined.

(** ** Session initialization *)

Lemma bind_run {A B} (m : M A) (k : A -> M B) (s s0 : state) (a : A) :
  m s = (s0, inr a) -> (m ≫= k) s = k a s0.
Proof. intros H. unfold mbind, M_bind. now rewrite H. Qed.

Lemma session_loops_agree (run : value -> value -> memory_result)
    (xs : list (string * value)) (s s' : state) (b : bool) :
  foldr (fun nd k =>
           d ← new_dict [];
           si ← py_get nd.2 "session_initialization" d;
           en ← py_get si "enabled" (VBool false);
           st' ← get_state;
           if py_truthy st' en then mret true else k)
        (mret false) xs s = (s', inr b) ->
  (b = false -> initialize_contexts run xs s = (s', inr [])) /\
  (b = true -> forall s'' names, initialize_contexts run xs s = (s'', inr names) ->
     names <> []).
Proof.
  revert s. induction xs as [|nd r IH]; intros s H; unfold initialize_contexts in *;
    cbn [foldr] in *.
  - apply inv_mret in H as [-> ->]. split; [reflexivity|discriminate].
  - step H s1 d H1. step H s2 si H2. step H s3 en H3. step H s4 st4 H4.
    rewrite (bind_run _ _ _ _ _ H1), (bind_run _ _ _ _ _ H2), (bind_run _ _ _ _ _ H3),
      (bind_run _ _ _ _ _ H4).
    destruct (py_truthy st4 en).
    + apply inv_mret in H as [-> ->]. split; [discriminate|].
      intros _ s'' names Hi. step Hi s5 u5 H5. step Hi s6 rest H6.
      apply inv_mret in Hi as [_ ->]. discriminate.
    + exact (IH s4 H).
Qed.

(** X12: [has_session_initialization_contexts] agrees with the loop of
    [execute_session_initialization]: when it answers [False], that loop
    runs through the same contexts, ends in the same state and initializes
    no context; when it answers [True], a completed loop initializes at
    least one context. *)
Theorem session_check_agrees_with_initialization
    (run : value -> value -> memory_result) (st st' : state) (b : bool) :
  has_session_initialization_contexts st = (st', inr b) ->
  (b = false -> initialize_contexts run (contexts st) st = (st', inr [])) /\
  (b = true -> forall st'' names,
     initialize_contexts run (contexts st) st = (st'', inr names) -> names <> []).
Proof.
  intros H. unfold has_session_initialization_contexts in H.
  step H s0 a0 H0. apply inv_get_state in H0 as [-> ->].
  exact (session_loops_agree run (contexts st) st st' b H).
Qed.

Lemma session_check_agrees_with_initialization_witness :
  initialize_contexts Fixtures.no_memory (contexts Fixtures.st0) Fixtures.st0
  = ((has_session_initialization_contexts Fixtures.st0).1, inr []).
Proof.
  destruct (has_session_initialization_contexts Fixtures.st0) as [s' [ex|b]] eqn:E;
    [vm_compute in E; discriminate|].
  assert (Hb : b = false) by (vm_compute in E; congruence). subst b.
  cbn [fst]. apply (session_check_agrees_with_initialization Fixtures.no_memory _ _ _ E).
  reflexivity.
Defined.

(** ** Loading the configuration directory *)

Lemma json_nested_ind (P : json -> Prop)
    (Hnull : P JNull) (Hbool : forall b, P (JBool b)) (Hint : forall z, P (JInt z))
    (Hstr : forall s, P (JStr s)) (Harr : forall xs, Forall P xs -> P (JArr xs))
    (Hobj : forall kvs, Forall (fun kv => P kv.2) kvs -> P (JObj kvs)) :
  forall j, P j.
Proof.
  fix F 1. intros [| | | |xs|kvs].
  - exact Hnull.
  - apply Hbool.
  - apply Hint.
  - apply Hstr.
  - apply Harr. induction xs as [|x xs IH]; constructor; [apply F|exact IH].
  - apply Hobj. induction kvs as [|kv kvs IH]; constructor; [apply F|exact IH].
Qed.

Lemma total_ctx_bind {A B} (m : M A) (k : A -> M B) :
  total_ctx m -> (forall a, total_ctx (k a)) -> total_ctx (m ≫= k).
Proof.
  intros Hm Hk s. destruct (Hm s) as (s1 & a & E1 & C1).
  destruct (Hk a s1) as (s2 & b & E2 & C2). exists s2, b.
  rewrite (bind_run _ _ _ _ _ E1). split; [exact E2|congruence].
Qed.

Lemma total_ctx_ret {A} (a : A) : total_ctx (mret a).
Proof. intros s. exists s, a. split; reflexivity. Qed.

Lemma total_ctx_alloc (o : obj) : total_ctx (alloc o).
Proof. intros s. eexists _, _. split; [reflexivity|reflexivity]. Qed.

Lemma total_ctx_mapM {A B} (f : A -> M B) (xs : list A) :
  Forall (fun x => total_ctx (f x)) xs -> total_ctx (mapM f xs).
Proof.
  induction 1 as [|x xs Hx _ IH]; cbn [mapM].
  - apply total_ctx_ret.
  - apply total_ctx_bind; [exact Hx|]. intros b.
    apply total_ctx_bind; [exact IH|]. intros bs. apply total_ctx_ret.
Qed.

Lemma of_json_total (j : json) : total_ctx (of_json j).
Proof.
  induction j as [|b|z|s|xs IH|kvs IH] using json_nested_ind; cbn [of_json];
    try apply total_ctx_ret.
  - apply total_ctx_bind; [now apply total_ctx_mapM|]. intros vs. apply total_ctx_alloc.
  - apply total_ctx_bind; [|intros vs; apply total_ctx_alloc].
    apply total_ctx_mapM. eapply Forall_impl; [exact IH|]. intros kv Hkv.
    apply total_ctx_bind; [exact Hkv|]. intros v. apply total_ctx_ret.
Qed.

Lemma load_context_file_total (path : string) : total_ctx (load_context_file path).
Proof.
  intros s. unfold load_context_file.
  destruct (disk s !! path) as [[j|raw]|]; [apply of_json_total|apply total_ctx_alloc|
                                             apply total_ctx_alloc].
Qed.

Lemma assoc_lookup_set_is_Some {A} (k k' : string) (v : A) (kvs : list (string * A)) :
  is_Some (assoc_lookup k kvs) \/ k = k' -> is_Some (assoc_lookup k (assoc_set k' v kvs)).
Proof.
  induction kvs as [|[k0 v0] r IH]; cbn [assoc_lookup assoc_set].
  - intros [[x Hx]| ->]; [discriminate|]. rewrite String.eqb_refl. eauto.
  - intros H. destruct (String.eqb k' k0) eqn:E.
    + apply String.eqb_eq in E; subst k0. cbn [assoc_lookup].
      destruct (String.eqb k k') eqn:E2; [eauto|].
      destruct H as [H|H]; [exact H|subst; rewrite String.eqb_refl in E2; discriminate].
    + cbn [assoc_lookup]. destruct (String.eqb k k0) eqn:E'; [eauto|].
      apply IH. destruct H as [H|H]; [left; exact H|right; exact H].
Qed.

Lemma load_loop (fnames : list string) (s : state) :
  exists s', foldr (fun fname k =>
                      v ← load_context_file fname;
                      ctx_set (context_name_of_file fname) v;;
                      k) (mret ()) fnames s = (s', inr ()) /\
    (forall k, is_Some (assoc_lookup k (contexts s)) ->
               is_Some (assoc_lookup k (contexts s'))) /\
    (forall f, In f fnames -> is_Some (assoc_lookup (context_name_of_file f) (contexts s'))).
Proof.
  revert s. induction fnames as [|f r IH]; intros s; cbn [foldr].
  - exists s. split; [reflexivity|]. split; [auto|intros f []].
  - destruct (load_context_file_total f s) as (s1 & v & E1 & C1).
    rewrite (bind_run _ _ _ _ _ E1).
    set (s2 := set_contexts (assoc_set (context_name_of_file f) v (contexts s1)) s1).
    assert (E2 : ctx_set (context_name_of_file f) v s1 = (s2, inr ())) by reflexivity.
    rewrite (bind_run _ _ _ _ _ E2).
    destruct (IH s2) as (s' & E' & Hkeep & Hnew). exists s'. split; [exact E'|].
    split.
    + intros k Hk. apply Hkeep. cbn [contexts s2 set_contexts].
      apply assoc_lookup_set_is_Some. left. congruence.
    + intros g [<-|Hg]; [|exact (Hnew g Hg)]. apply Hkeep.
      cbn [contexts s2 set_contexts]. apply assoc_lookup_set_is_Some. right. reflexivity.
Qed.

(** X13: with auto-loading on and the directory present, every file of
    the directory whose name ends in [.json] is loaded: its context name
    ([name_context.json] gives [name], [name.json] gives [name]) is a key of
    [self.contexts] after start-up, whether or not the file parses. *)
Theorem every_json_file_is_loaded (e : env) (d : gmap string file) (fname : string)
    (f : file) :
  auto_load e = true -> dir_exists e = true -> d !! fname = Some f ->
  ~ In "/"%char (list_ascii_of_string fname) -> ends_with ".json" fname = true ->
  in_contexts (context_name_of_file fname) (provider_init e d) = true.
Proof.
  intros Ha Hd Hf Hslash Hjson. unfold provider_init, load_all_contexts.
  rewrite Ha, Hd. cbn [negb].
  set (s0 := {| objs := ∅; next_loc := 1%positive; contexts := [];
               disk := d; status := initial_session_status |}).
  rewrite (bind_run _ _ s0 s0 s0 eq_refl).
  destruct (load_loop (discovered_files s0) s0) as (s' & E & _ & Hnew).
  rewrite E. cbn [fst]. unfold in_contexts. apply bool_decide_eq_true_2.
  apply Hnew. unfold discovered_files.
  assert (Hnslash : str_in "/" fname = false).
  { unfold str_in. change (list_ascii_of_string "/") with ["/"%char].
    destruct (is_infix ["/"%char] (list_ascii_of_string fname)) eqn:E';
      [apply is_infix_single in E'; contradiction|reflexivity]. }
  assert (Hl : fname ∈ dir_listing s0).
  { unfold dir_listing. apply list_elem_of_filter. split.
    - rewrite Hnslash. exact I.
    - apply list_elem_of_In, in_map_iff. exists (fname, f). split; [reflexivity|].
      apply list_elem_of_In, elem_of_map_to_list. exact Hf. }
  apply list_elem_of_In, elem_of_app. destruct (ends_with "_context.json" fname) eqn:Ec.
  - left. apply list_elem_of_filter. split; [rewrite Ec; exact I|exact Hl].
  - right. apply list_elem_of_filter. split; [|exact Hl]. rewrite Hjson. cbn [andb].
    rewrite bool_decide_eq_false_2; [exact I|].
    intros Hin. apply list_elem_of_filter in Hin as [Hin _]. rewrite Ec in Hin. exact Hin.
Qed.

Lemma every_json_file_is_loaded_witness :
  in_contexts (context_name_of_file "notes.json") Fixtures.st0 = true.
Proof.
  apply (every_json_file_is_loaded Fixtures.env0 Fixtures.disk0 "notes.json"
           (FRaw "{unterminated")); try reflexivity.
  simpl. intuition discriminate.
Defined.

(** ** The trailing newline accepted by [_validate_context_name] *)

Lemma strip_final_newline_snoc (l : list ascii) :
  strip_final_newline (l ++ [newline]) = l.
Proof.
  unfold strip_final_newline. rewrite rev_app_distr. cbn [rev app].
  rewrite Ascii.eqb_refl. apply rev_involutive.
Qed.

Lemma strip_final_newline_no_newline (l : list ascii) :
  ~ In newline l -> strip_final_newline l = l.
Proof.
  unfold strip_final_newline. intros Hn.
  destruct (rev l) as [|c t] eqn:E; [reflexivity|].
  destruct (Ascii.eqb c newline) eqn:Ec; [|reflexivity].
  apply Ascii.eqb_eq in Ec; subst c. exfalso. apply Hn. apply in_rev. rewrite E. left.
  reflexivity.
Qed.

(** X14: a valid name with no newline, shorter than 50 characters, stays
    valid with a newline appended: the [$] of the name pattern matches
    before a final newline. *)
Theorem valid_name_accepts_trailing_newline (name : string) :
  _validate_context_name name = true -> ~ In newline (list_ascii_of_string name) ->
  (String.length name < 50)%nat ->
  _validate_context_name (name +:+ String newline EmptyString) = true.
Proof.
  intros Hv Hn Hlen. pose proof Hv as Hv'.
  unfold _validate_context_name, re_match_name in Hv |- *.
  repeat rewrite Bool.andb_true_iff in Hv. destruct Hv as [[[[Hne Hall] _] _] _].
  rewrite strip_final_newline_no_newline in Hne, Hall by exact Hn.
  rewrite list_ascii_of_string_app. cbn [list_ascii_of_string].
  rewrite strip_final_newline_snoc, Hne, Hall. cbn [andb].
  rewrite string_length_list, list_ascii_of_string_app, length_app.
  rewrite string_length_list in Hlen. cbn [list_ascii_of_string length].
  assert (H1 : (1 <=? length (list_ascii_of_string name) + 1)%nat = true)
    by (apply Nat.leb_le; lia).
  assert (H2 : (length (list_ascii_of_string name) + 1 <=? 50)%nat = true)
    by (apply Nat.leb_le; lia).
  rewrite H1, H2. cbn [andb negb].
  apply negb_true_iff. apply not_true_is_false. intros Hr.
  apply existsb_exists in Hr as (r & Hr & Er). apply String.eqb_eq in Er.
  assert (Hin : In newline (list_ascii_of_string r)).
  { rewrite <- Er. unfold py_lower. rewrite list_ascii_of_string_of_list_ascii.
    rewrite list_ascii_of_string_app, map_app. apply in_or_app. right. left. reflexivity. }
  unfold reserved_names in Hr.
  repeat destruct Hr as [<-|Hr]; try contradiction; vm_compute in Hin;
    repeat destruct Hin as [Hin|Hin]; try discriminate Hin; contradiction.
Qed.

Lemma valid_name_accepts_trailing_newline_witness :
  _validate_context_name ("git" +:+ String newline EmptyString) = true.
Proof.
  apply valid_name_accepts_trailing_newline; [reflexivity| |vm_compute; lia].
  vm_compute. intuition discriminate.
Defined.

(** ** [json.load] followed by [json.dump] *)











(** ** [auto_optimize_context] called with a boolean *)

(** X16: [handle_call_tool] passes the boolean [apply_optimizations] as the
    [optimization_data] of [auto_optimize_context]. With a boolean there, the
    call never succeeds: an unknown context gives "not found", and a known one
    fails on [optimization_data.get] (or on [.copy()] when its value is no
    dict or list), the exception being turned into the failure answer; the
    contexts and the files are left unchanged. *)
Theorem auto_optimize_bool_argument (e : env) (name : string) (b : bool) (st : state) :
  let '(st', r) := auto_optimize_context e name (VBool b) st in
  contexts st' = contexts st /\ disk st' = disk st /\
  r = inr (match assoc_lookup name (contexts st) with
           | None => [("success", RB false);
                      ("error", RS ("Context " +:+ name +:+ " not found"))]
           | Some v =>
               [("success", RB false);
                ("error", RS ("Auto-optimization failed: " +:+
                   match deref st v with
                   | Some _ => "'bool' object has no attribute 'get'"
                   | None => "'" +:+ type_name st v +:+ "' object has no attribute 'copy'"
                   end));
                ("context_name", RS name)]
           end).
Proof.
  destruct st as [h n c d s].
  unfold auto_optimize_context, try_except, in_contexts.
  cbv [mbind M_bind get_state ctx_get py_copy apply_optimization py_get alloc deref
       set_next set_objs objs next_loc contexts disk status].
  destruct (assoc_lookup name c) as [v|] eqn:Hv.
  - rewrite bool_decide_true by (eexists; reflexivity). cbn [negb].
    rewrite Hv. destruct v as [|b0|z|s0|l]; cbn; try (split; [reflexivity|split; reflexivity]).
    destruct (h !! l) as [o|]; cbn; (split; [reflexivity|split; reflexivity]).
  - rewrite bool_decide_false by (intros [? ?]; discriminate). cbn.
    split; [reflexivity|split; reflexivity].
Qed.
